(** * stock_check: the analysis pipeline of [backend/app], embedded in Rocq

    The services ([holdings_fetcher], [performance_analyzer],
    [earnings_collector], [news_collector], [llm_agent]), the agent router
    and the scheduler are translated function by function.  Python numbers
    are exact rationals ([Q]); datetimes are integer seconds; an exception
    is a value of [outcome].  IEEE rounding, infinities and NaN are outside
    this model. *)

From Stdlib Require Import ZArith QArith Qabs Lia Ascii String.
From stdpp Require Import base option list strings sorting pretty.

Set Warnings "-register-all".
Local Open Scope string_scope.

(** ** Python semantics shared by the services *)

Module Py.

  (** Exception classes the sources raise or catch.  [CancelledError]
      derives from [BaseException] only; every other class derives from
      [Exception]. *)
Inductive exn_class :=
  | HTTPError | ValueError | TypeError | KeyError | AttributeError
  | ValidationError | ZeroDivisionError | RuntimeError | CancelledError.

Record exn := Exn { exn_cls : exn_class; exn_msg : string }.

Definition is_Exception (e : exn) : bool :=
    match exn_cls e with CancelledError => false | _ => true end.

Definition is_HTTPError (e : exn) : bool :=
    match exn_cls e with HTTPError => true | _ => false end.

Definition is_ValueError (e : exn) : bool :=
    match exn_cls e with ValueError => true | _ => false end.

  (** A call either returns or raises. *)
Inductive outcome (A : Type) :=
  | Returned (a : A)
  | Raised (e : exn).
  Global Arguments Returned {A} a.
  Global Arguments Raised {A} e.

Definition bind {A B} (m : outcome A) (k : A → outcome B) : outcome B :=
    match m with Returned a => k a | Raised e => Raised e end.

Global Instance outcome_ret : MRet outcome := @Returned.
Global Instance outcome_bind : MBind outcome := λ A B k m, bind m k.

  (** [for x in xs: ys.append(f(x))] where [f] may raise. *)
Fixpoint traverse {A B} (f : A → outcome B) (xs : list A) : outcome (list B) :=
    match xs with
    | [] => Returned []
    | x :: xs' => y ← f x; ys ← traverse f xs'; Returned (y :: ys)
    end.

  (** A nullable number: [None] or an [int]/[float]. *)
Definition num := option Q.

Definition Qnonzero (q : Q) : bool := negb (Qeq_bool q 0).
Definition Qltb (a b : Q) : bool := negb (Qle_bool b a).

  (** [bool(x)] for a nullable number: [None], [0] and [0.0] are falsy. *)
Definition truthy (x : num) : bool :=
    match x with Some q => Qnonzero q | None => false end.

  (** [a or b]. *)
Definition or_ (a b : num) : num := if truthy a then a else b.

Definition unsupported (op : string) : exn :=
    Exn TypeError ("unsupported operand type(s) for " +:+ op).

Definition sub (a b : num) : outcome Q :=
    match a, b with
    | Some x, Some y => Returned (x - y)%Q
    | _, _ => Raised (unsupported "-")
    end.

Definition mul (a b : num) : outcome Q :=
    match a, b with
    | Some x, Some y => Returned (x * y)%Q
    | _, _ => Raised (unsupported "*")
    end.

  (** [a / b]: true division, raising on a zero divisor. *)
Definition truediv (a b : num) : outcome Q :=
    match a, b with
    | Some x, Some y =>
        if Qnonzero y then Returned (x / y)%Q
        else Raised (Exn ZeroDivisionError "division by zero")
    | _, _ => Raised (unsupported "/")
    end.

  (** [bool(s)] for a string. *)
Definition str_truthy (s : string) : bool :=
    match s with "" => false | _ => true end.

  (** [sum(xs)] over numbers. *)
Definition Qsum (xs : list Q) : Q := foldr Qplus 0%Q xs.

  (** ** [list.sort(key=...)] and [sorted]

      CPython's sort is stable and compares keys with [<] only.  A stable
      sort has one possible result, so insertion from the right stands
      for it.  With [reverse=True] CPython reverses the list, sorts it and
      reverses it again, which keeps equal keys in their original order. *)
  Section Sort.
    Context {A : Type} (key : A → Q).

Fixpoint insert (x : A) (l : list A) : list A :=
      match l with
      | [] => [x]
      | y :: l' => if Qltb (key y) (key x) then y :: insert x l' else x :: l
      end.

Definition sort (l : list A) : list A := foldr insert [] l.

Definition sort_reverse (l : list A) : list A := rev (sort (rev l)).

    (** The orders a sorted result is stated in, and the test selecting
        the elements of one key. *)
Definition key_le (a b : A) : Prop := (key a <= key b)%Q.
Definition key_ge (a b : A) : Prop := (key b <= key a)%Q.
Definition same_key (k : Q) (a : A) : bool := Qeq_bool (key a) k.
  End Sort.

  (** [sorted(xs)] on strings: the order is total and antisymmetric, so
      every correct sort returns the same list. *)
Definition sorted_str (xs : list string) : list string :=
    merge_sort String.le xs.

  (** [sep.join(xs)]. *)
Fixpoint join (sep : string) (xs : list string) : string :=
    match xs with
    | [] => ""
    | [x] => x
    | x :: xs' => x +:+ sep +:+ join sep xs'
    end.

  (** [str.upper] and [str.lower] on the ASCII letters. *)
Definition upper_char (c : ascii) : ascii :=
    let n := Ascii.N_of_ascii c in
    if ((97 <=? n) && (n <=? 122))%N then Ascii.ascii_of_N (n - 32) else c.

Definition lower_char (c : ascii) : ascii :=
    let n := Ascii.N_of_ascii c in
    if ((65 <=? n) && (n <=? 90))%N then Ascii.ascii_of_N (n + 32) else c.

Fixpoint map_chars (f : ascii → ascii) (s : string) : string :=
    match s with
    | "" => ""
    | String c s' => String (f c) (map_chars f s')
    end.

Definition upper : string → string := map_chars upper_char.
Definition lower : string → string := map_chars lower_char.

  (** [(a - b).days] for datetimes in seconds: [timedelta] normalises
      towards minus infinity. *)
Definition days_between (a b : Z) : Z := ((a - b) `div` 86400)%Z.

End Py.

Import Py.

(** ** [config.py] *)

Module Settings.
Record t := {
    holdings_endpoint_url : string;
    holdings_auth_token : string;
    llm_provider : string;
    llm_model : string;
    openai_api_key : string;
    anthropic_api_key : string;
    local_llm_url : string;
    scheduler_enabled : bool;
    scheduler_cron : string;
    fluctuation_threshold : Q;
    earnings_cache_hours : Z;
    news_cache_minutes : Z
  }.

  (** The field defaults of [class Settings]. *)
Definition default : t := {|
    holdings_endpoint_url := "https://your-ngrok-url.ngrok.io/api/holdings";
    holdings_auth_token := "";
    llm_provider := "anthropic";
    llm_model := "claude-3-sonnet-20240229";
    openai_api_key := "";
    anthropic_api_key := "";
    local_llm_url := "http://localhost:11434";
    scheduler_enabled := true;
    scheduler_cron := "0 9,16 * * 1-5";
    fluctuation_threshold := 5%Q;
    earnings_cache_hours := 4%Z;
    news_cache_minutes := 30%Z
  |}.
End Settings.

(** ** [models/holdings.py], [models/analysis.py], [models/agent.py] *)

Module Holding.
Record t := {
    symbol : string;
    name : string;
    shares : Q;
    average_cost : num;
    current_price : num;
    market_value : num;
    sector : option string
  }.
End Holding.

Module HoldingsResponse.
Record t := {
    holdings : list Holding.t;
    total_value : num;
    fetched_at : Z;
    source : string
  }.
End HoldingsResponse.

Module HoldingPerformance.
Record t := {
    symbol : string;
    name : string;
    shares : Q;
    current_price : num;
    previous_close : num;
    change_amount : num;
    change_percent : num;
    day_high : num;
    day_low : num;
    volume : option Z;
    market_value : num;
    is_high_fluctuation : bool
  }.
End HoldingPerformance.

Module PerformanceResponse.
Record t := {
    holdings : list HoldingPerformance.t;
    high_fluctuation_count : nat;
    total_value : num;
    analyzed_at : Z
  }.
End PerformanceResponse.

Module FluctuationAlert.
Record t := {
    symbol : string;
    name : string;
    change_percent : Q;
    change_amount : num;
    current_price : num;
    previous_close : num;
    direction : string;
    volume : option Z
  }.
End FluctuationAlert.

Module EarningsEvent.
Record t := {
    symbol : string;
    name : string;
    earnings_date : Z;
    time_of_day : option string;
    eps_estimate : num;
    revenue_estimate : num;
    days_until : Z
  }.
End EarningsEvent.

Module NewsItem.
Record t := {
    symbol : string;
    title : string;
    publisher : string;
    link : string;
    published_at : option Z;
    summary : option string;
    thumbnail_url : option string
  }.
End NewsItem.

Module AgentSummary.
Record t := {
    summary : string;
    key_insights : list string;
    recommendations : list string;
    risk_factors : list string;
    generated_at : Z;
    model_used : string
  }.
End AgentSummary.

Module AnalyzeRequest.
Record t := {
    force_refresh : bool;
    include_news : bool;
    include_earnings : bool
  }.
Definition default : t :=
    {| force_refresh := false; include_news := true; include_earnings := true |}.
End AnalyzeRequest.

Module AnalyzeResponse.
Record t := {
    summary : option AgentSummary.t;
    fluctuation_alerts : list FluctuationAlert.t;
    upcoming_earnings : list EarningsEvent.t;
    news_items : list NewsItem.t;
    holdings_count : nat;
    analyzed_at : Z;
    status : string;
    error : option string
  }.
End AnalyzeResponse.

(** ** [services/performance_analyzer.py] *)

Module PerformanceAnalyzer.

  (** The keys of [yf.Ticker(symbol).info] the analyzer reads.  A price is
      [None] when the key is absent or maps to [None] ([dict.get] returns
      [None] for both).  [shortName] is read with a default, so an absent
      key ([None]) and a key bound to [None] ([Some None]) differ. *)
Record info := {
    currentPrice : num;
    regularMarketPrice : num;
    previousClose : num;
    regularMarketPreviousClose : num;
    shortName : option (option string);
    dayHigh : num;
    dayLow : num;
    volume : option Z
  }.

  Section Analyzer.
    Variable settings : Settings.t.
    (** [yf.Ticker(symbol).info]: a network call that may raise. *)
    Variable ticker_info : string → outcome info.

    (** The three locals set under "Calculate change". *)
Definition calculate_change (current_price previous_close : num)
      : outcome (num * num * bool) :=
      if truthy current_price && truthy previous_close then
        change_amount ← sub current_price previous_close;
        ratio ← truediv (Some change_amount) previous_close;
        change_percent ← mul (Some ratio) (Some 100%Q);
        Returned (Some change_amount, Some change_percent,
                  Qle_bool (Settings.fluctuation_threshold settings)
                           (Qabs change_percent))
      else Returned (None, None, false).

    (** The body of the [try] block of [_get_stock_performance]. *)
Definition _get_stock_performance_try (holding : Holding.t)
      : outcome HoldingPerformance.t :=
      info ← ticker_info (Holding.symbol holding);
      let current_price := or_ (currentPrice info) (regularMarketPrice info) in
      let previous_close :=
        or_ (previousClose info) (regularMarketPreviousClose info) in
      '(change_amount, change_percent, is_high_fluctuation) ←
        calculate_change current_price previous_close;
      market_value ←
        (if truthy current_price && Qnonzero (Holding.shares holding)
         then v ← mul current_price (Some (Holding.shares holding));
              Returned (Some v)
         else Returned None);
      (* name=holding.name or info.get("shortName", ""); the model's str
         field refuses None *)
      name ←
        (if str_truthy (Holding.name holding) then Returned (Holding.name holding)
         else match shortName info with
              | None => Returned ""
              | Some (Some s) => Returned s
              | Some None =>
                  Raised (Exn ValidationError "name: Input should be a valid string")
              end);
      Returned {|
        HoldingPerformance.symbol := Holding.symbol holding;
        HoldingPerformance.name := name;
        HoldingPerformance.shares := Holding.shares holding;
        HoldingPerformance.current_price := current_price;
        HoldingPerformance.previous_close := previous_close;
        HoldingPerformance.change_amount := change_amount;
        HoldingPerformance.change_percent := change_percent;
        HoldingPerformance.day_high := dayHigh info;
        HoldingPerformance.day_low := dayLow info;
        HoldingPerformance.volume := volume info;
        HoldingPerformance.market_value := market_value;
        HoldingPerformance.is_high_fluctuation := is_high_fluctuation
      |}.

    (** The record of the [except Exception] branch. *)
Definition basic_info (holding : Holding.t) : HoldingPerformance.t := {|
      HoldingPerformance.symbol := Holding.symbol holding;
      HoldingPerformance.name := Holding.name holding;
      HoldingPerformance.shares := Holding.shares holding;
      HoldingPerformance.current_price := None;
      HoldingPerformance.previous_close := None;
      HoldingPerformance.change_amount := None;
      HoldingPerformance.change_percent := None;
      HoldingPerformance.day_high := None;
      HoldingPerformance.day_low := None;
      HoldingPerformance.volume := None;
      HoldingPerformance.market_value := None;
      HoldingPerformance.is_high_fluctuation := false
    |}.

    (** [_get_stock_performance]: [None] is never returned; an exception
        that is not an [Exception] leaves the function. *)
Definition _get_stock_performance (holding : Holding.t)
      : outcome HoldingPerformance.t :=
      match _get_stock_performance_try holding with
      | Returned p => Returned p
      | Raised e =>
          if is_Exception e then Returned (basic_info holding) else Raised e
      end.

    (** [analyze_holdings]: one lookup per holding, gathered. *)
Definition analyze_holdings (now : Z) (holdings : list Holding.t)
      : outcome PerformanceResponse.t :=
      valid_performances ← traverse _get_stock_performance holdings;
      let high_fluctuation_count :=
        length (filter (λ p, HoldingPerformance.is_high_fluctuation p = true)
                       valid_performances) in
      let total_value :=
        Qsum (omap HoldingPerformance.market_value valid_performances) in
      Returned {|
        PerformanceResponse.holdings := valid_performances;
        PerformanceResponse.high_fluctuation_count := high_fluctuation_count;
        PerformanceResponse.total_value :=
          if Qltb 0 total_value then Some total_value else None;
        PerformanceResponse.analyzed_at := now
      |}.



  End Analyzer.

  (** The alert built in the loop of [get_fluctuation_alerts]; [None] when
      the [if] skips the record. *)
Definition alert_of (p : HoldingPerformance.t) : option FluctuationAlert.t :=
    match HoldingPerformance.change_percent p with
    | Some cp =>
        if HoldingPerformance.is_high_fluctuation p then
          Some {|
            FluctuationAlert.symbol := HoldingPerformance.symbol p;
            FluctuationAlert.name := HoldingPerformance.name p;
            FluctuationAlert.change_percent := cp;
            FluctuationAlert.change_amount := HoldingPerformance.change_amount p;
            FluctuationAlert.current_price := HoldingPerformance.current_price p;
            FluctuationAlert.previous_close := HoldingPerformance.previous_close p;
            FluctuationAlert.direction := if Qltb 0 cp then "up" else "down";
            FluctuationAlert.volume := HoldingPerformance.volume p
          |}
        else None
    | None => None
    end.

Definition abs_change (a : FluctuationAlert.t) : Q :=
    Qabs (FluctuationAlert.change_percent a).

Definition get_fluctuation_alerts (performances : list HoldingPerformance.t)
    : list FluctuationAlert.t :=
    let alerts := omap alert_of performances in
    sort_reverse abs_change alerts.

End PerformanceAnalyzer.

(** ** [services/holdings_fetcher.py] *)

Module HoldingsFetcher.

  (** The value [response.json()] returns.  A [dict] is its list of
      items with distinct keys. *)
Inductive json :=
  | JNull
  | JBool (b : bool)
  | JNum (q : Q)
  | JStr (s : string)
  | JArr (items : list json)
  | JObj (fields : list (string * json)).

  (** [key in d]. *)
Definition has_key (k : string) (d : list (string * json)) : bool :=
    bool_decide (k ∈ d.*1).

  (** [d[key]] for a key that is present, [d.get(key)] otherwise. *)
Definition get (k : string) (d : list (string * json)) : json :=
    match list_find (λ kv, kv.1 = k) d with
    | Some (_, (_, v)) => v
    | None => JNull
    end.

  (** [bool(v)]. *)
Definition jtruthy (v : json) : bool :=
    match v with
    | JNull => false
    | JBool b => b
    | JNum q => Qnonzero q
    | JStr s => str_truthy s
    | JArr l => match l with [] => false | _ => true end
    | JObj d => match d with [] => false | _ => true end
    end.

  (** [a or b]. *)
Definition jor (a b : json) : json := if jtruthy a then a else b.

  (** [d.get(k1) or d.get(k2) or ... or last]. *)
Definition first_of (d : list (string * json)) (keys : list string) (last : json)
    : json :=
    foldr (λ k rest, jor (get k d) rest) last keys.

  (** [for item in v]: a list yields its items, a dict its keys, a string
      its characters; anything else is not iterable. *)
Definition iterate (v : json) : outcome (list json) :=
    match v with
    | JArr l => Returned l
    | JObj d => Returned (JStr <$> d.*1)
    | JStr s => Returned ((λ c, JStr (String c "")) <$> list_ascii_of_string s)
    | _ => Raised (Exn TypeError "object is not iterable")
    end.

  Section Fetcher.
    (** [float(s)] for a string [s]; [None] when Python raises
        [ValueError]. *)
    Variable float_of_str : string → option Q.

    (** [float(v)]. *)
Definition to_float (v : json) : outcome Q :=
      match v with
      | JNum q => Returned q
      | JBool b => Returned (if b then 1%Q else 0%Q)
      | JStr s =>
          match float_of_str s with
          | Some q => Returned q
          | None => Raised (Exn ValueError "could not convert string to float")
          end
      | _ => Raised (Exn TypeError "float() argument must be a string or a real number")
      end.

    (** [if v: v = float(v)]. *)
Definition float_if_truthy (v : json) : outcome json :=
      if jtruthy v then q ← to_float v; Returned (JNum q) else Returned v.

    (** Validation of an [Optional[float]] field of the [Holding] model. *)
Definition validate_opt_float (field : string) (v : json) : outcome num :=
      match v with
      | JNull => Returned None
      | JNum q => Returned (Some q)
      | JBool b => Returned (Some (if b then 1%Q else 0%Q))
      | JStr s =>
          match float_of_str s with
          | Some q => Returned (Some q)
          | None => Raised (Exn ValidationError (field +:+ ": Input should be a valid number"))
          end
      | _ => Raised (Exn ValidationError (field +:+ ": Input should be a valid number"))
      end.

    (** Validation of a [str] field and of an [Optional[str]] field. *)
Definition validate_str (field : string) (v : json) : outcome string :=
      match v with
      | JStr s => Returned s
      | _ => Raised (Exn ValidationError (field +:+ ": Input should be a valid string"))
      end.

Definition validate_opt_str (field : string) (v : json) : outcome (option string) :=
      match v with
      | JNull => Returned None
      | JStr s => Returned (Some s)
      | _ => Raised (Exn ValidationError (field +:+ ": Input should be a valid string"))
      end.

Definition _parse_single_holding (item : json) : outcome (option Holding.t) :=
      match item with
      | JObj d =>
          let symbol := first_of d ["symbol"; "ticker"; "Symbol"] (get "Ticker" d) in
          if negb (jtruthy symbol) then Returned None else
          let name := first_of d ["name"; "company"; "Name"; "companyName"] (JStr "") in
          shares ← to_float
            (first_of d ["shares"; "quantity"; "open_quantity"; "Shares"; "Quantity"]
                      (JNum 0));
          average_cost ← float_if_truthy
            (first_of d ["average_cost"; "averageCost"; "average_entry_price"]
                      (get "cost_basis" d));
          current_price ← float_if_truthy
            (first_of d ["current_price"; "currentPrice"] (get "price" d));
          let market_value :=
            first_of d ["market_value"; "marketValue"; "current_market_value"]
                     (get "value" d) in
          market_value ←
            (if jtruthy market_value then
               q ← to_float market_value; Returned (JNum q)
             else if jtruthy current_price && Qnonzero shares then
               p ← to_float current_price; Returned (JNum (p * shares)%Q)
             else Returned market_value);
          let sector := jor (get "sector" d) (get "Sector" d) in
          (* Holding(symbol=symbol.upper(), ...) *)
          symbol ←
            match symbol with
            | JStr s => Returned (upper s)
            | _ => Raised (Exn AttributeError "object has no attribute 'upper'")
            end;
          name ← validate_str "name" name;
          average_cost ← validate_opt_float "average_cost" average_cost;
          current_price ← validate_opt_float "current_price" current_price;
          market_value ← validate_opt_float "market_value" market_value;
          sector ← validate_opt_str "sector" sector;
          Returned (Some {|
            Holding.symbol := symbol;
            Holding.name := name;
            Holding.shares := shares;
            Holding.average_cost := average_cost;
            Holding.current_price := current_price;
            Holding.market_value := market_value;
            Holding.sector := sector
          |})
      | _ => Returned None
      end.

    (** The first half of [_parse_holdings]: which value is iterated. *)
Definition holdings_data (data : json) : json :=
      match data with
      | JArr l => JArr l
      | JObj d =>
          if has_key "portfolio_holdings" d then get "portfolio_holdings" d
          else if has_key "holdings" d then get "holdings" d
          else if has_key "data" d then get "data" d
          else if has_key "positions" d then get "positions" d
          else JArr [data]
      | _ => JArr []
      end.

Definition _parse_holdings (data : json) : outcome (list Holding.t) :=
      items ← iterate (holdings_data data);
      parsed ← traverse _parse_single_holding items;
      Returned (omap id (parsed : list (option Holding.t))).

    (** [fetch_holdings], given what the GET, [raise_for_status] and
        [response.json()] produced. *)
Definition fetch_holdings (now : Z) (response : outcome json)
      : outcome HoldingsResponse.t :=
      data ← response;
      holdings ← _parse_holdings data;
      let total_value := Qsum (omap Holding.market_value holdings) in
      Returned {|
        HoldingsResponse.holdings := holdings;
        HoldingsResponse.total_value :=
          if Qltb 0 total_value then Some total_value else None;
        HoldingsResponse.fetched_at := now;
        HoldingsResponse.source := "ngrok"
      |}.
  End Fetcher.

Definition mock_holding (symbol name : string) (shares average_cost : Q)
    : Holding.t := {|
    Holding.symbol := symbol;
    Holding.name := name;
    Holding.shares := shares;
    Holding.average_cost := Some average_cost;
    Holding.current_price := None;
    Holding.market_value := None;
    Holding.sector := None
  |}.

Definition get_mock_holdings (now : Z) : HoldingsResponse.t := {|
    HoldingsResponse.holdings := [
      mock_holding "AAPL" "Apple Inc." 100 150;
      mock_holding "MSFT" "Microsoft Corporation" 50 350;
      mock_holding "GOOGL" "Alphabet Inc." 25 140;
      mock_holding "TSLA" "Tesla Inc." 30 200;
      mock_holding "NVDA" "NVIDIA Corporation" 40 500
    ];
    HoldingsResponse.total_value := None;
    HoldingsResponse.fetched_at := now;
    HoldingsResponse.source := "mock"
  |}.

End HoldingsFetcher.

(** ** [cachetools.TTLCache], as far as the collectors use it

    Entries are kept oldest first.  An entry is visible while the timer is
    strictly below its expiry; a write first drops the expired entries,
    then evicts the oldest entries while the cache is full. *)

Module TTLCache.
  Section Cache.
    Context {V : Type}.

Record link := { key : string; value : V; expires : Z }.

Record t := { maxsize : nat; ttl : Z; links : list link }.

Definition create (maxsize : nat) (ttl : Z) : t :=
      {| maxsize := maxsize; ttl := ttl; links := [] |}.

Definition find (k : string) (c : t) : option link :=
      snd <$> list_find (λ l, key l = k) (links c).

    (** [key in cache] at timer value [time]. *)
Definition contains (time : Z) (k : string) (c : t) : bool :=
      match find k c with
      | Some l => bool_decide (time < expires l)%Z
      | None => false
      end.

    (** [cache[key]] at timer value [time]. *)
Definition getitem (time : Z) (k : string) (c : t) : outcome V :=
      match find k c with
      | Some l =>
          if bool_decide (time < expires l)%Z then Returned (value l)
          else Raised (Exn KeyError k)
      | None => Raised (Exn KeyError k)
      end.

Definition expire (time : Z) (ls : list link) : list link :=
      filter (λ l, (time < expires l)%Z) ls.

    (** [popitem] until one more entry fits. *)
Fixpoint evict (maxsize : nat) (ls : list link) : list link :=
      match ls with
      | [] => []
      | _ :: ls' => if bool_decide (length ls < maxsize) then ls else evict maxsize ls'
      end.

    (** [cache[key] = value] at timer value [time]. *)
Definition setitem (time : Z) (k : string) (v : V) (c : t) : outcome t :=
      if bool_decide (maxsize c = 0) then Raised (Exn ValueError "value too large")
      else
        let live := expire time (links c) in
        let new := {| key := k; value := v; expires := (time + ttl c)%Z |} in
        let others := filter (λ l, key l ≠ k) live in
        let kept :=
          if bool_decide (k ∈ key <$> live) then others
          else evict (maxsize c) others in
        Returned {| maxsize := maxsize c; ttl := ttl c; links := kept ++ [new] |}.

Definition clear (c : t) : t :=
      {| maxsize := maxsize c; ttl := ttl c; links := [] |}.
  End Cache.
  Global Arguments link : clear implicits.
  Global Arguments t : clear implicits.
End TTLCache.

(** ** [services/earnings_collector.py] *)

Module EarningsCollector.

  (** What [calendar.get("Earnings Date")] and the like may hold. *)
Inductive date_value :=
  | DNone
  | DDatetime (t : Z)          (* a datetime *)
  | DConvertible (t : Z)       (* not a datetime, has to_pydatetime *)
  | DList (ds : list date_value)
  | DOther.

  (** [ticker.calendar]: [None], a dict, or a frame with [empty] and
      [to_dict]. *)
Inductive calendar :=
  | CalNone
  | CalDict (earnings_date : option date_value) (earnings_average revenue_average : num)
  | CalFrame (empty : bool) (to_dict_earnings_date : option date_value).

Record info := {
    earningsTimestamp : option Z;
    shortName : option (option string)
  }.

  (** The timer readings of one call and the wall clock. *)
Record clock := {
    t_contains : Z;
    t_getitem : Z;
    t_setitem : Z;
    wall : Z
  }.

  (** A call's effect: the cache afterwards, the symbols looked up, and
      what the call returned. *)
Record call (A : Type) := {
    cache_after : TTLCache.t (list A);
    fetched : list string;
    result : outcome (list A)
  }.
  Global Arguments cache_after {A} c.
  Global Arguments fetched {A} c.
  Global Arguments result {A} c.

(** The upcoming window of the collector: 0 to 30 days. *)
Definition in_window (e : EarningsEvent.t) : Prop :=
  (0 ≤ EarningsEvent.days_until e ≤ 30)%Z.

(** Every cached list holds events of the window only. *)
Definition cache_in_window (cache : TTLCache.t (list EarningsEvent.t)) : Prop :=
  ∀ l, l ∈ TTLCache.links cache → Forall in_window (TTLCache.value l).

  Section Collector.
    Variable settings : Settings.t.
    Variable ticker_calendar : string → outcome calendar.
    Variable ticker_info : string → outcome info.

    (** [__init__]: the cache of a fresh collector. *)
Definition new_cache : TTLCache.t (list EarningsEvent.t) :=
      TTLCache.create 100 (Settings.earnings_cache_hours settings * 3600)%Z.

Definition is_none (d : date_value) : bool :=
      match d with DNone => true | _ => false end.

Definition _get_earnings_for_symbol_try (now : Z) (symbol : string)
      : outcome (option EarningsEvent.t) :=
      cal ← ticker_calendar symbol;
      (* calendar is None or calendar.empty *)
      skip ← match cal with
             | CalNone => Returned true
             | CalDict _ _ _ =>
                 Raised (Exn AttributeError "'dict' object has no attribute 'empty'")
             | CalFrame empty _ => Returned empty
             end;
      if (skip : bool) then Returned None else
      let earnings_date :=
        match cal with
        | CalDict d _ _ => default DNone d
        | CalFrame _ d => default DNone d
        | CalNone => DNone
        end in
      earnings_date ←
        (if is_none earnings_date then
           info ← ticker_info symbol;
           match earningsTimestamp info with
           | Some ts => if bool_decide (ts ≠ 0%Z) then Returned (DDatetime ts)
                        else Returned DNone
           | None => Returned DNone
           end
         else Returned earnings_date);
      if is_none earnings_date then Returned None else
      let earnings_date :=
        match earnings_date with
        | DList ds => match ds with d :: _ => d | [] => DNone end
        | d => d
        end in
      if is_none earnings_date then Returned None else
      match (match earnings_date with
             | DDatetime t => Some t
             | DConvertible t => Some t
             | _ => None
             end) with
      | None => Returned None
      | Some earnings_date =>
          let days_until := days_between earnings_date now in
          if bool_decide (days_until < 0)%Z || bool_decide (days_until > 30)%Z
          then Returned None else
          info ← ticker_info symbol;
          name ← match shortName info with
                 | None => Returned symbol
                 | Some (Some s) => Returned s
                 | Some None =>
                     Raised (Exn ValidationError "name: Input should be a valid string")
                 end;
          let '(eps_estimate, revenue_estimate) :=
            match cal with
            | CalDict _ eps rev => (eps, rev)
            | _ => (None, None)
            end in
          Returned (Some {|
            EarningsEvent.symbol := symbol;
            EarningsEvent.name := name;
            EarningsEvent.earnings_date := earnings_date;
            EarningsEvent.time_of_day := None;
            EarningsEvent.eps_estimate := eps_estimate;
            EarningsEvent.revenue_estimate := revenue_estimate;
            EarningsEvent.days_until := days_until
          |})
      end.

    (** [_get_earnings_for_symbol]: an [Exception] means no event. *)
Definition _get_earnings_for_symbol (now : Z) (symbol : string)
      : outcome (option EarningsEvent.t) :=
      match _get_earnings_for_symbol_try now symbol with
      | Returned r => Returned r
      | Raised e => if is_Exception e then Returned None else Raised e
      end.

Definition cache_key (symbols : list string) : string :=
      join "," (sorted_str symbols).

Definition get_earnings_for_symbols
        (cache : TTLCache.t (list EarningsEvent.t)) (clk : clock)
        (symbols : list string) : call EarningsEvent.t :=
      let cache_key := cache_key symbols in
      if TTLCache.contains (t_contains clk) cache_key cache then
        {| cache_after := cache; fetched := [];
           result := TTLCache.getitem (t_getitem clk) cache_key cache |}
      else
        match traverse (_get_earnings_for_symbol (wall clk)) symbols with
        | Raised e => {| cache_after := cache; fetched := symbols; result := Raised e |}
        | Returned results =>
            let earnings :=
              sort (λ e, inject_Z (EarningsEvent.earnings_date e))
                   (omap id (results : list (option EarningsEvent.t))) in
            match TTLCache.setitem (t_setitem clk) cache_key earnings cache with
            | Raised e => {| cache_after := cache; fetched := symbols; result := Raised e |}
            | Returned cache' =>
                {| cache_after := cache'; fetched := symbols; result := Returned earnings |}
            end
        end.

Definition clear_cache (cache : TTLCache.t (list EarningsEvent.t))
      : TTLCache.t (list EarningsEvent.t) := TTLCache.clear cache.

    (** [scrape_nasdaq_earnings].  [page] is what the GET and the search
        for the earnings table produced: an exception, no table, or the
        rows after the header, each the stripped texts of its cells. *)
    Variable strptime : string → option Z.

Definition scrape_row (now : Z) (symbols_set : list string) (cols : list string)
      : option EarningsEvent.t :=
      if bool_decide (length cols < 3) then None else
      let symbol := upper (default "" (cols !! 0)) in
      if negb (bool_decide (symbol ∈ symbols_set)) then None else
      match strptime (default "" (cols !! 1)) with
      | None => None
      | Some earnings_date =>
          Some {|
            EarningsEvent.symbol := symbol;
            EarningsEvent.name := default symbol (cols !! 2);
            EarningsEvent.earnings_date := earnings_date;
            EarningsEvent.time_of_day := None;
            EarningsEvent.eps_estimate := None;
            EarningsEvent.revenue_estimate := None;
            EarningsEvent.days_until := days_between earnings_date now
          |}
      end.

Definition scrape_nasdaq_earnings (now : Z)
        (page : outcome (option (list (list string)))) (symbols : list string)
      : list EarningsEvent.t :=
      match page with
      | Raised _ => []
      | Returned None => []
      | Returned (Some rows) =>
          omap (scrape_row now (upper <$> symbols)) rows
      end.
  End Collector.
End EarningsCollector.

(** ** [services/news_collector.py] *)

Module NewsCollector.

  (** One entry of [ticker.news]. *)
Record raw_item := {
    providerPublishTime : option Z;
    thumbnail_resolutions : option (list (option string));
    raw_title : option string;
    raw_publisher : option string;
    raw_link : option string
  }.

  (** [datetime.min] in seconds since the epoch. *)
Definition datetime_min : Z := (-62135596800)%Z.

  Section Collector.
    Variable settings : Settings.t.
    Variable ticker_news : string → outcome (list raw_item).

Definition new_cache : TTLCache.t (list NewsItem.t) :=
      TTLCache.create 100 (Settings.news_cache_minutes settings * 60)%Z.

Definition news_item (symbol : string) (item : raw_item) : NewsItem.t := {|
      NewsItem.symbol := symbol;
      NewsItem.title := default "" (raw_title item);
      NewsItem.publisher := default "Unknown" (raw_publisher item);
      NewsItem.link := default "" (raw_link item);
      NewsItem.published_at :=
        match providerPublishTime item with
        | Some t => if bool_decide (t ≠ 0%Z) then Some t else None
        | None => None
        end;
      NewsItem.summary := None;
      NewsItem.thumbnail_url :=
        match thumbnail_resolutions item with
        | Some (url :: _) => url
        | _ => None
        end
    |}.

Definition _get_news_for_symbol (symbol : string) (max_items : nat)
      : outcome (list NewsItem.t) :=
      match ticker_news symbol with
      | Returned news => Returned (news_item symbol <$> take max_items news)
      | Raised e => if is_Exception e then Returned [] else Raised e
      end.

Definition cache_key (symbols : list string) (max_per_symbol : nat) : string :=
      join "," (sorted_str symbols) +:+ ":" +:+ pretty max_per_symbol.

Definition get_news_for_symbols
        (cache : TTLCache.t (list NewsItem.t)) (clk : EarningsCollector.clock)
        (symbols : list string) (max_per_symbol : nat)
      : EarningsCollector.call NewsItem.t :=
      let cache_key := cache_key symbols max_per_symbol in
      if TTLCache.contains (EarningsCollector.t_contains clk) cache_key cache then
        {| EarningsCollector.cache_after := cache;
           EarningsCollector.fetched := [];
           EarningsCollector.result :=
             TTLCache.getitem (EarningsCollector.t_getitem clk) cache_key cache |}
      else
        match traverse (λ s, _get_news_for_symbol s max_per_symbol) symbols with
        | Raised e =>
            {| EarningsCollector.cache_after := cache;
               EarningsCollector.fetched := symbols;
               EarningsCollector.result := Raised e |}
        | Returned results =>
            let all_news :=
              sort_reverse
                (λ n, inject_Z (default datetime_min (NewsItem.published_at n)))
                (concat (results : list (list NewsItem.t))) in
            match TTLCache.setitem (EarningsCollector.t_setitem clk)
                                   cache_key all_news cache with
            | Raised e =>
                {| EarningsCollector.cache_after := cache;
                   EarningsCollector.fetched := symbols;
                   EarningsCollector.result := Raised e |}
            | Returned cache' =>
                {| EarningsCollector.cache_after := cache';
                   EarningsCollector.fetched := symbols;
                   EarningsCollector.result := Returned all_news |}
            end
        end.

Definition get_news_for_high_fluctuation
        (cache : TTLCache.t (list NewsItem.t)) (clk : EarningsCollector.clock)
        (symbols : list string) : EarningsCollector.call NewsItem.t :=
      get_news_for_symbols cache clk symbols 3.

Definition clear_cache (cache : TTLCache.t (list NewsItem.t))
      : TTLCache.t (list NewsItem.t) := TTLCache.clear cache.
  End Collector.
End NewsCollector.

(** ** [services/llm_agent.py] *)

Module LLMAgent.
  Section Agent.
    Variable settings : Settings.t.

Definition is_configured : bool :=
      let provider := lower (Settings.llm_provider settings) in
      if bool_decide (provider = "openai") then
        str_truthy (Settings.openai_api_key settings)
      else if bool_decide (provider = "anthropic") then
        str_truthy (Settings.anthropic_api_key settings)
      else if bool_decide (provider = "local") then
        str_truthy (Settings.local_llm_url settings)
      else false.

    (** The prompt context, the provider call ([_get_llm] and
        [chain.ainvoke]) and the parser of its answer. *)
    Variable _build_context :
      list HoldingPerformance.t → list FluctuationAlert.t →
      list EarningsEvent.t → list NewsItem.t → string.
    Variable ainvoke : string → outcome string.
    Variable _parse_response : Z → string → AgentSummary.t.

    (** The summary of the [except Exception] branch. *)
Definition error_summary (now : Z) (e : exn) (holdings fluctuations earnings : nat)
      : AgentSummary.t := {|
      AgentSummary.summary := "Unable to generate AI analysis: " +:+ exn_msg e;
      AgentSummary.key_insights := [
        "Portfolio contains " +:+ pretty holdings +:+ " holdings";
        pretty fluctuations +:+ " stocks show significant movement (>5%)";
        pretty earnings +:+ " upcoming earnings events"
      ];
      AgentSummary.recommendations := ["Review high-fluctuation stocks manually"];
      AgentSummary.risk_factors := ["AI analysis unavailable"];
      AgentSummary.generated_at := now;
      AgentSummary.model_used := "error"
    |}.

Definition generate_summary (now : Z)
        (holdings : list HoldingPerformance.t)
        (fluctuations : list FluctuationAlert.t)
        (earnings : list EarningsEvent.t) (news : list NewsItem.t)
      : outcome AgentSummary.t :=
      let context := _build_context holdings fluctuations earnings news in
      match ainvoke context with
      | Returned response => Returned (_parse_response now response)
      | Raised e =>
          if is_Exception e then
            Returned (error_summary now e (length holdings) (length fluctuations)
                                    (length earnings))
          else Raised e
      end.
  End Agent.
End LLMAgent.

(** ** The services one analysis run is given

    The router obtains them through [Depends], the scheduler constructs
    them itself.  Each stage is what its awaited call does in this run:
    it returns or raises.  The collectors take whether their cache was
    cleared beforehand. *)

Module Services.
Record t := {
    settings : Settings.t;
    utcnow : Z;
    fetch_holdings : outcome HoldingsResponse.t;
    get_mock_holdings : HoldingsResponse.t;
    analyze_holdings : list Holding.t → outcome PerformanceResponse.t;
    get_earnings_for_symbols : bool → list string → outcome (list EarningsEvent.t);
    get_news_for_high_fluctuation : bool → list string → outcome (list NewsItem.t);
    generate_summary :
      list HoldingPerformance.t → list FluctuationAlert.t →
      list EarningsEvent.t → list NewsItem.t → outcome AgentSummary.t
  }.

  (** [try: await fetcher.fetch_holdings() except httpx.HTTPError:
      fetcher.get_mock_holdings()]. *)
Definition holdings_or_mock (svc : t) : outcome HoldingsResponse.t :=
    match fetch_holdings svc with
    | Returned r => Returned r
    | Raised e => if is_HTTPError e then Returned (get_mock_holdings svc) else Raised e
    end.
End Services.

(** ** [routers/agent.py] *)

Module Agent.

  (** The module globals. *)
Record globals := {
    _latest_analysis : option AnalyzeResponse.t;
    _analysis_in_progress : bool
  }.

Definition initial : globals :=
    {| _latest_analysis := None; _analysis_in_progress := false |}.

  (** What the caller of an endpoint receives. *)
Inductive reply :=
  | HTTPException (status_code : nat) (detail : string)
  | Response (r : AnalyzeResponse.t)
  | Propagated (e : exn).

  (** The summary built when [llm_agent.is_configured()] is false. *)
Definition basic_summary (now : Z) (holdings fluctuations earnings : nat)
    : AgentSummary.t := {|
    AgentSummary.summary :=
      "Portfolio analysis complete. " +:+ pretty holdings +:+ " holdings analyzed, "
      +:+ pretty fluctuations +:+ " showing significant movement.";
    AgentSummary.key_insights := [
      "Total holdings: " +:+ pretty holdings;
      "High fluctuation stocks: " +:+ pretty fluctuations;
      "Upcoming earnings: " +:+ pretty earnings
    ];
    AgentSummary.recommendations := ["Configure LLM API key for detailed AI analysis"];
    AgentSummary.risk_factors := [];
    AgentSummary.generated_at := now;
    AgentSummary.model_used := "none"
  |}.

  (** What stages 1 to 5 of the [try] block hand to stage 6. *)
Record collected := {
    c_holdings : list Holding.t;
    c_performance : list HoldingPerformance.t;
    c_fluctuations : list FluctuationAlert.t;
    c_earnings : list EarningsEvent.t;
    c_news : list NewsItem.t
  }.

Definition collect (svc : Services.t) (request : AnalyzeRequest.t)
    : outcome collected :=
    let cleared := AnalyzeRequest.force_refresh request in
    holdings_response ← Services.holdings_or_mock svc;
    let holdings := HoldingsResponse.holdings holdings_response in
    performance ← Services.analyze_holdings svc holdings;
    let fluctuations :=
      PerformanceAnalyzer.get_fluctuation_alerts
        (PerformanceResponse.holdings performance) in
    let all_symbols := Holding.symbol <$> holdings in
    let fluctuation_symbols := FluctuationAlert.symbol <$> fluctuations in
    earnings ←
      (if AnalyzeRequest.include_earnings request
       then Services.get_earnings_for_symbols svc cleared all_symbols
       else Returned []);
    news ←
      (if AnalyzeRequest.include_news request
          && bool_decide (fluctuation_symbols ≠ [])
       then Services.get_news_for_high_fluctuation svc cleared fluctuation_symbols
       else Returned []);
    Returned {|
      c_holdings := holdings;
      c_performance := PerformanceResponse.holdings performance;
      c_fluctuations := fluctuations;
      c_earnings := earnings;
      c_news := news
    |}.

  (** Stage 6 and "Build response". *)
Definition summarize (svc : Services.t) (c : collected)
    : outcome AnalyzeResponse.t :=
    summary ←
      (if LLMAgent.is_configured (Services.settings svc) then
         Services.generate_summary svc (c_performance c) (c_fluctuations c)
                                   (c_earnings c) (c_news c)
       else
         Returned (basic_summary (Services.utcnow svc) (length (c_holdings c))
                                 (length (c_fluctuations c)) (length (c_earnings c))));
    Returned {|
      AnalyzeResponse.summary := Some summary;
      AnalyzeResponse.fluctuation_alerts := c_fluctuations c;
      AnalyzeResponse.upcoming_earnings := c_earnings c;
      AnalyzeResponse.news_items := c_news c;
      AnalyzeResponse.holdings_count := length (c_holdings c);
      AnalyzeResponse.analyzed_at := Services.utcnow svc;
      AnalyzeResponse.status := "success";
      AnalyzeResponse.error := None
    |}.

  (** The body of the [try] block up to [_latest_analysis = response]. *)
Definition analyze_try (svc : Services.t) (request : AnalyzeRequest.t)
    : outcome AnalyzeResponse.t :=
    c ← collect svc request;
    summarize svc c.

  (** The response of the [except Exception] branch. *)
Definition error_response (now : Z) (e : exn) : AnalyzeResponse.t := {|
    AnalyzeResponse.summary := None;
    AnalyzeResponse.fluctuation_alerts := [];
    AnalyzeResponse.upcoming_earnings := [];
    AnalyzeResponse.news_items := [];
    AnalyzeResponse.holdings_count := 0;
    AnalyzeResponse.analyzed_at := now;
    AnalyzeResponse.status := "error";
    AnalyzeResponse.error := Some (exn_msg e)
  |}.

  (** The handler up to its first [await]: the check and the setting of
      the flag.  [None] is the 409. *)
Definition enter (g : globals) : option globals :=
    if _analysis_in_progress g then None
    else Some {| _latest_analysis := _latest_analysis g;
                 _analysis_in_progress := true |}.

  (** The end of the handler, on the globals as they are by then: the
      assignment to [_latest_analysis] or the [except] branch, then
      [finally]. *)
Definition leave (now : Z) (o : outcome AnalyzeResponse.t) (g : globals)
    : globals * reply :=
    match o with
    | Returned response =>
        ({| _latest_analysis := Some response; _analysis_in_progress := false |},
         Response response)
    | Raised e =>
        ({| _latest_analysis := _latest_analysis g; _analysis_in_progress := false |},
         if is_Exception e then Response (error_response now e) else Propagated e)
    end.

Definition conflict : reply := HTTPException 409 "Analysis already in progress".

  (** [analyze_portfolio] run without interleaving. *)
Definition analyze_portfolio (svc : Services.t) (request : AnalyzeRequest.t)
      (g : globals) : globals * reply :=
    match enter g with
    | None => (g, conflict)
    | Some g1 => leave (Services.utcnow svc) (analyze_try svc request) g1
    end.

  (** The read endpoints. *)
Definition get_latest_summary (g : globals) : option AgentSummary.t :=
    match _latest_analysis g with
    | Some a => AnalyzeResponse.summary a
    | None => None
    end.

Definition get_fluctuations (g : globals) : list FluctuationAlert.t * nat :=
    match _latest_analysis g with
    | Some a => (AnalyzeResponse.fluctuation_alerts a,
                 length (AnalyzeResponse.fluctuation_alerts a))
    | None => ([], 0)
    end.

Definition get_earnings (g : globals) : list EarningsEvent.t * nat :=
    match _latest_analysis g with
    | Some a => (AnalyzeResponse.upcoming_earnings a,
                 length (AnalyzeResponse.upcoming_earnings a))
    | None => ([], 0)
    end.

Definition get_news (g : globals) : list NewsItem.t * nat :=
    match _latest_analysis g with
    | Some a => (AnalyzeResponse.news_items a, length (AnalyzeResponse.news_items a))
    | None => ([], 0)
    end.

Record status := {
    in_progress : bool;
    has_analysis : bool;
    last_analyzed : option Z;
    holdings_count : nat
  }.

Definition get_analysis_status (g : globals) : status := {|
    in_progress := _analysis_in_progress g;
    has_analysis := bool_decide (is_Some (_latest_analysis g));
    last_analyzed := AnalyzeResponse.analyzed_at <$> _latest_analysis g;
    holdings_count :=
      default 0 (AnalyzeResponse.holdings_count <$> _latest_analysis g)
  |}.

End Agent.

(** ** [scheduler/jobs.py] and [routers/scheduler.py] *)

Module Scheduler.

  (** [str.split()]: split on runs of whitespace (the ASCII ones). *)
Definition is_space (c : ascii) : bool :=
    let n := Ascii.N_of_ascii c in
    ((9 <=? n) && (n <=? 13) || (28 <=? n) && (n <=? 32))%N.

Fixpoint split_go (cur : option string) (s : string) : list string :=
    match s with
    | "" => option_list (String.rev <$> cur)
    | String a s' =>
        if is_space a then option_list (String.rev <$> cur) ++ split_go None s'
        else split_go (Some (String a (default "" cur))) s'
    end.

Definition split (s : string) : list string := split_go None s.

  Section Scheduler.
    (** [apscheduler]'s triggers: their type and the constructor
        [CronTrigger(minute=, hour=, day=, month=, day_of_week=)], which
        raises on a field it cannot parse. *)
    Context {Trigger : Type}.
    Variable CronTrigger :
      option string → option string → option string → option string →
      option string → outcome Trigger.

    (** [AnalysisScheduler]: whether the wrapped scheduler runs, the
        trigger of the job [portfolio_analysis] if the job exists, and
        [_last_run]. *)
Record t := {
      settings : Settings.t;
      running : bool;
      job : option Trigger;
      _last_run : option Z
    }.

Definition create (settings : Settings.t) : t :=
      {| settings := settings; running := false; job := None; _last_run := None |}.

Definition trigger_of_parts (cron_parts : list string) : outcome Trigger :=
      CronTrigger (cron_parts !! 0) (cron_parts !! 1) (cron_parts !! 2)
                  (cron_parts !! 3) (cron_parts !! 4).

Definition start (s : t) : outcome t :=
      if running s then Returned s else
      let cron_parts := split (Settings.scheduler_cron (settings s)) in
      trigger ←
        (if bool_decide (5 ≤ length cron_parts)%nat then trigger_of_parts cron_parts
         else CronTrigger (Some "0") (Some "9,16") None None (Some "mon-fri"));
      Returned {| settings := settings s; running := true; job := Some trigger;
                  _last_run := _last_run s |}.

Definition update_schedule (cron_expression : string) (s : t) : outcome t :=
      let cron_parts := split cron_expression in
      if bool_decide (length cron_parts < 5) then
        Raised (Exn ValueError "Cron expression must have at least 5 parts")
      else
        match trigger_of_parts cron_parts with
        | Raised e =>
            if is_Exception e then
              Raised (Exn ValueError ("Invalid cron expression: " +:+ exn_msg e))
            else Raised e
        | Returned trigger =>
            if running s then
              (* reschedule_job raises JobLookupError, a KeyError, without the job *)
              match job s with
              | Some _ =>
                  Returned {| settings := settings s; running := running s;
                              job := Some trigger; _last_run := _last_run s |}
              | None => Raised (Exn KeyError "No job by the id of portfolio_analysis was found")
              end
            else Returned s
        end.

    (** The answers of [PUT /api/scheduler/cron]. *)
Inductive cron_reply :=
    | Updated (message : string)
    | CronHTTPException (status_code : nat) (detail : string)
    | CronPropagated (e : exn).

Definition update_cron (cron_expression : string) (s : t) : t * cron_reply :=
      match update_schedule cron_expression s with
      | Returned s' =>
          (s', Updated ("Cron expression updated to: " +:+ cron_expression))
      | Raised e =>
          if is_ValueError e then
            (s, CronHTTPException 400 ("Invalid cron expression: " +:+ exn_msg e))
          else (s, CronPropagated e)
      end.

    (** The [try] block of [_run_analysis] up to the response it stores.
        No summary is generated when the provider is not configured. *)
Definition _run_analysis_try (svc : Services.t) : outcome AnalyzeResponse.t :=
      holdings_response ← Services.holdings_or_mock svc;
      let holdings := HoldingsResponse.holdings holdings_response in
      performance ← Services.analyze_holdings svc holdings;
      let fluctuations :=
        PerformanceAnalyzer.get_fluctuation_alerts
          (PerformanceResponse.holdings performance) in
      let all_symbols := Holding.symbol <$> holdings in
      let fluctuation_symbols := FluctuationAlert.symbol <$> fluctuations in
      earnings ← Services.get_earnings_for_symbols svc false all_symbols;
      news ←
        (if bool_decide (fluctuation_symbols ≠ [])
         then Services.get_news_for_high_fluctuation svc false fluctuation_symbols
         else Returned []);
      summary ←
        (if LLMAgent.is_configured (Services.settings svc) then
           s ← Services.generate_summary svc
                 (PerformanceResponse.holdings performance) fluctuations earnings news;
           Returned (Some s)
         else Returned None);
      Returned {|
        AnalyzeResponse.summary := summary;
        AnalyzeResponse.fluctuation_alerts := fluctuations;
        AnalyzeResponse.upcoming_earnings := earnings;
        AnalyzeResponse.news_items := news;
        AnalyzeResponse.holdings_count := length holdings;
        AnalyzeResponse.analyzed_at := Services.utcnow svc;
        AnalyzeResponse.status := "success";
        AnalyzeResponse.error := None
      |}.
  End Scheduler.
  Global Arguments t : clear implicits.

  (** The end of [_run_analysis] on [_last_run] and the router's globals
      as they are by then.  [agent_module] tells whether [sys.modules]
      holds the agent router under the name looked up.  The in-progress
      flag is neither read nor written. *)
Definition _run_analysis_end (now : Z) (agent_module : bool)
      (o : outcome AnalyzeResponse.t) (last_run : option Z) (g : Agent.globals)
    : option Z * Agent.globals :=
    match o with
    | Returned response =>
        (Some now,
         if agent_module then
           {| Agent._latest_analysis := Some response;
              Agent._analysis_in_progress := Agent._analysis_in_progress g |}
         else g)
    | Raised e => if is_Exception e then (Some now, g) else (last_run, g)
    end.
End Scheduler.

(** ** The process: handlers interleaving at their [await]s

    A handler runs without interruption from one [await] to the next.
    The globals are touched before the first [await] of a run and after
    its last one, so a run is two steps: it starts, and later it ends. *)

Module Process.

  (** A run in flight: its identifier and what its [try] block will
      produce. *)
Record run := {
    run_id : nat;
    run_now : Z;
    run_outcome : outcome AnalyzeResponse.t
  }.

Record state := {
    globals : Agent.globals;
    last_run : option Z;
    analyze_runs : list run;      (* runs started by POST /analyze *)
    scheduler_runs : list run     (* runs of the scheduler's [_run_analysis] *)
  }.

Definition initial : state :=
    {| globals := Agent.initial; last_run := None;
       analyze_runs := []; scheduler_runs := [] |}.

Inductive event :=
  | AnalyzeArrives (id : nat) (svc : Services.t) (request : AnalyzeRequest.t)
  | AnalyzeEnds (id : nat)
  | SchedulerRunStarts (id : nat) (svc : Services.t)
  | SchedulerRunEnds (id : nat) (agent_module : bool)
  | ReadStatus.

  (** What an event lets its caller observe. *)
Inductive observation :=
  | Replied (r : Agent.reply)
  | Status (s : Agent.status)
  | Silent.

Definition find_run (id : nat) (rs : list run) : option run :=
    snd <$> list_find (λ r, run_id r = id) rs.

Definition remove_run (id : nat) (rs : list run) : list run :=
    filter (λ r, run_id r ≠ id) rs.

Definition step (s : state) (e : event) : state * observation :=
    match e with
    | AnalyzeArrives id svc request =>
        match Agent.enter (globals s) with
        | None => (s, Replied Agent.conflict)
        | Some g =>
            ({| globals := g; last_run := last_run s;
                analyze_runs :=
                  analyze_runs s ++
                  [{| run_id := id; run_now := Services.utcnow svc;
                      run_outcome := Agent.analyze_try svc request |}];
                scheduler_runs := scheduler_runs s |}, Silent)
        end
    | AnalyzeEnds id =>
        match find_run id (analyze_runs s) with
        | None => (s, Silent)
        | Some r =>
            let '(g, reply) := Agent.leave (run_now r) (run_outcome r) (globals s) in
            ({| globals := g; last_run := last_run s;
                analyze_runs := remove_run id (analyze_runs s);
                scheduler_runs := scheduler_runs s |}, Replied reply)
        end
    | SchedulerRunStarts id svc =>
        ({| globals := globals s; last_run := last_run s;
            analyze_runs := analyze_runs s;
            scheduler_runs :=
              scheduler_runs s ++
              [{| run_id := id; run_now := Services.utcnow svc;
                  run_outcome := Scheduler._run_analysis_try svc |}] |}, Silent)
    | SchedulerRunEnds id agent_module =>
        match find_run id (scheduler_runs s) with
        | None => (s, Silent)
        | Some r =>
            let '(l, g) :=
              Scheduler._run_analysis_end (run_now r) agent_module (run_outcome r)
                                          (last_run s) (globals s) in
            ({| globals := g; last_run := l;
                analyze_runs := analyze_runs s;
                scheduler_runs := remove_run id (scheduler_runs s) |}, Silent)
        end
    | ReadStatus => (s, Status (Agent.get_analysis_status (globals s)))
    end.

  (** Running a trace, collecting what each event let observe. *)
Fixpoint exec (s : state) (tr : list event) : state * list observation :=
    match tr with
    | [] => (s, [])
    | e :: tr' =>
        let '(s1, o) := step s e in
        let '(s2, os) := exec s1 tr' in
        (s2, o :: os)
    end.

Definition reachable (s : state) : Prop := ∃ tr, (exec initial tr).1 = s.



(** The stored snapshot and every response a run in flight will hand
    over have status [success]. *)
Definition stores_success (s : state) : Prop :=
  (∀ a, Agent._latest_analysis (globals s) = Some a →
        AnalyzeResponse.status a = "success")
  ∧ (∀ r a, r ∈ analyze_runs s → run_outcome r = Returned a →
            AnalyzeResponse.status a = "success")
  ∧ (∀ r a, r ∈ scheduler_runs s → run_outcome r = Returned a →
            AnalyzeResponse.status a = "success").


End Process.

(** ** Concrete inputs used by the examples below *)

Module Examples.

(** A quote reporting the given price and previous close under both of
    their keys, and nothing else. *)
Definition quote_info (price previous : num) : PerformanceAnalyzer.info := {|
  PerformanceAnalyzer.currentPrice := price;
  PerformanceAnalyzer.regularMarketPrice := price;
  PerformanceAnalyzer.previousClose := previous;
  PerformanceAnalyzer.regularMarketPreviousClose := previous;
  PerformanceAnalyzer.shortName := None;
  PerformanceAnalyzer.dayHigh := None;
  PerformanceAnalyzer.dayLow := None;
  PerformanceAnalyzer.volume := None
|}.

Definition quotes (price previous : num) : string → outcome PerformanceAnalyzer.info :=
  λ _, Returned (quote_info price previous).

Definition aapl : Holding.t :=
  HoldingsFetcher.mock_holding "AAPL" "Apple Inc." 100 150.

(** A record with the flag set and no change percent: the model
    [HoldingPerformance] accepts it, the evaluator never builds it. *)
Definition flagged_without_change : HoldingPerformance.t := {|
  HoldingPerformance.symbol := "AAPL";
  HoldingPerformance.name := "Apple Inc.";
  HoldingPerformance.shares := 100;
  HoldingPerformance.current_price := None;
  HoldingPerformance.previous_close := None;
  HoldingPerformance.change_amount := None;
  HoldingPerformance.change_percent := None;
  HoldingPerformance.day_high := None;
  HoldingPerformance.day_low := None;
  HoldingPerformance.volume := None;
  HoldingPerformance.market_value := None;
  HoldingPerformance.is_high_fluctuation := true
|}.

(** 2026-11-03 12:00:00, and the NASDAQ page read then: one listed date
    51 days ahead, one 34 days back. *)
Definition now : Z := 1793707200.

Definition strptime (s : string) : option Z :=
  if bool_decide (s = "12/25/2026") then Some 1798156800%Z
  else if bool_decide (s = "10/01/2026") then Some 1790812800%Z
  else None.

Definition nasdaq_rows : list (list string) := [
  ["AAPL"; "12/25/2026"; "Apple Inc."];
  ["MSFT"; "10/01/2026"; "Microsoft Corporation"]
].

(** A calendar frame without an earnings date, and an [info] whose
    [earningsTimestamp] is 2026-11-13 12:00:00. *)
Definition calendars : string → outcome EarningsCollector.calendar :=
  λ _, Returned (EarningsCollector.CalFrame false None).

Definition earnings_infos : string → outcome EarningsCollector.info :=
  λ _, Returned {| EarningsCollector.earningsTimestamp := Some 1794571200%Z;
                   EarningsCollector.shortName := None |}.

Definition no_news : string → outcome (list NewsCollector.raw_item) :=
  λ _, Returned [].

(** The timer and the wall clock at [t], for a call taken as instantaneous. *)
Definition at_time (t : Z) : EarningsCollector.clock := {|
  EarningsCollector.t_contains := t;
  EarningsCollector.t_getitem := t;
  EarningsCollector.t_setitem := t;
  EarningsCollector.wall := now
|}.

End Examples.

Module ExamplePayloads.
Import HoldingsFetcher.

(** The wrapper keys [_parse_holdings] recognises. *)
Definition wrapper_keys : list string :=
  ["portfolio_holdings"; "holdings"; "data"; "positions"].

(** Two holding items in different key spellings, and one item without a
    symbol. *)
Definition items : list json := [
  JObj [("symbol", JStr "aapl"); ("shares", JNum 10); ("price", JNum 150)];
  JObj [("Ticker", JStr "MSFT"); ("quantity", JNum 2); ("value", JNum 700)];
  JObj [("name", JStr "no symbol")]
].

(** [float(s)] is not needed by these payloads. *)
Definition no_float : string → option Q := λ _, None.

End ExamplePayloads.

(** ** The providers of [routers/agent.py]

    [get_holdings_fetcher], [get_performance_analyzer],
    [get_earnings_collector], [get_news_collector] and [get_llm_agent]
    construct a new object for every request, so each run starts with
    empty caches.  [world] is what the network answers during one run. *)

Module Depends.

Record world := {
  settings : Settings.t;
  utcnow : Z;
  timer : EarningsCollector.clock;
  float_of_str : string → option Q;
  holdings_response : outcome HoldingsFetcher.json;
  quote_info : string → outcome PerformanceAnalyzer.info;
  ticker_calendar : string → outcome EarningsCollector.calendar;
  earnings_info : string → outcome EarningsCollector.info;
  ticker_news : string → outcome (list NewsCollector.raw_item);
  _build_context :
    list HoldingPerformance.t → list FluctuationAlert.t →
    list EarningsEvent.t → list NewsItem.t → string;
  ainvoke : string → outcome string;
  _parse_response : Z → string → AgentSummary.t
}.

Definition services (w : world) : Services.t := {|
  Services.settings := settings w;
  Services.utcnow := utcnow w;
  Services.fetch_holdings :=
    HoldingsFetcher.fetch_holdings (float_of_str w) (utcnow w) (holdings_response w);
  Services.get_mock_holdings := HoldingsFetcher.get_mock_holdings (utcnow w);
  Services.analyze_holdings :=
    PerformanceAnalyzer.analyze_holdings (settings w) (quote_info w) (utcnow w);
  Services.get_earnings_for_symbols := λ cleared symbols,
    let cache := EarningsCollector.new_cache (settings w) in
    EarningsCollector.result
      (EarningsCollector.get_earnings_for_symbols (ticker_calendar w) (earnings_info w)
         (if cleared then EarningsCollector.clear_cache cache else cache)
         (timer w) symbols);
  Services.get_news_for_high_fluctuation := λ cleared symbols,
    let cache := NewsCollector.new_cache (settings w) in
    EarningsCollector.result
      (NewsCollector.get_news_for_high_fluctuation (ticker_news w)
         (if cleared then NewsCollector.clear_cache cache else cache)
         (timer w) symbols);
  Services.generate_summary :=
    LLMAgent.generate_summary (_build_context w) (ainvoke w) (_parse_response w)
                              (utcnow w)
|}.

End Depends.

Module ExampleRuns.

(** The default settings (provider [anthropic], no key); the holdings
    endpoint is unreachable, every quote is 110 against a previous close
    of 100, every symbol reports earnings in ten days. *)
Definition world : Depends.world := {|
  Depends.settings := Settings.default;
  Depends.utcnow := Examples.now;
  Depends.timer := Examples.at_time 0;
  Depends.float_of_str := ExamplePayloads.no_float;
  Depends.holdings_response := Raised (Exn HTTPError "All connection attempts failed");
  Depends.quote_info := Examples.quotes (Some 110%Q) (Some 100%Q);
  Depends.ticker_calendar := Examples.calendars;
  Depends.earnings_info := Examples.earnings_infos;
  Depends.ticker_news := Examples.no_news;
  Depends._build_context := λ _ _ _ _, "";
  Depends.ainvoke := λ _, Raised (Exn ValueError "api_key must be set");
  Depends._parse_response := λ now response, {|
    AgentSummary.summary := response;
    AgentSummary.key_insights := [];
    AgentSummary.recommendations := [];
    AgentSummary.risk_factors := [];
    AgentSummary.generated_at := now;
    AgentSummary.model_used := "anthropic/claude-3-sonnet-20240229"
  |}
|}.

Definition services : Services.t := Depends.services world.

(** The same run when the endpoint answers with a body that is not JSON:
    [response.json()] raises a [ValueError], which is no [HTTPError]. *)
Definition failing_world : Depends.world := {|
  Depends.settings := Settings.default;
  Depends.utcnow := (Examples.now + 60)%Z;
  Depends.timer := Examples.at_time 60;
  Depends.float_of_str := ExamplePayloads.no_float;
  Depends.holdings_response := Raised (Exn ValueError "Expecting value: line 1 column 1");
  Depends.quote_info := Depends.quote_info world;
  Depends.ticker_calendar := Depends.ticker_calendar world;
  Depends.earnings_info := Depends.earnings_info world;
  Depends.ticker_news := Depends.ticker_news world;
  Depends._build_context := Depends._build_context world;
  Depends.ainvoke := Depends.ainvoke world;
  Depends._parse_response := Depends._parse_response world
|}.

Definition failing_services : Services.t := Depends.services failing_world.

(** A trigger constructor standing for [CronTrigger]: it keeps the five
    fields and raises [ValueError] on a field with a character that no
    cron expression uses. *)
Definition cron_char (c : ascii) : bool :=
  let n := Ascii.N_of_ascii c in
  ((48 <=? n) && (n <=? 57) || (97 <=? n) && (n <=? 122)
   || (n =? 42) || (n =? 44) || (n =? 45) || (n =? 47))%N.

Definition cron_field (f : option string) : bool :=
  match f with
  | Some s => forallb cron_char (list_ascii_of_string s)
  | None => true
  end.

Definition CronTrigger (minute hour day month day_of_week : option string)
  : outcome (list (option string)) :=
  let fields := [minute; hour; day; month; day_of_week] in
  if forallb cron_field fields then Returned fields
  else Raised (Exn ValueError "Unrecognized expression for field").

End ExampleRuns.

Module ExampleRecords.

(** A record of the evaluator's shape with the given symbol and change
    percent, flagged. *)
Definition moved (symbol : string) (change_percent : Q) : HoldingPerformance.t := {|
  HoldingPerformance.symbol := symbol;
  HoldingPerformance.name := symbol;
  HoldingPerformance.shares := 1;
  HoldingPerformance.current_price := Some (100 + change_percent)%Q;
  HoldingPerformance.previous_close := Some 100%Q;
  HoldingPerformance.change_amount := Some change_percent;
  HoldingPerformance.change_percent := Some change_percent;
  HoldingPerformance.day_high := None;
  HoldingPerformance.day_low := None;
  HoldingPerformance.volume := None;
  HoldingPerformance.market_value := Some (100 + change_percent)%Q;
  HoldingPerformance.is_high_fluctuation := true
|}.

End ExampleRecords.

(** ** [services/holdings_fetcher.py]: the fields of one item *)

Module HoldingsItems.
Import HoldingsFetcher.

(** The candidate keys of each logical field, in the order
    [_parse_single_holding] tries them, and the chain of [or]s over them. *)
Definition symbol_keys : list string := ["symbol"; "ticker"; "Symbol"; "Ticker"].

Definition symbol_raw (d : list (string * json)) : json :=
  first_of d ["symbol"; "ticker"; "Symbol"] (get "Ticker" d).

Definition shares_raw (d : list (string * json)) : json :=
  first_of d ["shares"; "quantity"; "open_quantity"; "Shares"; "Quantity"] (JNum 0).

Definition price_raw (d : list (string * json)) : json :=
  first_of d ["current_price"; "currentPrice"] (get "price" d).

Definition market_value_raw (d : list (string * json)) : json :=
  first_of d ["market_value"; "marketValue"; "current_market_value"] (get "value" d).

(** Whether an item is a dict with a truthy value under a symbol key. *)
Definition has_symbol (item : json) : bool :=
  match item with
  | JObj d => existsb (λ k, jtruthy (get k d)) symbol_keys
  | _ => false
  end.

(** No lower-case ASCII letter occurs in [s]. *)
Definition is_upper (s : string) : Prop := upper s = s.

(** [None], a bool or a number: what [for item in v] cannot iterate. *)
Definition scalar (v : json) : bool :=
  match v with
  | JNull | JBool _ | JNum _ => true
  | _ => false
  end.

End HoldingsItems.

(** ** One collector over several calls *)

Module CollectorSession.

(** The results of calls made one after the other on one
    [EarningsCollector], each with its clock readings and symbols, from
    the given cache on. *)
Fixpoint earnings_session
    (ticker_calendar : string → outcome EarningsCollector.calendar)
    (ticker_info : string → outcome EarningsCollector.info)
    (cache : TTLCache.t (list EarningsEvent.t))
    (calls : list (EarningsCollector.clock * list string))
  : list (outcome (list EarningsEvent.t)) :=
  match calls with
  | [] => []
  | (clk, symbols) :: rest =>
      let c := EarningsCollector.get_earnings_for_symbols
                 ticker_calendar ticker_info cache clk symbols in
      EarningsCollector.result c
      :: earnings_session ticker_calendar ticker_info
           (EarningsCollector.cache_after c) rest
  end.

(** The sort keys of the two collectors. *)
Definition earnings_key (e : EarningsEvent.t) : Q :=
  inject_Z (EarningsEvent.earnings_date e).

Definition news_key (n : NewsItem.t) : Q :=
  inject_Z (default NewsCollector.datetime_min (NewsItem.published_at n)).

End CollectorSession.

Module ExampleNews.

Definition raw (published : option Z) (title : string) : NewsCollector.raw_item := {|
  NewsCollector.providerPublishTime := published;
  NewsCollector.thumbnail_resolutions := None;
  NewsCollector.raw_title := Some title;
  NewsCollector.raw_publisher := None;
  NewsCollector.raw_link := None
|}.

(** Four items for AAPL, one of them undated, two for MSFT, and a feed
    that raises for every other symbol. *)
Definition feed (symbol : string) : outcome (list NewsCollector.raw_item) :=
  if bool_decide (symbol = "AAPL") then
    Returned [raw (Some 300%Z) "a1"; raw None "a2"; raw (Some 100%Z) "a3";
              raw (Some 50%Z) "a4"]
  else if bool_decide (symbol = "MSFT") then
    Returned [raw (Some 200%Z) "m1"; raw (Some 100%Z) "m2"]
  else Raised (Exn RuntimeError "No data found, symbol may be delisted").

Definition call : EarningsCollector.call NewsItem.t :=
  NewsCollector.get_news_for_high_fluctuation feed
    (NewsCollector.new_cache Settings.default) (Examples.at_time 0)
    ["AAPL"; "MSFT"; "TSLA"].

End ExampleNews.

(** ** [main.py]: the health check *)

Module Main.

Record health := {
  status : string;
  scheduler_enabled : bool;
  scheduler_running : bool;
  llm_provider : string;
  llm_configured : bool
}.

(** [health_check], given whether the scheduler is running. *)
Definition health_check (settings : Settings.t) (running : bool) : health := {|
  status := "healthy";
  scheduler_enabled := Settings.scheduler_enabled settings;
  scheduler_running := running;
  llm_provider := Settings.llm_provider settings;
  (* bool(openai_api_key or anthropic_api_key or local_llm_url) *)
  llm_configured :=
    str_truthy
      (if str_truthy (Settings.openai_api_key settings)
       then Settings.openai_api_key settings
       else if str_truthy (Settings.anthropic_api_key settings)
       then Settings.anthropic_api_key settings
       else Settings.local_llm_url settings)
|}.

End Main.

(** ** [services/llm_agent.py]: the choice of the provider *)

Module LLMProvider.




End LLMProvider.

(** ** [routers/agent.py]: services that differ in one stage *)

Module ServicesWith.

Definition earnings (svc : Services.t)
    (g : bool → list string → outcome (list EarningsEvent.t)) : Services.t := {|
  Services.settings := Services.settings svc;
  Services.utcnow := Services.utcnow svc;
  Services.fetch_holdings := Services.fetch_holdings svc;
  Services.get_mock_holdings := Services.get_mock_holdings svc;
  Services.analyze_holdings := Services.analyze_holdings svc;
  Services.get_earnings_for_symbols := g;
  Services.get_news_for_high_fluctuation := Services.get_news_for_high_fluctuation svc;
  Services.generate_summary := Services.generate_summary svc
|}.

Definition news (svc : Services.t)
    (g : bool → list string → outcome (list NewsItem.t)) : Services.t := {|
  Services.settings := Services.settings svc;
  Services.utcnow := Services.utcnow svc;
  Services.fetch_holdings := Services.fetch_holdings svc;
  Services.get_mock_holdings := Services.get_mock_holdings svc;
  Services.analyze_holdings := Services.analyze_holdings svc;
  Services.get_earnings_for_symbols := Services.get_earnings_for_symbols svc;
  Services.get_news_for_high_fluctuation := g;
  Services.generate_summary := Services.generate_summary svc
|}.

End ServicesWith.

(** ** [routers/scheduler.py] and the rest of [scheduler/jobs.py] *)

Module SchedulerEndpoints.

(** [models/agent.py]: [SchedulerStatus]. *)
Record SchedulerStatus := {
  enabled : bool;
  running : bool;
  next_run : option Z;
  last_run : option Z;
  cron_expression : string;
  job_count : nat
}.

Section Endpoints.
Context {Trigger : Type}.
Variable CronTrigger :
  option string → option string → option string → option string →
  option string → outcome Trigger.
(** [job.next_run_time] of a job with the given trigger. *)
Variable next_run_time : Trigger → option Z.

Definition get_next_run_time (s : Scheduler.t Trigger) : option Z :=
  match Scheduler.job s with
  | Some trigger => next_run_time trigger
  | None => None
  end.

Definition get_status (s : Scheduler.t Trigger) : SchedulerStatus := {|
  enabled := Settings.scheduler_enabled (Scheduler.settings s);
  running := Scheduler.running s;
  next_run := get_next_run_time s;
  last_run := Scheduler._last_run s;
  cron_expression := Settings.scheduler_cron (Scheduler.settings s);
  job_count :=
    if Scheduler.running s
    then match Scheduler.job s with Some _ => 1 | None => 0 end
    else 0
|}.

(** The answers of [POST /api/scheduler/start]. *)
Inductive start_reply :=
| AlreadyRunning
| Started (next_run : option Z)
| StartPropagated (e : exn).

Definition start_scheduler (s : Scheduler.t Trigger)
  : Scheduler.t Trigger * start_reply :=
  if Scheduler.running s then (s, AlreadyRunning)
  else match Scheduler.start CronTrigger s with
       | Returned s' => (s', Started (get_next_run_time s'))
       | Raised e => (s, StartPropagated e)
       end.
End Endpoints.

(** A running scheduler holds the job [portfolio_analysis]. *)
Definition job_present {Trigger : Type} (s : Scheduler.t Trigger) : Prop :=
  Scheduler.running s = true → is_Some (Scheduler.job s).

(** [_run_analysis] as a whole: the [try] block's outcome meets
    [except Exception]; only an exception that is no [Exception] leaves
    the function. *)
Definition _run_analysis (now : Z) (agent_module : bool)
    (o : outcome AnalyzeResponse.t) (last_run : option Z) (g : Agent.globals)
  : outcome (option Z * Agent.globals) :=
  match o with
  | Raised e =>
      if is_Exception e
      then Returned (Scheduler._run_analysis_end now agent_module o last_run g)
      else Raised e
  | Returned _ => Returned (Scheduler._run_analysis_end now agent_module o last_run g)
  end.

(** The answers of [POST /api/scheduler/trigger]. *)
Inductive trigger_reply :=
| Triggered (triggered_at : Z)
| TriggerHTTPException (status_code : nat) (detail : string)
| TriggerPropagated (e : exn).

(** [trigger_analysis]: [run_analysis_now] awaits [_run_analysis]. *)
Definition trigger_analysis (now : Z) (agent_module : bool)
    (o : outcome AnalyzeResponse.t) (last_run : option Z) (g : Agent.globals)
  : (option Z * Agent.globals) * trigger_reply :=
  match _run_analysis now agent_module o last_run g with
  | Returned st => (st, Triggered now)
  | Raised e =>
      ((last_run, g),
       if is_Exception e
       then TriggerHTTPException 500 ("Failed to trigger analysis: " +:+ exn_msg e)
       else TriggerPropagated e)
  end.

End SchedulerEndpoints.

(** ** [routers/holdings.py] *)

Module HoldingsRouter.

(** [needle in s]. *)
Fixpoint str_contains (needle s : string) : bool :=
  String.prefix needle s
  || match s with
     | "" => false
     | String _ s' => str_contains needle s'
     end.

Inductive reply (A : Type) :=
| Ok (a : A)
| HTTPException (status_code : nat) (detail : string)
| Propagated (e : exn).
Global Arguments Ok {A} a.
Global Arguments HTTPException {A} status_code detail.
Global Arguments Propagated {A} e.

(** [get_holdings]: [fetch] is what [await fetcher.fetch_holdings()]
    does. *)
Definition get_holdings (use_mock : bool) (now : Z)
    (fetch : outcome HoldingsResponse.t) : reply HoldingsResponse.t :=
  if use_mock then Ok (HoldingsFetcher.get_mock_holdings now)
  else match fetch with
       | Returned r => Ok r
       | Raised e =>
           if is_HTTPError e then
             if str_contains "connect" (lower (exn_msg e))
                || str_contains "timeout" (lower (exn_msg e))
             then Ok (HoldingsFetcher.get_mock_holdings now)
             else HTTPException 502 ("Failed to fetch holdings: " +:+ exn_msg e)
           else if is_Exception e then
             HTTPException 500 ("Error fetching holdings: " +:+ exn_msg e)
           else Propagated e
       end.

(** The holdings both analysing endpoints work on. *)
Definition holdings_for_analysis (use_mock : bool) (now : Z)
    (fetch : outcome HoldingsResponse.t) : outcome HoldingsResponse.t :=
  if use_mock then Returned (HoldingsFetcher.get_mock_holdings now)
  else match fetch with
       | Returned r => Returned r
       | Raised e =>
           if is_HTTPError e then Returned (HoldingsFetcher.get_mock_holdings now)
           else Raised e
       end.

Definition to_reply {A} (what : string) (o : outcome A) : reply A :=
  match o with
  | Returned a => Ok a
  | Raised e =>
      if is_Exception e then HTTPException 500 (what +:+ exn_msg e) else Propagated e
  end.

Section Router.
Variable settings : Settings.t.
Variable ticker_info : string → outcome PerformanceAnalyzer.info.

Definition get_holdings_performance (use_mock : bool) (now : Z)
    (fetch : outcome HoldingsResponse.t) : reply PerformanceResponse.t :=
  to_reply "Error analyzing holdings: "
    (holdings_response ← holdings_for_analysis use_mock now fetch;
     PerformanceAnalyzer.analyze_holdings settings ticker_info now
       (HoldingsResponse.holdings holdings_response)).

(** The body of [GET /api/holdings/fluctuations]. *)
Record fluctuations := {
  alerts : list FluctuationAlert.t;
  count : nat;
  threshold : Q
}.

Definition get_fluctuations (use_mock : bool) (now : Z)
    (fetch : outcome HoldingsResponse.t) : reply fluctuations :=
  to_reply "Error getting fluctuations: "
    (holdings_response ← holdings_for_analysis use_mock now fetch;
     performance ← PerformanceAnalyzer.analyze_holdings settings ticker_info now
                     (HoldingsResponse.holdings holdings_response);
     let alerts := PerformanceAnalyzer.get_fluctuation_alerts
                     (PerformanceResponse.holdings performance) in
     Returned {| alerts := alerts; count := length alerts;
                 threshold := Settings.fluctuation_threshold settings |}).
End Router.

End HoldingsRouter.

(** ** Sources that fail with ordinary exceptions only *)

Module WellBehaved.

(** Every exception the call raises derives from [Exception]. *)
Definition exceptions_only {A B} (f : A → outcome B) : Prop :=
  ∀ a e, f a = Raised e → is_Exception e = true.

(** The market-data and provider calls of a run raise nothing but
    [Exception]s (no cancellation, no interpreter exit). *)
Definition world (w : Depends.world) : Prop :=
  exceptions_only (Depends.quote_info w)
  ∧ exceptions_only (Depends.ticker_calendar w)
  ∧ exceptions_only (Depends.earnings_info w)
  ∧ exceptions_only (Depends.ticker_news w)
  ∧ exceptions_only (Depends.ainvoke w).

End WellBehaved.

(** * Properties *)

Local Open Scope nat_scope.

(** ** The error monad and the number helpers *)

Lemma bind_Returned {A B} (m : outcome A) (k : A → outcome B) (b : B) :
  m ≫= k = Returned b → ∃ a, m = Returned a ∧ k a = Returned b.
Proof. destruct m as [a|e]; [eauto | discriminate]. Qed.



Lemma Qltb_true a b : Qltb a b = true ↔ (a < b)%Q.
Proof.
  unfold Qltb. rewrite negb_true_iff. split.
  - intros H. apply Qnot_le_lt. intros Hle. apply Qle_bool_iff in Hle. congruence.
  - intros H. destruct (Qle_bool b a) eqn:E; [|done].
    apply Qle_bool_iff in E. exfalso. eapply Qlt_not_le; eauto.
Qed.

Lemma Qltb_false a b : Qltb a b = false ↔ (b <= a)%Q.
Proof.
  unfold Qltb. rewrite negb_false_iff. apply Qle_bool_iff.
Qed.

Lemma traverse_total {A B} (f : A → outcome B) (xs : list A) :
  (∀ x, x ∈ xs → ∃ y, f x = Returned y) →
  ∃ ys, traverse f xs = Returned ys ∧ Forall2 (λ x y, f x = Returned y) xs ys.
Proof.
  induction xs as [|x xs IH]; intros H; simpl.
  - exists []. split; [done | constructor].
  - destruct (H x) as [y Hy]; [left|].
    destruct IH as (ys & Hys & HF). { intros x' Hx'. apply H. by right. }
    exists (y :: ys). rewrite Hy. simpl. rewrite Hys. simpl.
    split; [done | by constructor].
Qed.

Lemma traverse_Returned {A B} (f : A → outcome B) (xs : list A) ys :
  traverse f xs = Returned ys → Forall2 (λ x y, f x = Returned y) xs ys.
Proof.
  revert ys. induction xs as [|x xs IH]; intros ys H; simpl in H.
  - injection H as <-. constructor.
  - apply bind_Returned in H as (y & Hy & H).
    apply bind_Returned in H as (ys' & Hys & H).
    injection H as <-. constructor; auto.
Qed.

(** ** The stable sort *)

Section SortFacts.
  Context {A : Type} (key : A → Q).

Lemma insert_Permutation x l : Py.insert key x l ≡ₚ x :: l.
  Proof.
    induction l as [|y l IH]; simpl; [done|].
    destruct (Qltb (key y) (key x)); [|done].
    rewrite IH. apply Permutation_swap.
  Qed.

Lemma sort_Permutation l : Py.sort key l ≡ₚ l.
  Proof.
    induction l as [|x l IH]; simpl; [done|].
    unfold Py.sort in *. simpl. rewrite insert_Permutation. by rewrite IH.
  Qed.

Lemma sort_reverse_Permutation l : sort_reverse key l ≡ₚ l.
  Proof.
    unfold sort_reverse. rewrite <- Permutation_rev, sort_Permutation.
    symmetry. apply Permutation_rev.
  Qed.

Lemma insert_sorted x l :
    StronglySorted (key_le key) l → StronglySorted (key_le key) (Py.insert key x l).
  Proof.
    induction 1 as [|y l Hl IH Hy]; simpl.
    - repeat constructor.
    - destruct (Qltb (key y) (key x)) eqn:E.
      + constructor; [done|].
        apply Qltb_true in E.
        eapply Forall_forall. intros z Hz.
        rewrite insert_Permutation in Hz.
        apply elem_of_cons in Hz as [-> | Hz].
        * by apply Qlt_le_weak.
        * rewrite Forall_forall in Hy. by apply Hy.
      + apply Qltb_false in E. constructor.
        * by constructor.
        * constructor; [done|].
          eapply Forall_impl; [exact Hy|].
          intros z Hz. unfold key_le in *. by eapply Qle_trans.
  Qed.

Lemma sort_sorted l : StronglySorted (key_le key) (Py.sort key l).
  Proof.
    induction l as [|x l IH]; [constructor|].
    unfold Py.sort in *. simpl. by apply insert_sorted.
  Qed.

Lemma StronglySorted_rev_flip (R : relation A) l :
    StronglySorted R l → StronglySorted (flip R) (rev l).
  Proof.
    induction 1 as [|x l Hl IH Hx]; simpl; [constructor|].
    apply StronglySorted_app. split; [|split; [done | repeat constructor]].
    intros a b Ha Hb. apply list_elem_of_In, in_rev, list_elem_of_In in Ha.
    apply list_elem_of_singleton in Hb as ->.
    rewrite Forall_forall in Hx. by apply Hx.
  Qed.

Lemma sort_reverse_sorted l : StronglySorted (key_ge key) (sort_reverse key l).
  Proof.
    unfold sort_reverse. apply (StronglySorted_rev_flip (key_le key)), sort_sorted.
  Qed.

  (** Stability: the elements of one key keep their order. *)
Lemma filter_insert k x l :
    List.filter (same_key key k) (Py.insert key x l)
    = List.filter (same_key key k) (x :: l).
  Proof.
    induction l as [|y l IH]; [done|].
    simpl. destruct (Qltb (key y) (key x)) eqn:E; [|done].
    simpl in *. rewrite IH.
    destruct (same_key key k x) eqn:Ex; [|done].
    destruct (same_key key k y) eqn:Ey; [|done].
    exfalso. unfold same_key in *.
    apply Qeq_bool_iff in Ex, Ey. apply Qltb_true in E.
    rewrite Ex, Ey in E. by apply Qlt_irrefl in E.
  Qed.

Lemma filter_sort k l :
    List.filter (same_key key k) (Py.sort key l) = List.filter (same_key key k) l.
  Proof.
    induction l as [|x l IH]; [done|].
    unfold Py.sort in *. simpl foldr. rewrite filter_insert. simpl. by rewrite IH.
  Qed.

Lemma filter_rev (f : A → bool) l :
    List.filter f (rev l) = rev (List.filter f l).
  Proof.
    induction l as [|x l IH]; [done|].
    simpl. rewrite List.filter_app, IH. simpl.
    destruct (f x); simpl; [done | by rewrite app_nil_r].
  Qed.

Lemma filter_sort_reverse k l :
    List.filter (same_key key k) (sort_reverse key l) = List.filter (same_key key k) l.
  Proof.
    unfold sort_reverse.
    by rewrite filter_rev, filter_sort, filter_rev, rev_involutive.
  Qed.
End SortFacts.

(** ** The Performance Evaluator *)

Section PerformanceFacts.
  Import PerformanceAnalyzer.
  Variable settings : Settings.t.
  Variable ticker_info : string → outcome info.

Lemma calculate_change_eq cur prev :
    calculate_change settings cur prev =
    match cur, prev with
    | Some c, Some p =>
        if Qnonzero c && Qnonzero p then
          Returned (Some (c - p), Some ((c - p) / p * 100),
                    Qle_bool (Settings.fluctuation_threshold settings) (Qabs ((c - p) / p * 100)))%Q
        else Returned (None, None, false)
    | _, _ => Returned (None, None, false)
    end.
  Proof.
    unfold calculate_change.
    destruct cur as [c|], prev as [p|]; simpl; try done.
    - destruct (Qnonzero c); simpl; [|done].
      destruct (Qnonzero p) eqn:Ep; simpl; rewrite ?Ep; done.
    - by rewrite andb_false_r.
  Qed.

  (** The change computation returns on every input: no division by
      zero, no arithmetic on [None]. *)
Lemma calculate_change_returns cur prev :
    ∃ v, calculate_change settings cur prev = Returned v.
  Proof.
    rewrite calculate_change_eq.
    destruct cur as [c|], prev as [p|]; eauto.
    destruct (Qnonzero c && Qnonzero p); eauto.
  Qed.

  (** The fields of a record of the [try] block, from the two prices it
      stores. *)
Lemma try_record holding r :
    _get_stock_performance_try settings ticker_info holding = Returned r →
    calculate_change settings (HoldingPerformance.current_price r)
                     (HoldingPerformance.previous_close r)
    = Returned (HoldingPerformance.change_amount r,
                HoldingPerformance.change_percent r,
                HoldingPerformance.is_high_fluctuation r).
  Proof.
    unfold _get_stock_performance_try. intros H.
    apply bind_Returned in H as (i & _ & H).
    apply bind_Returned in H as ([[ca cp] hi] & Hc & H).
    apply bind_Returned in H as (mv & _ & H).
    apply bind_Returned in H as (nm & _ & H).
    injection H as <-. exact Hc.
  Qed.

Lemma performance_record holding r :
    _get_stock_performance settings ticker_info holding = Returned r →
    calculate_change settings (HoldingPerformance.current_price r)
                     (HoldingPerformance.previous_close r)
    = Returned (HoldingPerformance.change_amount r,
                HoldingPerformance.change_percent r,
                HoldingPerformance.is_high_fluctuation r).
  Proof.
    unfold _get_stock_performance.
    destruct (_get_stock_performance_try settings ticker_info holding) as [p|e] eqn:E.
    - intros [= <-]. by eapply try_record.
    - destruct (is_Exception e); [|discriminate]. by intros [= <-].
  Qed.

  (** The evaluator returns a record whenever the quote lookup returns or
      raises an [Exception]. *)
Lemma performance_returns holding :
    (∀ e, ticker_info (Holding.symbol holding) = Raised e → is_Exception e = true) →
    ∃ r, _get_stock_performance settings ticker_info holding = Returned r.
  Proof.
    intros Hex. unfold _get_stock_performance.
    destruct (_get_stock_performance_try settings ticker_info holding) as [p|e] eqn:E;
      [eauto|].
    assert (is_Exception e = true) as ->; [|eauto].
    unfold _get_stock_performance_try in E.
    destruct (ticker_info (Holding.symbol holding)) as [i|e'] eqn:Ei.
    - simpl in E.
      destruct (calculate_change_returns
                  (or_ (currentPrice i) (regularMarketPrice i))
                  (or_ (previousClose i) (regularMarketPreviousClose i)))
        as ([[ca cp] hi] & ->) in E.
      simpl in E.
      destruct (or_ (currentPrice i) (regularMarketPrice i)) as [c|]; simpl in E.
      + destruct (Qnonzero c && Qnonzero (Holding.shares holding)); simpl in E;
          destruct (str_truthy (Holding.name holding)); simpl in E; try discriminate;
          destruct (shortName i) as [[s|]|]; simpl in E; try discriminate;
          by injection E as <-.
      + destruct (str_truthy (Holding.name holding)); simpl in E; try discriminate;
          destruct (shortName i) as [[s|]|]; simpl in E; try discriminate;
          by injection E as <-.
    - simpl in E. injection E as <-. by apply Hex.
  Qed.

  (** A flagged record of the evaluator has its change percent. *)
Lemma flagged_has_change holding r :
    _get_stock_performance settings ticker_info holding = Returned r →
    HoldingPerformance.is_high_fluctuation r = true →
    is_Some (HoldingPerformance.change_percent r).
  Proof.
    intros H%performance_record. rewrite calculate_change_eq in H.
    destruct (HoldingPerformance.current_price r) as [c|],
             (HoldingPerformance.previous_close r) as [p|];
      try (injection H as _ _ <-; discriminate).
    destruct (Qnonzero c && Qnonzero p).
    - injection H as _ <- _. eauto.
    - injection H as _ _ <-. discriminate.
  Qed.
End PerformanceFacts.






(** ** [get_fluctuation_alerts] *)

Lemma alert_of_Some p :
  is_Some (PerformanceAnalyzer.alert_of p) ↔
  HoldingPerformance.is_high_fluctuation p = true ∧
  is_Some (HoldingPerformance.change_percent p).
Proof.
  unfold PerformanceAnalyzer.alert_of.
  destruct (HoldingPerformance.change_percent p) as [cp|],
           (HoldingPerformance.is_high_fluctuation p); split;
    try (intros [? [x Hx]]; discriminate); try (intros [x Hx]; discriminate);
    try (intros [Hf ?]; discriminate); eauto.
Qed.

Lemma alert_of_fields p a :
  PerformanceAnalyzer.alert_of p = Some a →
  FluctuationAlert.symbol a = HoldingPerformance.symbol p ∧
  HoldingPerformance.change_percent p = Some (FluctuationAlert.change_percent a).
Proof.
  unfold PerformanceAnalyzer.alert_of.
  destruct (HoldingPerformance.change_percent p) as [cp|]; [|discriminate].
  destruct (HoldingPerformance.is_high_fluctuation p); [|discriminate].
  by intros [= <-].
Qed.

Lemma omap_filter_Some {A B} (f : A → option B) (P : A → Prop)
    `{∀ x, Decision (P x)} (l : list A) :
  (∀ x, is_Some (f x) → P x) → omap f (filter P l) = omap f l.
Proof.
  intros HP. induction l as [|x l IH]; [done|].
  rewrite filter_cons. case_decide as Hx; csimpl; rewrite IH; [done|].
  destruct (f x) eqn:E; [|done]. exfalso. apply Hx, HP. by rewrite E.
Qed.

Lemma length_omap_filter {A B} (f : A → option B) (P : A → Prop)
    `{∀ x, Decision (P x)} (l : list A) :
  (∀ x, P x → is_Some (f x)) → length (omap f (filter P l)) = length (filter P l).
Proof.
  intros HP. induction l as [|x l IH]; [done|].
  rewrite filter_cons. case_decide as Hx; [|done].
  csimpl. destruct (HP x Hx) as [y ->]. simpl. by rewrite IH.
Qed.

(** C4 (as amended).  For every list of performance records,
    [get_fluctuation_alerts] returns the alerts of exactly the records
    whose high-fluctuation flag is set and whose change percent is defined,
    ordered so that the absolute change percent is non-increasing, and
    alerts of equal absolute change percent keep the order their records
    had in the input. *)
Theorem fluctuation_alerts_sorted_stable (performances : list HoldingPerformance.t) :
  let alerts := PerformanceAnalyzer.get_fluctuation_alerts performances in
  let selected :=
    omap PerformanceAnalyzer.alert_of
      (filter (λ p, HoldingPerformance.is_high_fluctuation p = true ∧
                    is_Some (HoldingPerformance.change_percent p)) performances) in
  alerts ≡ₚ selected
  ∧ length selected
    = length (filter (λ p, HoldingPerformance.is_high_fluctuation p = true ∧
                           is_Some (HoldingPerformance.change_percent p)) performances)
  ∧ StronglySorted (key_ge PerformanceAnalyzer.abs_change) alerts
  ∧ ∀ k, List.filter (same_key PerformanceAnalyzer.abs_change k) alerts
         = List.filter (same_key PerformanceAnalyzer.abs_change k) selected.
Proof.
  intros alerts selected.
  assert (selected = omap PerformanceAnalyzer.alert_of performances) as Hsel.
  { apply omap_filter_Some. intros p. apply alert_of_Some. }
  split; [|split; [|split]].
  - rewrite Hsel. apply sort_reverse_Permutation.
  - apply length_omap_filter. intros p. apply alert_of_Some.
  - apply sort_reverse_sorted.
  - intros k. rewrite Hsel. apply filter_sort_reverse.
Qed.

(** C4 as stated fails: a record with the flag set and no change percent
    is dropped, so the alerts are not the flagged records. *)
Lemma fluctuation_alerts_counterexample :
  ¬ (∀ performances,
       FluctuationAlert.symbol <$> PerformanceAnalyzer.get_fluctuation_alerts performances
       ≡ₚ HoldingPerformance.symbol <$>
            filter (λ p, HoldingPerformance.is_high_fluctuation p = true) performances).
Proof.
  intros H. specialize (H [Examples.flagged_without_change]).
  apply Permutation_length in H. discriminate H.
Qed.

(** Equal magnitudes keep their input order under [reverse=True]: +6
    before -6 as given, 7 first, and -6 before +6 when given so. *)
Example fluctuation_alerts_example :
  FluctuationAlert.symbol <$>
    PerformanceAnalyzer.get_fluctuation_alerts
      [ExampleRecords.moved "A" 6; ExampleRecords.moved "B" (-6);
       Examples.flagged_without_change; ExampleRecords.moved "C" 7]
  = ["C"; "A"; "B"]
  ∧ FluctuationAlert.symbol <$>
      PerformanceAnalyzer.get_fluctuation_alerts
        [ExampleRecords.moved "B" (-6); ExampleRecords.moved "A" 6]
    = ["B"; "A"]
  ∧ FluctuationAlert.direction <$>
      PerformanceAnalyzer.get_fluctuation_alerts
        [ExampleRecords.moved "A" 6; ExampleRecords.moved "B" (-6)]
    = ["up"; "down"].
Proof. repeat split. Qed.

(** ** The Holdings Source Adapter *)





(** The example payload in its five shapes. *)
Example parse_holdings_example :
  ∃ holdings,
    HoldingsFetcher._parse_holdings ExamplePayloads.no_float
      (HoldingsFetcher.JArr ExamplePayloads.items) = Returned holdings
    ∧ Holding.symbol <$> holdings = ["AAPL"; "MSFT"]
    ∧ Holding.market_value <$> holdings = [Some (150 * 10)%Q; Some 700%Q]
    ∧ Forall (λ key,
        HoldingsFetcher._parse_holdings ExamplePayloads.no_float
          (HoldingsFetcher.JObj [(key, HoldingsFetcher.JArr ExamplePayloads.items)])
        = Returned holdings) ExamplePayloads.wrapper_keys.
Proof.
  eexists. split; [reflexivity|]. split; [reflexivity|]. split; [reflexivity|].
  repeat constructor.
Qed.

(** ** The TTL cache *)

Section CacheFacts.
Context {V : Type}.
Implicit Types (c : TTLCache.t V) (l : TTLCache.link V) (k : string).


Lemma contains_find time k c :
  TTLCache.contains time k c = true →
  ∃ l, TTLCache.find k c = Some l ∧ (time < TTLCache.expires l)%Z.
Proof.
  unfold TTLCache.contains. destruct (TTLCache.find k c) as [l|]; [|done].
  intros H%bool_decide_eq_true. eauto.
Qed.

Lemma getitem_find time k c v l :
  TTLCache.find k c = Some l → TTLCache.getitem time k c = Returned v →
  TTLCache.value l = v.
Proof.
  unfold TTLCache.getitem. intros ->. case_bool_decide; [|done]. by intros [= <-].
Qed.


Lemma evict_elem_of n (ls : list (TTLCache.link V)) l :
  l ∈ TTLCache.evict n ls → l ∈ ls.
Proof.
  induction ls as [|x ls IH]; [done|]. simpl.
  case_bool_decide; [done|]. intros Hl. right. by apply IH.
Qed.

Lemma list_find_fresh k (ls : list (TTLCache.link V)) new :
  (∀ l, l ∈ ls → TTLCache.key l ≠ k) → TTLCache.key new = k →
  snd <$> list_find (λ l, TTLCache.key l = k) (ls ++ [new]) = Some new.
Proof.
  intros Hls Hnew. induction ls as [|x ls IH]; simpl.
  - by rewrite decide_True.
  - rewrite decide_False; [|apply Hls; left].
    destruct (list_find _ (ls ++ [new])) as [[i y]|] eqn:E; simpl in *.
    + apply IH. intros l Hl. apply Hls. by right.
    + exfalso. assert (Some new = None) as Habs; [|done].
      rewrite <- IH; [done|]. intros l Hl. apply Hls. by right.
Qed.

(** A write that returns leaves the entry it wrote, expiring one [ttl]
    after the write. *)
Lemma setitem_find time k v c c' :
  TTLCache.setitem time k v c = Returned c' →
  TTLCache.find k c'
  = Some {| TTLCache.key := k; TTLCache.value := v;
            TTLCache.expires := (time + TTLCache.ttl c)%Z |}.
Proof.
  unfold TTLCache.setitem. case_bool_decide; [done|]. intros [= <-].
  unfold TTLCache.find. simpl. apply list_find_fresh; [|done].
  intros l Hl.
  assert (l ∈ filter (λ l, TTLCache.key l ≠ k)
                (TTLCache.expire time (TTLCache.links c))) as Hin.
  { case_bool_decide; [done | by eapply evict_elem_of]. }
  by apply list_elem_of_filter in Hin as [? _].
Qed.

(** A cache with room for an entry accepts every write. *)
Lemma setitem_returns time k v c :
  TTLCache.maxsize c ≠ 0 → ∃ c', TTLCache.setitem time k v c = Returned c'.
Proof.
  intros H. unfold TTLCache.setitem. rewrite bool_decide_eq_false_2; eauto.
Qed.
End CacheFacts.

(** [sorted] sees the symbol set only, not its order. *)
Lemma sorted_str_Permutation (xs ys : list string) :
  xs ≡ₚ ys → sorted_str xs = sorted_str ys.
Proof.
  intros H. unfold sorted_str.
  apply (StronglySorted_unique String.le).
  - apply StronglySorted_merge_sort; apply _.
  - apply StronglySorted_merge_sort; apply _.
  - by rewrite !merge_sort_Permutation.
Qed.

(** ** The Earnings Collector *)

(** The primary path: an event of [_get_earnings_for_symbol] lies in the
    window. *)
Lemma earnings_for_symbol_window ticker_calendar ticker_info now symbol e :
  EarningsCollector._get_earnings_for_symbol ticker_calendar ticker_info now symbol
    = Returned (Some e) →
  EarningsCollector.in_window e.
Proof.
  unfold EarningsCollector._get_earnings_for_symbol.
  destruct (EarningsCollector._get_earnings_for_symbol_try _ _ _ _) as [r|x] eqn:E;
    [|by destruct (is_Exception x)].
  intros [= ->]. unfold EarningsCollector._get_earnings_for_symbol_try in E.
  apply bind_Returned in E as (cal & _ & E).
  apply bind_Returned in E as (skip & _ & E).
  destruct skip; [done|].
  apply bind_Returned in E as (d & _ & E).
  destruct (EarningsCollector.is_none d); [done|].
  destruct (EarningsCollector.is_none _); [done|].
  destruct (match _ with EarningsCollector.DDatetime t => _ | _ => _ end) as [t|];
    [|done].
  destruct (bool_decide (_ < 0)%Z || bool_decide (_ > 30)%Z) eqn:Hw; [done|].
  apply orb_false_iff in Hw as [H0%bool_decide_eq_false H30%bool_decide_eq_false].
  apply bind_Returned in E as (i & _ & E).
  apply bind_Returned in E as (nm & _ & E).
  destruct cal; injection E as <-; unfold EarningsCollector.in_window; simpl; lia.
Qed.

Lemma traverse_omap_Forall {A B} (f : A → outcome (option B)) (P : B → Prop) xs ys :
  (∀ x y, f x = Returned (Some y) → P y) →
  traverse f xs = Returned ys → Forall P (omap id ys).
Proof.
  intros HP H%traverse_Returned.
  induction H as [|x [y|] xs ys Hx _ IH]; csimpl; [done| |done].
  constructor; eauto.
Qed.

(** The primary path as a whole: from a cache holding window events only,
    a call returns window events only and leaves such a cache. *)
Lemma earnings_for_symbols_window ticker_calendar ticker_info cache clk symbols :
  EarningsCollector.cache_in_window cache →
  let c := EarningsCollector.get_earnings_for_symbols
             ticker_calendar ticker_info cache clk symbols in
  EarningsCollector.cache_in_window (EarningsCollector.cache_after c)
  ∧ ∀ events, EarningsCollector.result c = Returned events →
              Forall EarningsCollector.in_window events.
Proof.
  intros Hc. unfold EarningsCollector.get_earnings_for_symbols.
  destruct (TTLCache.contains _ _ cache) eqn:Hin; simpl.
  - split; [done|]. intros events Hev.
    apply contains_find in Hin as (l & Hl & _).
    rewrite <- (getitem_find _ _ _ _ _ Hl Hev). apply Hc.
    unfold TTLCache.find in Hl.
    destruct (list_find _ _) as [[i l']|] eqn:Hf; [|done].
    injection Hl as ->. apply list_find_Some in Hf as (Hi & _).
    by eapply list_elem_of_lookup_2.
  - destruct (traverse _ symbols) as [results|e] eqn:Ht; simpl; [|done].
    assert (Forall EarningsCollector.in_window
              (Py.sort (λ e, inject_Z (EarningsEvent.earnings_date e))
                       (omap id results))) as Hsorted.
    { rewrite sort_Permutation.
      eapply traverse_omap_Forall; [|exact Ht].
      intros. by eapply earnings_for_symbol_window. }
    destruct (TTLCache.setitem _ _ _ cache) as [cache'|e] eqn:Hs; simpl; [|done].
    split; [|by intros events [= <-]].
    unfold TTLCache.setitem in Hs. case_bool_decide; [done|].
    injection Hs as <-. intros l. simpl.
    rewrite elem_of_app, list_elem_of_singleton. intros [Hl | ->]; [|done].
    apply Hc.
    assert (l ∈ filter (λ l, TTLCache.key l ≠ EarningsCollector.cache_key symbols)
                  (TTLCache.expire (EarningsCollector.t_setitem clk)
                                   (TTLCache.links cache))) as Hl'.
    { case_bool_decide; [done | by eapply evict_elem_of]. }
    apply list_elem_of_filter in Hl' as [_ Hl'].
    unfold TTLCache.expire in Hl'. by apply list_elem_of_filter in Hl' as [_ Hl'].
Qed.

(** C3, at the input where the code leaves the claim.  Every event of the
    primary per-symbol path has [days_until] between 0 and 30; the backup
    source returns the events of the page as they are, here one 51 days
    ahead and one 34 days back. *)
Theorem backup_source_outside_window :
  (∀ ticker_calendar ticker_info now symbol e,
     EarningsCollector._get_earnings_for_symbol ticker_calendar ticker_info now symbol
       = Returned (Some e) →
     EarningsCollector.in_window e)
  ∧ EarningsEvent.days_until <$>
      EarningsCollector.scrape_nasdaq_earnings Examples.strptime Examples.now
        (Returned (Some Examples.nasdaq_rows)) ["aapl"; "msft"]
    = [51%Z; (-34)%Z]
  ∧ ¬ Forall EarningsCollector.in_window
        (EarningsCollector.scrape_nasdaq_earnings Examples.strptime Examples.now
           (Returned (Some Examples.nasdaq_rows)) ["aapl"; "msft"]).
Proof.
  split; [apply earnings_for_symbol_window|]. split; [reflexivity|].
  intros H. apply Forall_cons in H as [[_ H] _]. vm_compute in H. by apply H.
Qed.

(** ** The cache keys and the cached calls *)

Lemma earnings_cache_key_Permutation symbols1 symbols2 :
  symbols1 ≡ₚ symbols2 →
  EarningsCollector.cache_key symbols1 = EarningsCollector.cache_key symbols2.
Proof.
  intros H. unfold EarningsCollector.cache_key. by rewrite (sorted_str_Permutation _ _ H).
Qed.

Lemma news_cache_key_Permutation symbols1 symbols2 max_per_symbol :
  symbols1 ≡ₚ symbols2 →
  NewsCollector.cache_key symbols1 max_per_symbol
  = NewsCollector.cache_key symbols2 max_per_symbol.
Proof.
  intros H. unfold NewsCollector.cache_key. by rewrite (sorted_str_Permutation _ _ H).
Qed.

(** After a call that returned, its key is cached with what it returned;
    when the call fetched, the entry expires one [ttl] after the write. *)
Lemma earnings_first_call ticker_calendar ticker_info cache clk symbols events :
  let c := EarningsCollector.get_earnings_for_symbols
             ticker_calendar ticker_info cache clk symbols in
  EarningsCollector.result c = Returned events →
  ∃ l, TTLCache.find (EarningsCollector.cache_key symbols)
                     (EarningsCollector.cache_after c) = Some l
       ∧ TTLCache.value l = events
       ∧ (TTLCache.contains (EarningsCollector.t_contains clk)
                            (EarningsCollector.cache_key symbols) cache = false →
          TTLCache.expires l
          = (EarningsCollector.t_setitem clk + TTLCache.ttl cache)%Z).
Proof.
  unfold EarningsCollector.get_earnings_for_symbols.
  destruct (TTLCache.contains _ _ cache) eqn:Hin; simpl.
  - intros Hev. apply contains_find in Hin as (l & Hl & _).
    exists l. split; [done|]. split; [by eapply getitem_find | done].
  - destruct (traverse _ symbols) as [results|e]; simpl; [|done].
    destruct (TTLCache.setitem _ _ _ cache) as [cache'|e] eqn:Hs; simpl; [|done].
    intros [= <-]. apply setitem_find in Hs. eauto.
Qed.


Lemma news_first_call ticker_news cache clk symbols max_per_symbol items :
  let c := NewsCollector.get_news_for_symbols
             ticker_news cache clk symbols max_per_symbol in
  EarningsCollector.result c = Returned items →
  ∃ l, TTLCache.find (NewsCollector.cache_key symbols max_per_symbol)
                     (EarningsCollector.cache_after c) = Some l
       ∧ TTLCache.value l = items
       ∧ (TTLCache.contains (EarningsCollector.t_contains clk)
            (NewsCollector.cache_key symbols max_per_symbol) cache = false →
          TTLCache.expires l
          = (EarningsCollector.t_setitem clk + TTLCache.ttl cache)%Z).
Proof.
  unfold NewsCollector.get_news_for_symbols.
  destruct (TTLCache.contains _ _ cache) eqn:Hin; simpl.
  - intros Hev. apply contains_find in Hin as (l & Hl & _).
    exists l. split; [done|]. split; [by eapply getitem_find | done].
  - destruct (traverse _ symbols) as [results|e]; simpl; [|done].
    destruct (TTLCache.setitem _ _ _ cache) as [cache'|e] eqn:Hs; simpl; [|done].
    intros [= <-]. apply setitem_find in Hs. eauto.
Qed.




(** One collector with the default 4 hours: a call at time 0 fetches both
    symbols; the permuted call one second before expiry fetches nothing
    and returns the same events; the call at the expiry fetches again; and
    so does a call right after [clear_cache]. *)
Example earnings_cache_example :
  let get := EarningsCollector.get_earnings_for_symbols
               Examples.calendars Examples.earnings_infos in
  let first := get (EarningsCollector.new_cache Settings.default)
                   (Examples.at_time 0) ["MSFT"; "AAPL"] in
  let cached := EarningsCollector.cache_after first in
  EarningsCollector.cache_key ["MSFT"; "AAPL"] = "AAPL,MSFT"
  ∧ EarningsCollector.fetched first = ["MSFT"; "AAPL"]
  ∧ EarningsEvent.days_until <$> default [] (match EarningsCollector.result first with
                                             | Returned es => Some es | Raised _ => None end)
    = [10%Z; 10%Z]
  ∧ EarningsCollector.fetched (get cached (Examples.at_time 14399) ["AAPL"; "MSFT"]) = []
  ∧ EarningsCollector.result (get cached (Examples.at_time 14399) ["AAPL"; "MSFT"])
    = EarningsCollector.result first
  ∧ EarningsCollector.fetched (get cached (Examples.at_time 14400) ["AAPL"; "MSFT"])
    = ["AAPL"; "MSFT"]
  ∧ EarningsCollector.fetched
      (get (EarningsCollector.clear_cache cached) (Examples.at_time 1) ["AAPL"; "MSFT"])
    = ["AAPL"; "MSFT"].
Proof. vm_compute. repeat split. Qed.

(** ** The agent router: one run at a time *)







(** ** The agent router: the fallback summary and the error response *)

Lemma analyze_portfolio_idle svc request g :
  Agent._analysis_in_progress g = false →
  Agent.analyze_portfolio svc request g
  = Agent.leave (Services.utcnow svc) (Agent.analyze_try svc request)
      {| Agent._latest_analysis := Agent._latest_analysis g;
         Agent._analysis_in_progress := true |}.
Proof.
  intros H. unfold Agent.analyze_portfolio, Agent.enter. by rewrite H.
Qed.


(** With the defaults no provider is configured; the [local] provider
    counts as configured through its default URL. *)
Example is_configured_example :
  LLMAgent.is_configured Settings.default = false
  ∧ LLMAgent.is_configured
      {| Settings.holdings_endpoint_url := "";
         Settings.holdings_auth_token := "";
         Settings.llm_provider := "local";
         Settings.llm_model := "llama3";
         Settings.openai_api_key := "";
         Settings.anthropic_api_key := "";
         Settings.local_llm_url := Settings.local_llm_url Settings.default;
         Settings.scheduler_enabled := true;
         Settings.scheduler_cron := "0 9,16 * * 1-5";
         Settings.fluctuation_threshold := 5;
         Settings.earnings_cache_hours := 4;
         Settings.news_cache_minutes := 30 |} = true.
Proof. split; reflexivity. Qed.




(** Every response a run hands over has status [success]. *)
Lemma analyze_try_success svc request r :
  Agent.analyze_try svc request = Returned r → AnalyzeResponse.status r = "success".
Proof.
  unfold Agent.analyze_try. intros H.
  apply bind_Returned in H as (c & _ & H). unfold Agent.summarize in H.
  apply bind_Returned in H as (sm & _ & H). by injection H as <-.
Qed.

Lemma run_analysis_try_success svc r :
  Scheduler._run_analysis_try svc = Returned r → AnalyzeResponse.status r = "success".
Proof.
  unfold Scheduler._run_analysis_try. intros H.
  apply bind_Returned in H as (h & _ & H).
  apply bind_Returned in H as (p & _ & H).
  apply bind_Returned in H as (ea & _ & H).
  apply bind_Returned in H as (n & _ & H).
  apply bind_Returned in H as (sm & _ & H). by injection H as <-.
Qed.

Lemma find_run_elem_of id rs r : Process.find_run id rs = Some r → r ∈ rs.
Proof.
  unfold Process.find_run. destruct (list_find _ rs) as [[i x]|] eqn:E; [|done].
  intros [= <-]. apply list_find_Some in E as (Hi & _). by eapply list_elem_of_lookup_2.
Qed.

Lemma remove_run_elem_of id rs r : r ∈ Process.remove_run id rs → r ∈ rs.
Proof. unfold Process.remove_run. by intros [_ ?]%list_elem_of_filter. Qed.

Lemma step_stores_success s e :
  Process.stores_success s → Process.stores_success (Process.step s e).1.
Proof.
  intros (Hl & Ha & Hs).
  destruct e as [id svc request | id | id svc | id am |]; simpl; [| | | |done].
  - destruct (Agent.enter (Process.globals s)) as [g|] eqn:Hg; [|done].
    unfold Agent.enter in Hg.
    destruct (Agent._analysis_in_progress (Process.globals s)); [done|].
    injection Hg as <-. split; [done|]. split; [|done]. simpl.
    intros r a [Hr | ->%list_elem_of_singleton]%elem_of_app; [by eapply Ha|].
    apply analyze_try_success.
  - destruct (Process.find_run id (Process.analyze_runs s)) as [r|] eqn:Hr; [|done].
    destruct (Agent.leave _ _ _) as [g reply] eqn:Hg. simpl.
    split; [|split; [|done]].
    + simpl. unfold Agent.leave in Hg.
      destruct (Process.run_outcome r) as [resp|x] eqn:Ho; injection Hg as <- _; simpl.
      * intros a [= <-]. eapply Ha; [by eapply find_run_elem_of | done].
      * done.
    + simpl. intros r' a Hr'%remove_run_elem_of. by apply Ha.
  - split; [done|]. split; [done|]. simpl.
    intros r a [Hr | ->%list_elem_of_singleton]%elem_of_app; [by eapply Hs|].
    apply run_analysis_try_success.
  - destruct (Process.find_run id (Process.scheduler_runs s)) as [r|] eqn:Hr; [|done].
    destruct (Scheduler._run_analysis_end _ _ _ _ _) as [l g] eqn:Hg. simpl.
    split; [|split; [done|]].
    + simpl. unfold Scheduler._run_analysis_end in Hg.
      destruct (Process.run_outcome r) as [resp|x] eqn:Ho;
        [destruct am | destruct (is_Exception x)]; injection Hg as _ <-; simpl;
        try done.
      intros a [= <-]. eapply Hs; [by eapply find_run_elem_of | done].
    + simpl. intros r' a Hr'%remove_run_elem_of. by apply Hs.
Qed.

Lemma exec_stores_success tr s :
  Process.stores_success s → Process.stores_success (Process.exec s tr).1.
Proof.
  revert s. induction tr as [|e tr IH]; intros s Hs; [done|].
  simpl. destruct (Process.step s e) as [s1 o] eqn:E1.
  destruct (Process.exec s1 tr) as [s2 os] eqn:E2. simpl.
  specialize (IH s1). rewrite E2 in IH. apply IH.
  pose proof (step_stores_success s e Hs) as H. by rewrite E1 in H.
Qed.

(** C9.  When the [try] block of an /analyze run raises, the globals
    after the run are the globals before it: the stored snapshot is
    untouched and the flag is cleared.  For an [Exception] the caller
    receives the error response (status [error], no summary, empty lists,
    a holdings count of 0).  The five read endpoints answer as before the
    run.  A run ending among other handlers leaves the snapshot as it
    finds it, and in no state the process reaches is the stored snapshot
    an error response. *)
Theorem failed_run_keeps_snapshot
    (svc : Services.t) (request : AnalyzeRequest.t) (g : Agent.globals) (e : exn) :
  Agent._analysis_in_progress g = false →
  Agent.analyze_try svc request = Raised e →
  let after := (Agent.analyze_portfolio svc request g).1 in
  let reply := (Agent.analyze_portfolio svc request g).2 in
  after = g
  ∧ (is_Exception e = true →
     ∃ r, reply = Agent.Response r
          ∧ AnalyzeResponse.status r = "error"
          ∧ AnalyzeResponse.summary r = None
          ∧ AnalyzeResponse.fluctuation_alerts r = []
          ∧ AnalyzeResponse.upcoming_earnings r = []
          ∧ AnalyzeResponse.news_items r = []
          ∧ AnalyzeResponse.holdings_count r = 0
          ∧ AnalyzeResponse.error r = Some (exn_msg e))
  ∧ Agent.get_latest_summary after = Agent.get_latest_summary g
  ∧ Agent.get_fluctuations after = Agent.get_fluctuations g
  ∧ Agent.get_earnings after = Agent.get_earnings g
  ∧ Agent.get_news after = Agent.get_news g
  ∧ Agent.get_analysis_status after = Agent.get_analysis_status g
  ∧ (∀ now g', Agent._latest_analysis (Agent.leave now (Raised e) g').1
               = Agent._latest_analysis g')
  ∧ (∀ tr a,
       Agent._latest_analysis (Process.globals (Process.exec Process.initial tr).1)
         = Some a →
       AnalyzeResponse.status a = "success").
Proof.
  intros Hidle Hraised after reply.
  assert (after = g) as Hafter.
  { subst after. rewrite (analyze_portfolio_idle _ _ _ Hidle), Hraised.
    destruct g as [latest flag]. simpl in *. by subst flag. }
  split; [done|]. split.
  { intros Hexc. subst reply.
    rewrite (analyze_portfolio_idle _ _ _ Hidle), Hraised. simpl. rewrite Hexc.
    eexists. repeat split. }
  rewrite Hafter. repeat split.
  intros tr a.
  destruct (exec_stores_success tr Process.initial) as (Hl & _).
  { split; [done|]. split; intros r a' Hr; by apply elem_of_nil in Hr. }
  apply Hl.
Qed.

(** A run that stored a snapshot, then a run whose holdings stage raises
    a [ValueError]. *)
Lemma failed_run_keeps_snapshot_witness :
  let g := (Agent.analyze_portfolio ExampleRuns.services AnalyzeRequest.default
              Agent.initial).1 in
  (AnalyzeResponse.holdings_count <$> Agent._latest_analysis g = Some 5)
  ∧ (Agent.analyze_portfolio ExampleRuns.failing_services AnalyzeRequest.default g).1 = g
  ∧ Agent.get_analysis_status
      (Agent.analyze_portfolio ExampleRuns.failing_services AnalyzeRequest.default g).1
    = Agent.get_analysis_status g.
Proof.
  intros g. split; [reflexivity|].
  destruct (failed_run_keeps_snapshot ExampleRuns.failing_services AnalyzeRequest.default
              g (Exn ValueError "Expecting value: line 1 column 1") eq_refl eq_refl)
    as (Hsame & _ & _ & _ & _ & _ & Hstatus & _).
  split; [exact Hsame | exact Hstatus].
Defined.

(** ** The Schedule Controller *)

(** [start] on a stopped scheduler installs the job and sets it running. *)
Lemma start_installs_job {Trigger} CronTrigger (s s' : Scheduler.t Trigger) :
  Scheduler.running s = false →
  Scheduler.start CronTrigger s = Returned s' →
  Scheduler.running s' = true ∧ is_Some (Scheduler.job s').
Proof.
  unfold Scheduler.start. intros ->. intros H.
  apply bind_Returned in H as (trigger & _ & H). injection H as <-. simpl. eauto.
Qed.

Example split_example :
  Scheduler.split "0 9,16 * * 1-5" = ["0"; "9,16"; "*"; "*"; "1-5"]
  ∧ Scheduler.split "bad cron" = ["bad"; "cron"]
  ∧ Scheduler.split "  */5   *  * * *  " = ["*/5"; "*"; "*"; "*"; "*"].
Proof. repeat split. Qed.




(** * Further properties of the code *)

(** ** [holdings_fetcher]: items *)

Lemma bind_Returned_id {A} (m : outcome A) : m ≫= (λ r, Returned r) = m.
Proof. by destruct m. Qed.

Lemma jtruthy_jor a b :
  HoldingsFetcher.jtruthy (HoldingsFetcher.jor a b)
  = HoldingsFetcher.jtruthy a || HoldingsFetcher.jtruthy b.
Proof.
  unfold HoldingsFetcher.jor. by destruct (HoldingsFetcher.jtruthy a) eqn:E.
Qed.

Lemma jtruthy_first_of d keys last :
  HoldingsFetcher.jtruthy (HoldingsFetcher.first_of d keys last)
  = existsb (λ k, HoldingsFetcher.jtruthy (HoldingsFetcher.get k d)) keys
    || HoldingsFetcher.jtruthy last.
Proof.
  induction keys as [|k keys IH]; [done|].
  simpl. rewrite jtruthy_jor, IH. by rewrite orb_assoc.
Qed.

Lemma has_symbol_raw d :
  HoldingsItems.has_symbol (HoldingsFetcher.JObj d)
  = HoldingsFetcher.jtruthy (HoldingsItems.symbol_raw d).
Proof.
  unfold HoldingsItems.symbol_raw. rewrite jtruthy_first_of. simpl.
  by rewrite !orb_false_r, <- !orb_assoc.
Qed.

Lemma parse_single_without_symbol float_of_str item :
  HoldingsItems.has_symbol item = false →
  HoldingsFetcher._parse_single_holding float_of_str item = Returned None.
Proof.
  destruct item as [| | | | |d]; try done.
  rewrite has_symbol_raw. unfold HoldingsItems.symbol_raw. simpl. by intros ->.
Qed.

Lemma parse_holdings_cons float_of_str item items :
  HoldingsFetcher._parse_holdings float_of_str (HoldingsFetcher.JArr (item :: items))
  = y ← HoldingsFetcher._parse_single_holding float_of_str item;
    r ← HoldingsFetcher._parse_holdings float_of_str (HoldingsFetcher.JArr items);
    Returned (match y with Some h => h :: r | None => r end).
Proof.
  unfold HoldingsFetcher._parse_holdings. simpl.
  destruct (HoldingsFetcher._parse_single_holding float_of_str item) as [y|e];
    [|done].
  simpl. destruct (traverse _ items) as [ys|e]; [|done].
  simpl. by destruct y.
Qed.

(** X1.  An item that is no dict, or a dict without a truthy value under
    [symbol], [ticker], [Symbol] and [Ticker], is dropped without an
    exception whatever its other fields hold, and the holdings parsed from
    a list are those parsed from the list without such items. *)
Theorem items_without_symbol_dropped
    (float_of_str : string → option Q) (items : list HoldingsFetcher.json) :
  (∀ item, HoldingsItems.has_symbol item = false →
           HoldingsFetcher._parse_single_holding float_of_str item = Returned None)
  ∧ HoldingsFetcher._parse_holdings float_of_str (HoldingsFetcher.JArr items)
    = HoldingsFetcher._parse_holdings float_of_str
        (HoldingsFetcher.JArr (List.filter HoldingsItems.has_symbol items)).
Proof.
  split; [apply parse_single_without_symbol|].
  induction items as [|item items IH]; [done|].
  simpl. destruct (HoldingsItems.has_symbol item) eqn:E.
  - by rewrite !parse_holdings_cons, IH.
  - rewrite parse_holdings_cons, (parse_single_without_symbol _ _ E), IH. simpl.
    apply bind_Returned_id.
Qed.

(** What a parsed holding tells about the item it came from. *)
Lemma parse_single_Some float_of_str item h :
  HoldingsFetcher._parse_single_holding float_of_str item = Returned (Some h) →
  ∃ d s price market_value,
    item = HoldingsFetcher.JObj d
    ∧ HoldingsItems.symbol_raw d = HoldingsFetcher.JStr s
    ∧ s ≠ ""
    ∧ Holding.symbol h = upper s
    ∧ HoldingsFetcher.to_float float_of_str (HoldingsItems.shares_raw d)
      = Returned (Holding.shares h)
    ∧ HoldingsFetcher.float_if_truthy float_of_str (HoldingsItems.price_raw d)
      = Returned price
    ∧ HoldingsFetcher.validate_opt_float float_of_str "current_price" price
      = Returned (Holding.current_price h)
    ∧ (if HoldingsFetcher.jtruthy (HoldingsItems.market_value_raw d) then
         q ← HoldingsFetcher.to_float float_of_str (HoldingsItems.market_value_raw d);
         Returned (HoldingsFetcher.JNum q)
       else if HoldingsFetcher.jtruthy price && Qnonzero (Holding.shares h) then
         p ← HoldingsFetcher.to_float float_of_str price;
         Returned (HoldingsFetcher.JNum (p * Holding.shares h)%Q)
       else Returned (HoldingsItems.market_value_raw d)) = Returned market_value
    ∧ HoldingsFetcher.validate_opt_float float_of_str "market_value" market_value
      = Returned (Holding.market_value h).
Proof.
  destruct item as [| | | | |d]; try done.
  unfold HoldingsFetcher._parse_single_holding.
  fold (HoldingsItems.symbol_raw d) (HoldingsItems.shares_raw d)
       (HoldingsItems.price_raw d) (HoldingsItems.market_value_raw d).
  destruct (HoldingsFetcher.jtruthy (HoldingsItems.symbol_raw d)) eqn:Hsym; [|done].
  cbn [negb]. intros H.
  apply bind_Returned in H as (shares & Hshares & H).
  apply bind_Returned in H as (ac & Hac & H).
  apply bind_Returned in H as (price & Hprice & H).
  apply bind_Returned in H as (mv & Hmv & H).
  apply bind_Returned in H as (sym & Hs & H).
  apply bind_Returned in H as (nm & Hnm & H).
  apply bind_Returned in H as (ac' & Hac' & H).
  apply bind_Returned in H as (cp' & Hcp' & H).
  apply bind_Returned in H as (mv' & Hmv' & H).
  apply bind_Returned in H as (sec & Hsec & H).
  injection H as <-. simpl.
  destruct (HoldingsItems.symbol_raw d) as [| | |s| |] eqn:Hraw; try done.
  injection Hs as <-. exists d, s, price, mv.
  repeat split; try done. by destruct s.
Qed.

Lemma upper_char_idemp c : upper_char (upper_char c) = upper_char c.
Proof.
  destruct c as [[] [] [] [] [] [] [] []]; reflexivity.
Qed.

Lemma upper_idemp s : upper (upper s) = upper s.
Proof.
  unfold upper. induction s as [|c s IH]; [done|].
  simpl. by rewrite upper_char_idemp, IH.
Qed.

Lemma upper_nonempty s : s ≠ "" → upper s ≠ "".
Proof. by destruct s. Qed.

(** X2.  Every holding [_parse_holdings] returns, from whatever payload,
    has a symbol that is not empty and holds no lower-case ASCII letter. *)
Theorem parsed_symbols_upper
    (float_of_str : string → option Q) (data : HoldingsFetcher.json)
    (holdings : list Holding.t) :
  HoldingsFetcher._parse_holdings float_of_str data = Returned holdings →
  Forall (λ h, Holding.symbol h ≠ "" ∧ HoldingsItems.is_upper (Holding.symbol h))
         holdings.
Proof.
  unfold HoldingsFetcher._parse_holdings. intros H.
  apply bind_Returned in H as (items & _ & H).
  apply bind_Returned in H as (parsed & Hp & H). injection H as <-.
  eapply traverse_omap_Forall; [|exact Hp].
  intros item h (d & s & price & mv & _ & _ & Hs & -> & _)%parse_single_Some.
  split; [by apply upper_nonempty | apply upper_idemp].
Qed.

Lemma parsed_symbols_upper_witness :
  ∃ holdings,
    HoldingsFetcher._parse_holdings ExamplePayloads.no_float
      (HoldingsFetcher.JObj [("data", HoldingsFetcher.JArr ExamplePayloads.items)])
    = Returned holdings
    ∧ Holding.symbol <$> holdings = ["AAPL"; "MSFT"]
    ∧ Forall (λ h, Holding.symbol h ≠ "" ∧ HoldingsItems.is_upper (Holding.symbol h))
             holdings.
Proof.
  eexists. split; [reflexivity|]. split; [reflexivity|].
  apply (parsed_symbols_upper ExamplePayloads.no_float
           (HoldingsFetcher.JObj [("data", HoldingsFetcher.JArr ExamplePayloads.items)])).
  reflexivity.
Defined.



(** X4.  A payload that is neither a list nor a dict parses to no
    holdings.  Under a wrapper key, a value that is [None], a bool or a
    number makes [_parse_holdings] raise a [TypeError], while a string or
    a dict is iterated and yields no holdings. *)
Theorem parse_holdings_odd_payloads (float_of_str : string → option Q) :
  (∀ data,
     (∀ l, data ≠ HoldingsFetcher.JArr l) → (∀ d, data ≠ HoldingsFetcher.JObj d) →
     HoldingsFetcher._parse_holdings float_of_str data = Returned [])
  ∧ (∀ key v,
       key ∈ ExamplePayloads.wrapper_keys →
       HoldingsItems.scalar v = true →
       HoldingsFetcher._parse_holdings float_of_str (HoldingsFetcher.JObj [(key, v)])
       = Raised (Exn TypeError "object is not iterable"))
  ∧ (∀ key v,
       key ∈ ExamplePayloads.wrapper_keys →
       (∃ s, v = HoldingsFetcher.JStr s) ∨ (∃ d, v = HoldingsFetcher.JObj d) →
       HoldingsFetcher._parse_holdings float_of_str (HoldingsFetcher.JObj [(key, v)])
       = Returned []).
Proof.
  assert (∀ key v, key ∈ ExamplePayloads.wrapper_keys →
            HoldingsFetcher.holdings_data (HoldingsFetcher.JObj [(key, v)]) = v)
    as Hdata.
  { intros key v. unfold ExamplePayloads.wrapper_keys.
    rewrite !elem_of_cons, elem_of_nil.
    intros [-> | [-> | [-> | [-> | []]]]]; reflexivity. }
  assert (∀ (xs : list HoldingsFetcher.json),
            (∀ x, x ∈ xs → ∀ d, x ≠ HoldingsFetcher.JObj d) →
            ∃ ys, traverse (HoldingsFetcher._parse_single_holding float_of_str) xs
                  = Returned ys ∧ omap id ys = []) as Hnone.
  { induction xs as [|x xs IH]; intros Hx; [by exists []|].
    destruct IH as (ys & Hys & Hnil).
    { intros y Hy. apply Hx. by right. }
    exists (None :: ys). split; [|done]. simpl.
    assert (HoldingsFetcher._parse_single_holding float_of_str x
            = Returned None) as ->.
    { destruct x; try done. exfalso. by eapply Hx; [left|]. }
    simpl. by rewrite Hys. }
  split; [|split].
  - intros data Hl Hd. destruct data; try done; [by edestruct Hl | by edestruct Hd].
  - intros key v Hkey Hv. unfold HoldingsFetcher._parse_holdings.
    rewrite (Hdata _ _ Hkey). by destruct v.
  - intros key v Hkey [[s ->] | [d ->]]; unfold HoldingsFetcher._parse_holdings;
      rewrite (Hdata _ _ Hkey); simpl.
    + destruct (Hnone ((λ c, HoldingsFetcher.JStr (String c ""))
                         <$> list_ascii_of_string s)) as (ys & -> & Hnil).
      { intros x [c [-> _]]%list_elem_of_fmap. done. }
      simpl. by rewrite Hnil.
    + destruct (Hnone (HoldingsFetcher.JStr <$> d.*1)) as (ys & -> & Hnil).
      { intros x [k [-> _]]%list_elem_of_fmap. done. }
      simpl. by rewrite Hnil.
Qed.

(** ** [performance_analyzer]: the batch *)

Lemma analyze_holdings_records settings ticker_info now holdings r :
  PerformanceAnalyzer.analyze_holdings settings ticker_info now holdings = Returned r →
  Forall2 (λ h p, PerformanceAnalyzer._get_stock_performance settings ticker_info h
                  = Returned p)
          holdings (PerformanceResponse.holdings r).
Proof.
  unfold PerformanceAnalyzer.analyze_holdings. intros H.
  apply bind_Returned in H as (ps & Hps & H). injection H as <-. simpl.
  by apply traverse_Returned.
Qed.

Lemma performance_identity settings ticker_info h p :
  PerformanceAnalyzer._get_stock_performance settings ticker_info h = Returned p →
  HoldingPerformance.symbol p = Holding.symbol h
  ∧ HoldingPerformance.shares p = Holding.shares h.
Proof.
  unfold PerformanceAnalyzer._get_stock_performance.
  destruct (PerformanceAnalyzer._get_stock_performance_try settings ticker_info h)
    as [p'|e] eqn:E.
  - intros [= <-]. unfold PerformanceAnalyzer._get_stock_performance_try in E.
    apply bind_Returned in E as (i & _ & E).
    apply bind_Returned in E as ([[ca cp] hi] & _ & E).
    apply bind_Returned in E as (mv & _ & E).
    apply bind_Returned in E as (nm & _ & E).
    by injection E as <-.
  - destruct (is_Exception e); [|done]. by intros [= <-].
Qed.

Lemma performance_degraded settings ticker_info h p e :
  ticker_info (Holding.symbol h) = Raised e →
  PerformanceAnalyzer._get_stock_performance settings ticker_info h = Returned p →
  p = PerformanceAnalyzer.basic_info h.
Proof.
  intros He. unfold PerformanceAnalyzer._get_stock_performance,
    PerformanceAnalyzer._get_stock_performance_try.
  rewrite He. simpl. destruct (is_Exception e); [|done]. by intros [= <-].
Qed.

(** X5.  When every quote lookup returns or raises an [Exception],
    [analyze_holdings] returns one record per holding, in the order of the
    holdings, each with its holding's symbol and share count; and the
    record of a holding whose lookup raised has no prices, no change and a
    false flag.  One failing symbol does not fail the batch. *)
Theorem analyze_holdings_batch
    (settings : Settings.t)
    (ticker_info : string → outcome PerformanceAnalyzer.info)
    (now : Z) (holdings : list Holding.t) :
  (∀ h e, h ∈ holdings → ticker_info (Holding.symbol h) = Raised e →
          is_Exception e = true) →
  ∃ r,
    PerformanceAnalyzer.analyze_holdings settings ticker_info now holdings = Returned r
    ∧ HoldingPerformance.symbol <$> PerformanceResponse.holdings r
      = Holding.symbol <$> holdings
    ∧ HoldingPerformance.shares <$> PerformanceResponse.holdings r
      = Holding.shares <$> holdings
    ∧ Forall2 (λ h p,
         (∃ e, ticker_info (Holding.symbol h) = Raised e) →
         HoldingPerformance.current_price p = None
         ∧ HoldingPerformance.previous_close p = None
         ∧ HoldingPerformance.change_percent p = None
         ∧ HoldingPerformance.market_value p = None
         ∧ HoldingPerformance.is_high_fluctuation p = false)
        holdings (PerformanceResponse.holdings r).
Proof.
  intros Hexc.
  destruct (traverse_total
              (PerformanceAnalyzer._get_stock_performance settings ticker_info) holdings)
    as (ps & Hps & HF).
  { intros h Hh. apply performance_returns. intros e. by apply Hexc. }
  eexists. split.
  { unfold PerformanceAnalyzer.analyze_holdings. rewrite Hps. reflexivity. }
  simpl. clear Hps Hexc.
  induction HF as [|h p hs ps Hp _ IH]; [by repeat split; constructor|].
  destruct IH as (IH1 & IH2 & IH3).
  destruct (performance_identity _ _ _ _ Hp) as [Hsym Hsh].
  repeat split; csimpl; [by rewrite Hsym, IH1 | by rewrite Hsh, IH2 |].
  constructor; [|done].
  intros [e He]. by rewrite (performance_degraded _ _ _ _ _ He Hp).
Qed.

(** Two holdings, the lookup of the second failing. *)
Lemma analyze_holdings_batch_witness :
  let lookup := λ symbol : string,
    if bool_decide (symbol = "MSFT")
    then Raised (Exn RuntimeError "No data found, symbol may be delisted")
    else Examples.quotes (Some 110%Q) (Some 100%Q) symbol in
  ∃ r,
    PerformanceAnalyzer.analyze_holdings Settings.default lookup Examples.now
      [Examples.aapl; HoldingsFetcher.mock_holding "MSFT" "Microsoft Corporation" 50 350]
    = Returned r
    ∧ HoldingPerformance.symbol <$> PerformanceResponse.holdings r = ["AAPL"; "MSFT"]
    ∧ HoldingPerformance.is_high_fluctuation <$> PerformanceResponse.holdings r
      = [true; false].
Proof.
  intros lookup.
  destruct (analyze_holdings_batch Settings.default lookup Examples.now
              [Examples.aapl;
               HoldingsFetcher.mock_holding "MSFT" "Microsoft Corporation" 50 350])
    as (r & Hr & Hsym & _).
  { intros h e _. subst lookup. simpl. case_bool_decide; [|done]. by intros [= <-]. }
  exists r. split; [exact Hr|]. split; [exact Hsym|].
  vm_compute in Hr. by injection Hr as <-.
Defined.

Lemma length_omap_alerts (ps : list HoldingPerformance.t) :
  Forall (λ p, HoldingPerformance.is_high_fluctuation p = true →
               is_Some (HoldingPerformance.change_percent p)) ps →
  length (omap PerformanceAnalyzer.alert_of ps)
  = length (filter (λ p, HoldingPerformance.is_high_fluctuation p = true) ps).
Proof.
  induction 1 as [|p ps Hp _ IH]; [done|].
  csimpl. rewrite filter_cons.
  destruct (PerformanceAnalyzer.alert_of p) as [a|] eqn:Ha.
  - assert (is_Some (PerformanceAnalyzer.alert_of p)) as [Hf _]%alert_of_Some
      by (by rewrite Ha).
    rewrite decide_True by done. simpl. by rewrite IH.
  - case_decide as Hf; [|done]. exfalso.
    assert (is_Some (PerformanceAnalyzer.alert_of p)) as [a Ha'].
    { apply alert_of_Some. split; [done | by apply Hp]. }
    congruence.
Qed.

(** X6.  The [high_fluctuation_count] of a performance response is the
    number of alerts [get_fluctuation_alerts] derives from its records. *)
Theorem high_fluctuation_count_is_alert_count
    (settings : Settings.t)
    (ticker_info : string → outcome PerformanceAnalyzer.info)
    (now : Z) (holdings : list Holding.t) (r : PerformanceResponse.t) :
  PerformanceAnalyzer.analyze_holdings settings ticker_info now holdings = Returned r →
  PerformanceResponse.high_fluctuation_count r
  = length (PerformanceAnalyzer.get_fluctuation_alerts (PerformanceResponse.holdings r)).
Proof.
  intros H. pose proof (analyze_holdings_records _ _ _ _ _ H) as HF.
  unfold PerformanceAnalyzer.get_fluctuation_alerts.
  rewrite (Permutation_length (sort_reverse_Permutation _ _)).
  rewrite length_omap_alerts.
  - unfold PerformanceAnalyzer.analyze_holdings in H.
    apply bind_Returned in H as (ps & _ & H). by injection H as <-.
  - clear H. induction HF as [|h p hs ps Hp _ IH]; constructor; [|done].
    by eapply flagged_has_change.
Qed.

Lemma high_fluctuation_count_is_alert_count_witness :
  ∃ r,
    PerformanceAnalyzer.analyze_holdings Settings.default
      (Examples.quotes (Some 110%Q) (Some 100%Q)) Examples.now
      (HoldingsResponse.holdings (HoldingsFetcher.get_mock_holdings Examples.now))
    = Returned r
    ∧ PerformanceResponse.high_fluctuation_count r = 5
    ∧ length (PerformanceAnalyzer.get_fluctuation_alerts (PerformanceResponse.holdings r))
      = 5.
Proof.
  eexists. split; [reflexivity|]. split; [reflexivity|].
  rewrite <- (high_fluctuation_count_is_alert_count Settings.default
                (Examples.quotes (Some 110%Q) (Some 100%Q)) Examples.now
                (HoldingsResponse.holdings (HoldingsFetcher.get_mock_holdings Examples.now))
                _ eq_refl).
  reflexivity.
Defined.

Lemma alert_of_evaluator settings ticker_info h p a :
  PerformanceAnalyzer._get_stock_performance settings ticker_info h = Returned p →
  PerformanceAnalyzer.alert_of p = Some a →
  (Settings.fluctuation_threshold settings <= Qabs (FluctuationAlert.change_percent a))%Q
  ∧ FluctuationAlert.symbol a = Holding.symbol h.
Proof.
  intros Hp Ha.
  destruct (alert_of_fields _ _ Ha) as [Hsym Hcp].
  destruct (performance_identity _ _ _ _ Hp) as [Hsym' _].
  split; [|congruence].
  assert (HoldingPerformance.is_high_fluctuation p = true) as Hflag.
  { assert (is_Some (PerformanceAnalyzer.alert_of p)) as [? _]%alert_of_Some; [|done].
    by rewrite Ha. }
  apply performance_record in Hp. rewrite calculate_change_eq, Hcp, Hflag in Hp.
  destruct (HoldingPerformance.current_price p) as [c|],
           (HoldingPerformance.previous_close p) as [q|]; try done.
  destruct (Qnonzero c && Qnonzero q); [|done].
  injection Hp as _ Hx Hle. rewrite <- Hx. by apply Qle_bool_iff.
Qed.

Lemma alert_direction p a :
  PerformanceAnalyzer.alert_of p = Some a →
  (FluctuationAlert.direction a = "up" ↔ (0 < FluctuationAlert.change_percent a)%Q)
  ∧ (FluctuationAlert.direction a = "down" ↔ (FluctuationAlert.change_percent a <= 0)%Q).
Proof.
  unfold PerformanceAnalyzer.alert_of.
  destruct (HoldingPerformance.change_percent p) as [cp|]; [|done].
  destruct (HoldingPerformance.is_high_fluctuation p); [|done].
  intros [= <-]. simpl. destruct (Qltb 0 cp) eqn:E.
  - apply Qltb_true in E. split; split; try done.
    intros Hle. exfalso. by eapply Qlt_not_le.
  - apply Qltb_false in E. split; split; try done.
    intros Hlt. exfalso. by eapply Qlt_not_le.
Qed.

(** X7.  Every alert derived from the records [analyze_holdings] returned
    has an absolute change percent of at least the configured threshold,
    the direction [up] exactly when the change percent is positive and
    [down] otherwise, and the symbol of one of the holdings analysed. *)
Theorem evaluator_alerts_meet_threshold
    (settings : Settings.t)
    (ticker_info : string → outcome PerformanceAnalyzer.info)
    (now : Z) (holdings : list Holding.t) (r : PerformanceResponse.t) :
  PerformanceAnalyzer.analyze_holdings settings ticker_info now holdings = Returned r →
  Forall (λ a,
      (Settings.fluctuation_threshold settings
       <= Qabs (FluctuationAlert.change_percent a))%Q
      ∧ (FluctuationAlert.direction a = "up" ↔ (0 < FluctuationAlert.change_percent a)%Q)
      ∧ (FluctuationAlert.direction a = "down" ↔
         (FluctuationAlert.change_percent a <= 0)%Q)
      ∧ FluctuationAlert.symbol a ∈ Holding.symbol <$> holdings)
    (PerformanceAnalyzer.get_fluctuation_alerts (PerformanceResponse.holdings r)).
Proof.
  intros H%analyze_holdings_records.
  unfold PerformanceAnalyzer.get_fluctuation_alerts.
  rewrite sort_reverse_Permutation.
  induction H as [|h p hs ps Hp _ IH]; [constructor|].
  csimpl. destruct (PerformanceAnalyzer.alert_of p) as [a|] eqn:Ha.
  - constructor.
    + destruct (alert_of_evaluator _ _ _ _ _ Hp Ha) as [Hthr Hsym].
      destruct (alert_direction _ _ Ha) as [Hup Hdown].
      split; [done|]. split; [done|]. split; [done|].
      rewrite Hsym. by left.
    + eapply Forall_impl; [exact IH|].
      intros a' (? & ? & ? & ?). split; [done|]. split; [done|]. split; [done|].
      by right.
  - eapply Forall_impl; [exact IH|].
    intros a' (? & ? & ? & ?). split; [done|]. split; [done|]. split; [done|].
    by right.
Qed.

(** A drop from 100 to 94 at the default threshold of 5. *)
Lemma evaluator_alerts_meet_threshold_witness :
  ∃ r,
    PerformanceAnalyzer.analyze_holdings Settings.default
      (Examples.quotes (Some 94%Q) (Some 100%Q)) Examples.now [Examples.aapl]
    = Returned r
    ∧ FluctuationAlert.direction <$>
        PerformanceAnalyzer.get_fluctuation_alerts (PerformanceResponse.holdings r)
      = ["down"]
    ∧ Forall (λ a,
          (5 <= Qabs (FluctuationAlert.change_percent a))%Q
          ∧ FluctuationAlert.symbol a ∈ ["AAPL"])
        (PerformanceAnalyzer.get_fluctuation_alerts (PerformanceResponse.holdings r)).
Proof.
  eexists. split; [reflexivity|]. split; [reflexivity|].
  eapply Forall_impl.
  - apply (evaluator_alerts_meet_threshold Settings.default
             (Examples.quotes (Some 94%Q) (Some 100%Q)) Examples.now [Examples.aapl]).
    reflexivity.
  - intros a (Hthr & _ & _ & Hsym). split; [exact Hthr | exact Hsym].
Defined.

(** ** [earnings_collector]: the primary path *)

(** What an event of [_get_earnings_for_symbol] holds. *)
Lemma earnings_event_fields ticker_calendar ticker_info now symbol e :
  EarningsCollector._get_earnings_for_symbol ticker_calendar ticker_info now symbol
    = Returned (Some e) →
  EarningsEvent.symbol e = symbol
  ∧ EarningsEvent.days_until e = days_between (EarningsEvent.earnings_date e) now
  ∧ (0 ≤ EarningsEvent.days_until e ≤ 30)%Z.
Proof.
  unfold EarningsCollector._get_earnings_for_symbol.
  destruct (EarningsCollector._get_earnings_for_symbol_try _ _ _ _) as [r|x] eqn:E;
    [|by destruct (is_Exception x)].
  intros [= ->]. unfold EarningsCollector._get_earnings_for_symbol_try in E.
  apply bind_Returned in E as (cal & _ & E).
  apply bind_Returned in E as (skip & _ & E).
  destruct skip; [done|].
  apply bind_Returned in E as (d & _ & E).
  destruct (EarningsCollector.is_none d); [done|].
  destruct (EarningsCollector.is_none _); [done|].
  destruct (match _ with EarningsCollector.DDatetime t => _ | _ => _ end) as [t|];
    [|done].
  destruct (bool_decide (_ < 0)%Z || bool_decide (_ > 30)%Z) eqn:Hw; [done|].
  apply orb_false_iff in Hw as [H0%bool_decide_eq_false H30%bool_decide_eq_false].
  apply bind_Returned in E as (i & _ & E).
  apply bind_Returned in E as (nm & _ & E).
  destruct cal; injection E as <-; simpl; repeat split; lia.
Qed.

(** X8.  An event of the primary path carries the symbol looked up, its
    [days_until] is the whole number of days from now to the earnings
    date rounded down, and the date lies in the half-open interval from
    now to 31 days from now: a date earlier than now, even today, is left
    out, a date 30 days and 23 hours ahead is kept. *)
Theorem earnings_window_in_seconds
    (ticker_calendar : string → outcome EarningsCollector.calendar)
    (ticker_info : string → outcome EarningsCollector.info)
    (now : Z) (symbol : string) (e : EarningsEvent.t) :
  EarningsCollector._get_earnings_for_symbol ticker_calendar ticker_info now symbol
    = Returned (Some e) →
  EarningsEvent.symbol e = symbol
  ∧ EarningsEvent.days_until e = ((EarningsEvent.earnings_date e - now) `div` 86400)%Z
  ∧ (now ≤ EarningsEvent.earnings_date e < now + 31 * 86400)%Z.
Proof.
  intros (Hsym & Hdays & Hwin)%earnings_event_fields.
  split; [done|]. split; [done|].
  rewrite Hdays in Hwin. unfold days_between in Hwin.
  pose proof (Z.div_mod (EarningsEvent.earnings_date e - now) 86400 ltac:(lia)) as Hdm.
  pose proof (Z.mod_pos_bound (EarningsEvent.earnings_date e - now) 86400 ltac:(lia)).
  lia.
Qed.

(** Earnings ten days after [Examples.now]. *)
Lemma earnings_window_in_seconds_witness :
  ∃ e,
    EarningsCollector._get_earnings_for_symbol Examples.calendars Examples.earnings_infos
      Examples.now "AAPL" = Returned (Some e)
    ∧ EarningsEvent.days_until e = 10%Z
    ∧ (Examples.now ≤ EarningsEvent.earnings_date e < Examples.now + 31 * 86400)%Z.
Proof.
  eexists. split; [reflexivity|]. split; [reflexivity|].
  apply (earnings_window_in_seconds Examples.calendars Examples.earnings_infos
           Examples.now "AAPL" _ eq_refl).
Defined.

(** X9.  When [ticker.calendar] is a dict, the test [calendar.empty]
    raises an [AttributeError] inside the [try], so no event is returned
    for the symbol, whatever the dict and [ticker.info] hold. *)
Theorem dict_calendar_yields_no_event
    (ticker_calendar : string → outcome EarningsCollector.calendar)
    (ticker_info : string → outcome EarningsCollector.info)
    (now : Z) (symbol : string)
    (earnings_date : option EarningsCollector.date_value) (eps revenue : num) :
  ticker_calendar symbol
    = Returned (EarningsCollector.CalDict earnings_date eps revenue) →
  EarningsCollector._get_earnings_for_symbol ticker_calendar ticker_info now symbol
  = Returned None.
Proof.
  intros H. unfold EarningsCollector._get_earnings_for_symbol,
    EarningsCollector._get_earnings_for_symbol_try.
  by rewrite H.
Qed.

Lemma dict_calendar_yields_no_event_witness :
  EarningsCollector._get_earnings_for_symbol
    (λ _, Returned (EarningsCollector.CalDict
                      (Some (EarningsCollector.DList
                               [EarningsCollector.DDatetime (Examples.now + 864000)]))
                      (Some 2%Q) None))
    Examples.earnings_infos Examples.now "AAPL"
  = Returned None.
Proof.
  apply (dict_calendar_yields_no_event _ Examples.earnings_infos Examples.now "AAPL"
           (Some (EarningsCollector.DList
                    [EarningsCollector.DDatetime (Examples.now + 864000)]))
           (Some 2%Q) None).
  reflexivity.
Defined.

Lemma traverse_length {A B} (f : A → outcome B) xs ys :
  traverse f xs = Returned ys → length ys = length xs.
Proof. intros H%traverse_Returned. symmetry. by eapply Forall2_length. Qed.

Lemma length_omap_id {A} (ys : list (option A)) : length (omap id ys) ≤ length ys.
Proof. induction ys as [|[y|] ys IH]; csimpl; lia. Qed.

(** X10.  A call of [get_earnings_for_symbols] that misses the cache and
    returns gives events in ascending order of earnings date, each for one
    of the symbols asked and within the window, and no more events than
    symbols. *)
Theorem fetched_earnings_sorted
    (ticker_calendar : string → outcome EarningsCollector.calendar)
    (ticker_info : string → outcome EarningsCollector.info)
    (cache : TTLCache.t (list EarningsEvent.t)) (clk : EarningsCollector.clock)
    (symbols : list string) (events : list EarningsEvent.t) :
  TTLCache.contains (EarningsCollector.t_contains clk)
    (EarningsCollector.cache_key symbols) cache = false →
  EarningsCollector.result
    (EarningsCollector.get_earnings_for_symbols ticker_calendar ticker_info
       cache clk symbols) = Returned events →
  StronglySorted (key_le CollectorSession.earnings_key) events
  ∧ Forall (λ e, EarningsEvent.symbol e ∈ symbols ∧ EarningsCollector.in_window e) events
  ∧ length events ≤ length symbols.
Proof.
  intros Hmiss. unfold EarningsCollector.get_earnings_for_symbols. rewrite Hmiss.
  destruct (traverse _ symbols) as [results|x] eqn:Ht; simpl; [|done].
  destruct (TTLCache.setitem _ _ _ cache) as [cache'|x]; simpl; [|done].
  intros [= <-]. split; [apply (sort_sorted CollectorSession.earnings_key)|]. split.
  - rewrite sort_Permutation. apply traverse_Returned in Ht. clear Hmiss.
    induction Ht as [|s [e|] ss rs Hs _ IH]; csimpl; [done| |].
    + constructor.
      * destruct (earnings_event_fields _ _ _ _ _ Hs) as (-> & _ & Hw).
        split; [by left | done].
      * eapply Forall_impl; [exact IH|]. intros e' [? ?]. split; [by right | done].
    + eapply Forall_impl; [exact IH|]. intros e' [? ?]. split; [by right | done].
  - rewrite (Permutation_length (sort_Permutation _ _)).
    rewrite <- (traverse_length _ _ _ Ht). apply length_omap_id.
Qed.

Lemma fetched_earnings_sorted_witness :
  ∃ events,
    EarningsCollector.result
      (EarningsCollector.get_earnings_for_symbols Examples.calendars
         Examples.earnings_infos (EarningsCollector.new_cache Settings.default)
         (Examples.at_time 0) ["MSFT"; "AAPL"]) = Returned events
    ∧ EarningsEvent.symbol <$> events = ["MSFT"; "AAPL"]
    ∧ StronglySorted (key_le CollectorSession.earnings_key) events
    ∧ length events ≤ 2.
Proof.
  eexists. split; [reflexivity|]. split; [reflexivity|].
  destruct (fetched_earnings_sorted Examples.calendars Examples.earnings_infos
              (EarningsCollector.new_cache Settings.default) (Examples.at_time 0)
              ["MSFT"; "AAPL"] _ eq_refl eq_refl) as (Hsorted & _ & Hlen).
  split; [exact Hsorted | exact Hlen].
Defined.

(** X11.  On one collector, from its empty cache on, every list a call
    returns, fetched or served from the cache, holds only events whose
    [days_until] is between 0 and 30. *)
Theorem earnings_session_window
    (settings : Settings.t)
    (ticker_calendar : string → outcome EarningsCollector.calendar)
    (ticker_info : string → outcome EarningsCollector.info)
    (calls : list (EarningsCollector.clock * list string)) :
  Forall (λ o, ∀ events, o = Returned events →
                         Forall EarningsCollector.in_window events)
    (CollectorSession.earnings_session ticker_calendar ticker_info
       (EarningsCollector.new_cache settings) calls).
Proof.
  assert (EarningsCollector.cache_in_window (EarningsCollector.new_cache settings))
    as Hc by (intros l Hl; by apply elem_of_nil in Hl).
  revert Hc. generalize (EarningsCollector.new_cache settings).
  induction calls as [|[clk symbols] calls IH]; intros cache Hc; [constructor|].
  simpl.
  destruct (earnings_for_symbols_window ticker_calendar ticker_info cache clk symbols Hc)
    as [Hc' Hres].
  constructor; [exact Hres | by apply IH].
Qed.

Lemma find_expired time k {V} (c : TTLCache.t V) l :
  TTLCache.find k c = Some l → (TTLCache.expires l ≤ time)%Z →
  TTLCache.contains time k c = false.
Proof.
  intros Hf Ht. unfold TTLCache.contains. rewrite Hf.
  apply bool_decide_eq_false_2. lia.
Qed.

Lemma earnings_miss_fetches ticker_calendar ticker_info cache clk symbols :
  TTLCache.contains (EarningsCollector.t_contains clk)
    (EarningsCollector.cache_key symbols) cache = false →
  EarningsCollector.fetched
    (EarningsCollector.get_earnings_for_symbols ticker_calendar ticker_info
       cache clk symbols) = symbols.
Proof.
  intros H. unfold EarningsCollector.get_earnings_for_symbols. rewrite H.
  destruct (traverse _ symbols); simpl; [|done].
  by destruct (TTLCache.setitem _ _ _ _).
Qed.

Lemma news_miss_fetches ticker_news cache clk symbols max_per_symbol :
  TTLCache.contains (EarningsCollector.t_contains clk)
    (NewsCollector.cache_key symbols max_per_symbol) cache = false →
  EarningsCollector.fetched
    (NewsCollector.get_news_for_symbols ticker_news cache clk symbols max_per_symbol)
  = symbols.
Proof.
  intros H. unfold NewsCollector.get_news_for_symbols. rewrite H.
  destruct (traverse _ symbols); simpl; [|done].
  by destruct (TTLCache.setitem _ _ _ _).
Qed.

(** X12.  In both collectors, after a call that fetched and returned, a
    later call on a permutation of the same symbols whose membership test
    reads the timer at or after the write time plus the TTL looks up every
    symbol again: the entry is served strictly before its expiry only. *)
Theorem expired_entry_is_refetched
    (ticker_calendar : string → outcome EarningsCollector.calendar)
    (ticker_info : string → outcome EarningsCollector.info)
    (ticker_news : string → outcome (list NewsCollector.raw_item))
    (symbols1 symbols2 : list string) (max_per_symbol : nat)
    (clk1 clk2 : EarningsCollector.clock) :
  symbols1 ≡ₚ symbols2 →
  (∀ cache events,
     let first := EarningsCollector.get_earnings_for_symbols
                    ticker_calendar ticker_info cache clk1 symbols1 in
     TTLCache.contains (EarningsCollector.t_contains clk1)
       (EarningsCollector.cache_key symbols1) cache = false →
     EarningsCollector.result first = Returned events →
     (EarningsCollector.t_setitem clk1 + TTLCache.ttl cache
      ≤ EarningsCollector.t_contains clk2)%Z →
     EarningsCollector.fetched
       (EarningsCollector.get_earnings_for_symbols ticker_calendar ticker_info
          (EarningsCollector.cache_after first) clk2 symbols2) = symbols2)
  ∧ (∀ cache items,
       let first := NewsCollector.get_news_for_symbols
                      ticker_news cache clk1 symbols1 max_per_symbol in
       TTLCache.contains (EarningsCollector.t_contains clk1)
         (NewsCollector.cache_key symbols1 max_per_symbol) cache = false →
       EarningsCollector.result first = Returned items →
       (EarningsCollector.t_setitem clk1 + TTLCache.ttl cache
        ≤ EarningsCollector.t_contains clk2)%Z →
       EarningsCollector.fetched
         (NewsCollector.get_news_for_symbols ticker_news
            (EarningsCollector.cache_after first) clk2 symbols2 max_per_symbol)
       = symbols2).
Proof.
  intros Hperm. split.
  - intros cache events first Hmiss Hev Hlate.
    destruct (earnings_first_call _ _ _ _ _ _ Hev) as (l & Hl & _ & Hexp).
    apply earnings_miss_fetches.
    rewrite <- (earnings_cache_key_Permutation _ _ Hperm).
    eapply find_expired; [exact Hl|]. rewrite (Hexp Hmiss). exact Hlate.
  - intros cache items first Hmiss Hev Hlate.
    destruct (news_first_call _ _ _ _ _ _ Hev) as (l & Hl & _ & Hexp).
    apply news_miss_fetches.
    rewrite <- (news_cache_key_Permutation _ _ max_per_symbol Hperm).
    eapply find_expired; [exact Hl|]. rewrite (Hexp Hmiss). exact Hlate.
Qed.

(** The default four hours: a call at the 14400th second fetches again. *)
Lemma expired_entry_is_refetched_witness :
  let first := EarningsCollector.get_earnings_for_symbols Examples.calendars
                 Examples.earnings_infos (EarningsCollector.new_cache Settings.default)
                 (Examples.at_time 0) ["MSFT"; "AAPL"] in
  EarningsCollector.fetched
    (EarningsCollector.get_earnings_for_symbols Examples.calendars
       Examples.earnings_infos (EarningsCollector.cache_after first)
       (Examples.at_time 14400) ["AAPL"; "MSFT"]) = ["AAPL"; "MSFT"].
Proof.
  intros first.
  destruct (expired_entry_is_refetched Examples.calendars Examples.earnings_infos
              Examples.no_news ["MSFT"; "AAPL"] ["AAPL"; "MSFT"] 3
              (Examples.at_time 0) (Examples.at_time 14400)
              (perm_swap "AAPL" "MSFT" [])) as [Hearn _].
  apply (Hearn (EarningsCollector.new_cache Settings.default) _ eq_refl eq_refl).
  vm_compute. discriminate.
Defined.

(** ** [earnings_collector]: the backup source *)



(** ** [news_collector] *)

Lemma news_for_symbol_items ticker_news symbol max_items items :
  NewsCollector._get_news_for_symbol ticker_news symbol max_items = Returned items →
  length items ≤ max_items ∧ Forall (λ n, NewsItem.symbol n = symbol) items.
Proof.
  unfold NewsCollector._get_news_for_symbol.
  destruct (ticker_news symbol) as [news|e].
  - intros [= <-]. rewrite length_fmap, length_take. split; [lia|].
    apply Forall_fmap. by apply Forall_true.
  - destruct (is_Exception e); [|done]. intros [= <-]. split; [simpl; lia | done].
Qed.

(** X14.  A call of [get_news_for_symbols] that misses the cache and
    returns gives news of the requested symbols only, at most
    [max_per_symbol] items for each entry of the symbol list, hence no more
    than [max_per_symbol] times the number of symbols in all. *)
Theorem fetched_news_bounded
    (ticker_news : string → outcome (list NewsCollector.raw_item))
    (cache : TTLCache.t (list NewsItem.t)) (clk : EarningsCollector.clock)
    (symbols : list string) (max_per_symbol : nat) (items : list NewsItem.t) :
  TTLCache.contains (EarningsCollector.t_contains clk)
    (NewsCollector.cache_key symbols max_per_symbol) cache = false →
  EarningsCollector.result
    (NewsCollector.get_news_for_symbols ticker_news cache clk symbols max_per_symbol)
    = Returned items →
  Forall (λ n, NewsItem.symbol n ∈ symbols) items
  ∧ length items ≤ max_per_symbol * length symbols
  ∧ ∀ s, length (filter (λ n, NewsItem.symbol n = s) items)
         ≤ max_per_symbol * length (filter (λ s', s' = s) symbols).
Proof.
  intros Hmiss. unfold NewsCollector.get_news_for_symbols. rewrite Hmiss.
  destruct (traverse _ symbols) as [results|x] eqn:Ht; simpl; [|done].
  destruct (TTLCache.setitem _ _ _ cache) as [cache'|x]; simpl; [|done].
  intros [= <-]. apply traverse_Returned in Ht. clear Hmiss.
  assert (Forall (λ n, NewsItem.symbol n ∈ symbols) (concat results)
          ∧ length (concat results) ≤ max_per_symbol * length symbols
          ∧ ∀ s, length (filter (λ n, NewsItem.symbol n = s) (concat results))
                 ≤ max_per_symbol * length (filter (λ s', s' = s) symbols)) as H.
  { induction Ht as [|sym its syms rs Hs _ (IH1 & IH2 & IH3)];
      [split; [constructor|]; split; [simpl; lia | intros s; simpl; lia]|].
    destruct (news_for_symbol_items _ _ _ _ Hs) as [Hlen Hsym].
    simpl. split; [|split].
    - apply Forall_app. split.
      + eapply Forall_impl; [exact Hsym|]. intros n ->. by left.
      + eapply Forall_impl; [exact IH1|]. intros n ?. by right.
    - rewrite length_app. lia.
    - intros s. rewrite filter_app, length_app, filter_cons. specialize (IH3 s).
      case_decide as Hs'; simpl.
      + pose proof (length_filter (λ n, NewsItem.symbol n = s) its). lia.
      + assert (filter (λ n, NewsItem.symbol n = s) its = []) as ->; [|simpl; lia].
        clear -Hsym Hs'. induction Hsym as [|n ns Hn _ IH]; [done|].
        rewrite filter_cons. rewrite decide_False by congruence. done. }
  destruct H as (H1 & H2 & H3). split; [|split].
  - by rewrite sort_reverse_Permutation.
  - by rewrite (Permutation_length (sort_reverse_Permutation _ _)).
  - intros s. rewrite (Permutation_length
                         (filter_Permutation _ _ _ (sort_reverse_Permutation _ _))).
    apply H3.
Qed.

(** X15.  The news of a fetching call are ordered newest first, an item
    without a publish time counting as published at [datetime.min], and
    items of equal time keep the order in which the symbols and each
    symbol's feed gave them. *)
Theorem fetched_news_newest_first
    (ticker_news : string → outcome (list NewsCollector.raw_item))
    (cache : TTLCache.t (list NewsItem.t)) (clk : EarningsCollector.clock)
    (symbols : list string) (max_per_symbol : nat) (items : list NewsItem.t) :
  TTLCache.contains (EarningsCollector.t_contains clk)
    (NewsCollector.cache_key symbols max_per_symbol) cache = false →
  EarningsCollector.result
    (NewsCollector.get_news_for_symbols ticker_news cache clk symbols max_per_symbol)
    = Returned items →
  StronglySorted (key_ge CollectorSession.news_key) items
  ∧ ∃ results,
      traverse (λ s, NewsCollector._get_news_for_symbol ticker_news s max_per_symbol)
               symbols = Returned results
      ∧ ∀ k, List.filter (same_key CollectorSession.news_key k) items
             = List.filter (same_key CollectorSession.news_key k) (concat results).
Proof.
  intros Hmiss. unfold NewsCollector.get_news_for_symbols. rewrite Hmiss.
  destruct (traverse _ symbols) as [results|x] eqn:Ht; simpl; [|done].
  destruct (TTLCache.setitem _ _ _ cache) as [cache'|x]; simpl; [|done].
  intros [= <-]. split; [apply (sort_reverse_sorted CollectorSession.news_key)|].
  exists results. split; [done|]. intros k.
  apply (filter_sort_reverse CollectorSession.news_key).
Qed.

(** Three symbols at three items each: the fourth AAPL item is cut, the
    failing TSLA feed adds nothing, the undated item comes last, and of the
    two items of time 100 the AAPL one stays first. *)
Lemma fetched_news_bounded_witness :
  ∃ items,
    EarningsCollector.result ExampleNews.call = Returned items
    ∧ NewsItem.title <$> items = ["a1"; "m1"; "a3"; "m2"; "a2"]
    ∧ Forall (λ n, NewsItem.symbol n ∈ ["AAPL"; "MSFT"; "TSLA"]) items
    ∧ length items ≤ 3 * 3.
Proof.
  eexists. split; [reflexivity|]. split; [reflexivity|].
  destruct (fetched_news_bounded ExampleNews.feed
              (NewsCollector.new_cache Settings.default) (Examples.at_time 0)
              ["AAPL"; "MSFT"; "TSLA"] 3 _ eq_refl eq_refl) as (Hsym & Hlen & _).
  split; [exact Hsym | exact Hlen].
Defined.

Lemma fetched_news_newest_first_witness :
  ∃ items,
    EarningsCollector.result ExampleNews.call = Returned items
    ∧ NewsItem.published_at <$> items
      = [Some 300%Z; Some 200%Z; Some 100%Z; Some 100%Z; None]
    ∧ StronglySorted (key_ge CollectorSession.news_key) items.
Proof.
  eexists. split; [reflexivity|]. split; [reflexivity|].
  destruct (fetched_news_newest_first ExampleNews.feed
              (NewsCollector.new_cache Settings.default) (Examples.at_time 0)
              ["AAPL"; "MSFT"; "TSLA"] 3 _ eq_refl eq_refl) as (Hsorted & _).
  exact Hsorted.
Defined.

Lemma news_cache_key_max symbols m1 m2 :
  NewsCollector.cache_key symbols m1 = NewsCollector.cache_key symbols m2 → m1 = m2.
Proof.
  unfold NewsCollector.cache_key. intros H.
  apply (inj (String.app _)) in H. apply (inj (String.app _)) in H.
  by apply (inj pretty) in H.
Qed.

(** X16.  The per-symbol limit is part of the news cache key: on a fresh
    collector, after a call with one limit, a call on the same symbols with
    another limit does not use the cached list but looks up every symbol
    again.  So the three-item lists of [get_news_for_high_fluctuation] and
    the five-item lists of the default never stand in for each other. *)
Theorem news_limit_separates_cache_entries
    (settings : Settings.t)
    (ticker_news : string → outcome (list NewsCollector.raw_item))
    (symbols : list string) (m1 m2 : nat) (clk1 clk2 : EarningsCollector.clock) :
  m1 ≠ m2 →
  NewsCollector.cache_key symbols m1 ≠ NewsCollector.cache_key symbols m2
  ∧ EarningsCollector.fetched
      (NewsCollector.get_news_for_symbols ticker_news
         (EarningsCollector.cache_after
            (NewsCollector.get_news_for_symbols ticker_news
               (NewsCollector.new_cache settings) clk1 symbols m1))
         clk2 symbols m2) = symbols.
Proof.
  intros Hne.
  assert (NewsCollector.cache_key symbols m1 ≠ NewsCollector.cache_key symbols m2)
    as Hkey by (intros H; by apply news_cache_key_max in H).
  split; [done|]. apply news_miss_fetches.
  unfold NewsCollector.get_news_for_symbols at 1.
  assert (TTLCache.contains (EarningsCollector.t_contains clk1)
            (NewsCollector.cache_key symbols m1) (NewsCollector.new_cache settings)
          = false) as -> by done.
  destruct (traverse _ symbols) as [results|x]; simpl; [|done].
  unfold TTLCache.setitem. simpl.
  unfold TTLCache.contains, TTLCache.find. simpl.
  rewrite decide_False by done. done.
Qed.

Lemma news_limit_separates_cache_entries_witness :
  EarningsCollector.fetched
    (NewsCollector.get_news_for_symbols ExampleNews.feed
       (EarningsCollector.cache_after
          (NewsCollector.get_news_for_symbols ExampleNews.feed
             (NewsCollector.new_cache Settings.default) (Examples.at_time 0)
             ["AAPL"; "MSFT"] 5))
       (Examples.at_time 1) ["AAPL"; "MSFT"] 3) = ["AAPL"; "MSFT"].
Proof.
  apply (news_limit_separates_cache_entries Settings.default ExampleNews.feed
           ["AAPL"; "MSFT"] 5 3 (Examples.at_time 0) (Examples.at_time 1)).
  discriminate.
Defined.

(** ** [llm_agent] and [main]: when a provider counts as configured *)

(** X17.  Whenever [LLMAgent.is_configured] holds, [/health] reports
    [llm_configured]; the converse fails: a key or URL of a provider other
    than the selected one makes [/health] report true while the agent is
    not configured, as with the default settings. *)
Theorem health_overreports_llm (running : bool) :
  (∀ settings,
     LLMAgent.is_configured settings = true →
     Main.llm_configured (Main.health_check settings running) = true)
  ∧ (∀ settings,
       Main.llm_configured (Main.health_check settings running) = false →
       LLMAgent.is_configured settings = false)
  ∧ Main.llm_configured (Main.health_check Settings.default running) = true
  ∧ LLMAgent.is_configured Settings.default = false.
Proof.
  assert (∀ settings,
            LLMAgent.is_configured settings = true →
            Main.llm_configured (Main.health_check settings running) = true) as H.
  { intros settings. unfold LLMAgent.is_configured. simpl.
    destruct (str_truthy (Settings.openai_api_key settings)) eqn:Ho; [done|].
    destruct (str_truthy (Settings.anthropic_api_key settings)) eqn:Ha; [done|].
    repeat case_bool_decide; done. }
  split; [exact H|]. split; [|done].
  intros settings Hh. destruct (LLMAgent.is_configured settings) eqn:E; [|done].
  apply H in E. congruence.
Qed.



(** ** [routers/agent.py]: the whole run *)

Lemma analyze_holdings_returns settings ticker_info now holdings :
  WellBehaved.exceptions_only ticker_info →
  ∃ r, PerformanceAnalyzer.analyze_holdings settings ticker_info now holdings
       = Returned r.
Proof.
  intros Hexc.
  destruct (traverse_total
              (PerformanceAnalyzer._get_stock_performance settings ticker_info) holdings)
    as (ps & Hps & _).
  { intros h _. apply performance_returns. intros e. apply Hexc. }
  unfold PerformanceAnalyzer.analyze_holdings. rewrite Hps. simpl. eauto.
Qed.

Lemma earnings_symbol_returns ticker_calendar ticker_info now symbol :
  WellBehaved.exceptions_only ticker_calendar →
  WellBehaved.exceptions_only ticker_info →
  ∃ r, EarningsCollector._get_earnings_for_symbol ticker_calendar ticker_info now symbol
       = Returned r.
Proof.
  intros Hc Hi. unfold EarningsCollector._get_earnings_for_symbol.
  destruct (EarningsCollector._get_earnings_for_symbol_try _ _ _ _) as [r|e] eqn:E;
    [eauto|].
  assert (is_Exception e = true) as ->; [|eauto].
  unfold EarningsCollector._get_earnings_for_symbol_try in E.
  destruct (ticker_calendar symbol) as [cal|e'] eqn:Hcal; simpl in E;
    [|injection E as <-; by eapply Hc].
  destruct (ticker_info symbol) as [i|e'] eqn:Hinfo;
    repeat (simplify_eq/=; try done; try (by eapply Hi);
            try case_match; try case_bool_decide).
Qed.

Lemma earnings_stage_returns settings ticker_calendar ticker_info clk cleared symbols :
  WellBehaved.exceptions_only ticker_calendar →
  WellBehaved.exceptions_only ticker_info →
  ∃ events,
    EarningsCollector.result
      (EarningsCollector.get_earnings_for_symbols ticker_calendar ticker_info
         (if cleared : bool
          then EarningsCollector.clear_cache (EarningsCollector.new_cache settings)
          else EarningsCollector.new_cache settings) clk symbols)
    = Returned events.
Proof.
  intros Hc Hi. unfold EarningsCollector.get_earnings_for_symbols.
  assert (∀ t k, TTLCache.contains t k
            (if cleared
             then EarningsCollector.clear_cache (EarningsCollector.new_cache settings)
             else EarningsCollector.new_cache settings) = false) as ->
    by (by destruct cleared).
  destruct (traverse_total
              (EarningsCollector._get_earnings_for_symbol ticker_calendar ticker_info
                 (EarningsCollector.wall clk)) symbols) as (rs & -> & _).
  { intros s _. by apply earnings_symbol_returns. }
  destruct cleared; simpl; eauto.
Qed.

Lemma news_stage_returns settings ticker_news clk cleared symbols :
  WellBehaved.exceptions_only ticker_news →
  ∃ items,
    EarningsCollector.result
      (NewsCollector.get_news_for_high_fluctuation ticker_news
         (if cleared : bool
          then NewsCollector.clear_cache (NewsCollector.new_cache settings)
          else NewsCollector.new_cache settings) clk symbols)
    = Returned items.
Proof.
  intros Hn. unfold NewsCollector.get_news_for_high_fluctuation,
    NewsCollector.get_news_for_symbols.
  assert (∀ t k, TTLCache.contains t k
            (if cleared
             then NewsCollector.clear_cache (NewsCollector.new_cache settings)
             else NewsCollector.new_cache settings) = false) as ->
    by (by destruct cleared).
  destruct (traverse_total
              (λ s, NewsCollector._get_news_for_symbol ticker_news s 3) symbols)
    as (rs & -> & _).
  { intros s _. unfold NewsCollector._get_news_for_symbol.
    destruct (ticker_news s) as [n|e] eqn:E; [eauto|].
    rewrite (Hn _ _ E). eauto. }
  destruct cleared; simpl; eauto.
Qed.

Lemma generate_summary_returns ctx ainvoke parse now hs fs es ns :
  WellBehaved.exceptions_only ainvoke →
  ∃ s, LLMAgent.generate_summary ctx ainvoke parse now hs fs es ns = Returned s.
Proof.
  intros Ha. unfold LLMAgent.generate_summary.
  destruct (ainvoke _) as [t|e] eqn:E; [eauto|]. rewrite (Ha _ _ E). eauto.
Qed.

(** A run returns once its holdings stage did, provided the later stages
    return on every input. *)
Lemma analyze_try_returns svc request hr :
  Services.holdings_or_mock svc = Returned hr →
  (∀ hs, ∃ p, Services.analyze_holdings svc hs = Returned p) →
  (∀ c syms, ∃ es, Services.get_earnings_for_symbols svc c syms = Returned es) →
  (∀ c syms, ∃ ns, Services.get_news_for_high_fluctuation svc c syms = Returned ns) →
  (∀ hs fs es ns, ∃ s, Services.generate_summary svc hs fs es ns = Returned s) →
  ∃ r, Agent.analyze_try svc request = Returned r
       ∧ AnalyzeResponse.status r = "success"
       ∧ is_Some (AnalyzeResponse.summary r)
       ∧ AnalyzeResponse.holdings_count r = length (HoldingsResponse.holdings hr).
Proof.
  intros Hhr Hp He Hn Hs. unfold Agent.analyze_try, Agent.collect. rewrite Hhr.
  destruct (Hp (HoldingsResponse.holdings hr)) as [p Hp'].
  cbn [mbind outcome_bind bind]. rewrite Hp'. cbn [mbind outcome_bind bind].
  set (fl := PerformanceAnalyzer.get_fluctuation_alerts _).
  destruct (AnalyzeRequest.include_earnings request).
  - destruct (He (AnalyzeRequest.force_refresh request)
                 (Holding.symbol <$> HoldingsResponse.holdings hr)) as [es ->].
    destruct (AnalyzeRequest.include_news request
              && bool_decide (FluctuationAlert.symbol <$> fl ≠ [])).
    + destruct (Hn (AnalyzeRequest.force_refresh request)
                   (FluctuationAlert.symbol <$> fl)) as [ns ->].
      cbn [mbind outcome_bind bind]. unfold Agent.summarize.
      destruct (LLMAgent.is_configured (Services.settings svc)).
      * destruct (Hs (PerformanceResponse.holdings p) fl es ns) as [sm Hsm].
        cbn [Agent.c_performance Agent.c_fluctuations Agent.c_earnings Agent.c_news].
        rewrite Hsm. eexists. repeat split. simpl. eauto.
      * eexists. repeat split. simpl. eauto.
    + cbn [mbind outcome_bind bind]. unfold Agent.summarize.
      destruct (LLMAgent.is_configured (Services.settings svc)).
      * destruct (Hs (PerformanceResponse.holdings p) fl es []) as [sm Hsm].
        cbn [Agent.c_performance Agent.c_fluctuations Agent.c_earnings Agent.c_news].
        rewrite Hsm. eexists. repeat split. simpl. eauto.
      * eexists. repeat split. simpl. eauto.
  - destruct (AnalyzeRequest.include_news request
              && bool_decide (FluctuationAlert.symbol <$> fl ≠ [])).
    + destruct (Hn (AnalyzeRequest.force_refresh request)
                   (FluctuationAlert.symbol <$> fl)) as [ns ->].
      cbn [mbind outcome_bind bind]. unfold Agent.summarize.
      destruct (LLMAgent.is_configured (Services.settings svc)).
      * destruct (Hs (PerformanceResponse.holdings p) fl [] ns) as [sm Hsm].
        cbn [Agent.c_performance Agent.c_fluctuations Agent.c_earnings Agent.c_news].
        rewrite Hsm. eexists. repeat split. simpl. eauto.
      * eexists. repeat split. simpl. eauto.
    + cbn [mbind outcome_bind bind]. unfold Agent.summarize.
      destruct (LLMAgent.is_configured (Services.settings svc)).
      * destruct (Hs (PerformanceResponse.holdings p) fl [] []) as [sm Hsm].
        cbn [Agent.c_performance Agent.c_fluctuations Agent.c_earnings Agent.c_news].
        rewrite Hsm. eexists. repeat split. simpl. eauto.
      * eexists. repeat split. simpl. eauto.
Qed.

(** X19.  With the services the router constructs, when market-data and
    provider calls raise nothing but [Exception]s, the holdings stage is
    the only one that can fail an /analyze run: once it produced holdings,
    fetched or mock, the run returns with status [success], a summary, and
    the number of those holdings as [holdings_count], whatever the quote,
    calendar, news and provider calls did.  An [HTTPError] of the holdings
    endpoint gives the mock portfolio, so a count of 5. *)
Theorem run_survives_source_failures (w : Depends.world) (request : AnalyzeRequest.t) :
  WellBehaved.world w →
  (∀ hr, Services.holdings_or_mock (Depends.services w) = Returned hr →
     ∃ r, Agent.analyze_try (Depends.services w) request = Returned r
          ∧ AnalyzeResponse.status r = "success"
          ∧ is_Some (AnalyzeResponse.summary r)
          ∧ AnalyzeResponse.holdings_count r = length (HoldingsResponse.holdings hr))
  ∧ (∀ e, Depends.holdings_response w = Raised e → is_HTTPError e = true →
       ∃ r, Agent.analyze_try (Depends.services w) request = Returned r
            ∧ AnalyzeResponse.status r = "success"
            ∧ AnalyzeResponse.holdings_count r = 5).
Proof.
  intros (Hq & Hc & Hi & Hn & Ha).
  assert (∀ hr, Services.holdings_or_mock (Depends.services w) = Returned hr →
     ∃ r, Agent.analyze_try (Depends.services w) request = Returned r
          ∧ AnalyzeResponse.status r = "success"
          ∧ is_Some (AnalyzeResponse.summary r)
          ∧ AnalyzeResponse.holdings_count r = length (HoldingsResponse.holdings hr))
    as Hgen.
  { intros hr Hhr. apply analyze_try_returns; [done|..].
    - intros hs. by apply analyze_holdings_returns.
    - intros c syms. by apply earnings_stage_returns.
    - intros c syms. by apply news_stage_returns.
    - intros hs fs es ns. by apply generate_summary_returns. }
  split; [exact Hgen|].
  intros e He Hhttp.
  destruct (Hgen (HoldingsFetcher.get_mock_holdings (Depends.utcnow w)))
    as (r & Hr & Hs & _ & Hcount).
  { unfold Services.holdings_or_mock. simpl. unfold HoldingsFetcher.fetch_holdings.
    rewrite He. simpl. by rewrite Hhttp. }
  eauto.
Qed.
(** The endpoint unreachable and the provider unconfigured. *)
Lemma run_survives_source_failures_witness :
  ∃ r,
    Agent.analyze_try (Depends.services ExampleRuns.world) AnalyzeRequest.default
      = Returned r
    ∧ AnalyzeResponse.status r = "success"
    ∧ AnalyzeResponse.holdings_count r = 5.
Proof.
  assert (WellBehaved.world ExampleRuns.world) as Hw.
  { repeat split; intros a e; try discriminate.
    simpl. by intros [= <-]. }
  destruct (run_survives_source_failures ExampleRuns.world AnalyzeRequest.default Hw)
    as [_ Hmock].
  apply (Hmock (Exn HTTPError "All connection attempts failed") eq_refl eq_refl).
Defined.

(** X20.  With a provider configured whose call (client construction or
    invocation) raises an [Exception], a run whose collecting stages
    returned still answers with status [success]; its summary is the error summary:
    [model_used = "error"], the exception's message in the text, the
    counts of records, alerts and earnings in the insights, and the single
    risk factor "AI analysis unavailable". *)
Theorem provider_failure_is_a_summary
    (w : Depends.world) (request : AnalyzeRequest.t) (c : Agent.collected) (e : exn) :
  LLMAgent.is_configured (Depends.settings w) = true →
  Agent.collect (Depends.services w) request = Returned c →
  Depends.ainvoke w
    (Depends._build_context w (Agent.c_performance c) (Agent.c_fluctuations c)
       (Agent.c_earnings c) (Agent.c_news c)) = Raised e →
  is_Exception e = true →
  ∃ r s,
    Agent.analyze_try (Depends.services w) request = Returned r
    ∧ AnalyzeResponse.status r = "success"
    ∧ AnalyzeResponse.summary r = Some s
    ∧ AgentSummary.model_used s = "error"
    ∧ AgentSummary.summary s = "Unable to generate AI analysis: " +:+ exn_msg e
    ∧ AgentSummary.key_insights s
      = ["Portfolio contains " +:+ pretty (length (Agent.c_performance c))
           +:+ " holdings";
         pretty (length (AnalyzeResponse.fluctuation_alerts r))
           +:+ " stocks show significant movement (>5%)";
         pretty (length (AnalyzeResponse.upcoming_earnings r))
           +:+ " upcoming earnings events"]
    ∧ AgentSummary.risk_factors s = ["AI analysis unavailable"].
Proof.
  intros Hconf Hc Hinv Hexc.
  unfold Agent.analyze_try. rewrite Hc. cbn [mbind outcome_bind bind].
  unfold Agent.summarize.
  change (Services.settings (Depends.services w)) with (Depends.settings w).
  rewrite Hconf.
  change (Services.generate_summary (Depends.services w))
    with (LLMAgent.generate_summary (Depends._build_context w) (Depends.ainvoke w)
            (Depends._parse_response w) (Depends.utcnow w)).
  unfold LLMAgent.generate_summary. rewrite Hinv, Hexc.
  cbn [mbind outcome_bind bind]. eexists _, _. repeat split.
Qed.

(** A key is set and the provider answers with an error. *)
Lemma provider_failure_is_a_summary_witness :
  let w := {|
    Depends.settings := {|
      Settings.holdings_endpoint_url := "";
      Settings.holdings_auth_token := "";
      Settings.llm_provider := "anthropic";
      Settings.llm_model := "claude-3-sonnet-20240229";
      Settings.openai_api_key := "";
      Settings.anthropic_api_key := "sk-ant";
      Settings.local_llm_url := "";
      Settings.scheduler_enabled := true;
      Settings.scheduler_cron := "0 9,16 * * 1-5";
      Settings.fluctuation_threshold := 5;
      Settings.earnings_cache_hours := 4;
      Settings.news_cache_minutes := 30 |};
    Depends.utcnow := Examples.now;
    Depends.timer := Examples.at_time 0;
    Depends.float_of_str := ExamplePayloads.no_float;
    Depends.holdings_response := Depends.holdings_response ExampleRuns.world;
    Depends.quote_info := Depends.quote_info ExampleRuns.world;
    Depends.ticker_calendar := Depends.ticker_calendar ExampleRuns.world;
    Depends.earnings_info := Depends.earnings_info ExampleRuns.world;
    Depends.ticker_news := Depends.ticker_news ExampleRuns.world;
    Depends._build_context := Depends._build_context ExampleRuns.world;
    Depends.ainvoke := λ _, Raised (Exn RuntimeError "401 invalid x-api-key");
    Depends._parse_response := Depends._parse_response ExampleRuns.world |} in
  ∃ r s,
    Agent.analyze_try (Depends.services w) AnalyzeRequest.default = Returned r
    ∧ AnalyzeResponse.summary r = Some s
    ∧ AgentSummary.model_used s = "error"
    ∧ AgentSummary.summary s = "Unable to generate AI analysis: 401 invalid x-api-key".
Proof.
  intros w.
  destruct (provider_failure_is_a_summary w AnalyzeRequest.default _
              (Exn RuntimeError "401 invalid x-api-key") eq_refl eq_refl eq_refl eq_refl)
    as (r & s & Hr & _ & Hs & Hm & Ht & _).
  exists r, s. repeat split; done.
Defined.

(** X21.  After a POST /analyze run whose [try] block returned response
    [r], the read endpoints serve [r]: its summary, its alerts, earnings
    and news each with their number as [count], and a status with
    [in_progress] false, [has_analysis] true, [r]'s time and holdings
    count.  Before any run they serve no summary, empty lists with count 0
    and [has_analysis] false. *)
Theorem stored_result_is_served
    (svc : Services.t) (request : AnalyzeRequest.t) (g : Agent.globals)
    (r : AnalyzeResponse.t) :
  Agent._analysis_in_progress g = false →
  Agent.analyze_try svc request = Returned r →
  let after := (Agent.analyze_portfolio svc request g).1 in
  (Agent.analyze_portfolio svc request g).2 = Agent.Response r
  ∧ Agent.get_latest_summary after = AnalyzeResponse.summary r
  ∧ Agent.get_fluctuations after
    = (AnalyzeResponse.fluctuation_alerts r,
       length (AnalyzeResponse.fluctuation_alerts r))
  ∧ Agent.get_earnings after
    = (AnalyzeResponse.upcoming_earnings r,
       length (AnalyzeResponse.upcoming_earnings r))
  ∧ Agent.get_news after
    = (AnalyzeResponse.news_items r, length (AnalyzeResponse.news_items r))
  ∧ Agent.get_analysis_status after
    = {| Agent.in_progress := false;
         Agent.has_analysis := true;
         Agent.last_analyzed := Some (AnalyzeResponse.analyzed_at r);
         Agent.holdings_count := AnalyzeResponse.holdings_count r |}
  ∧ Agent.get_latest_summary Agent.initial = None
  ∧ Agent.get_fluctuations Agent.initial = ([], 0)
  ∧ Agent.has_analysis (Agent.get_analysis_status Agent.initial) = false.
Proof.
  intros Hidle Hr after. subst after.
  rewrite (analyze_portfolio_idle _ _ _ Hidle), Hr. simpl. repeat split.
Qed.

Lemma stored_result_is_served_witness :
  let after := (Agent.analyze_portfolio ExampleRuns.services AnalyzeRequest.default
                  Agent.initial).1 in
  snd (Agent.get_fluctuations after) = 5
  ∧ snd (Agent.get_earnings after) = 5
  ∧ snd (Agent.get_news after) = 0
  ∧ Agent.holdings_count (Agent.get_analysis_status after) = 5.
Proof.
  intros after.
  destruct (stored_result_is_served ExampleRuns.services AnalyzeRequest.default
              Agent.initial _ eq_refl eq_refl)
    as (_ & _ & Hf & He & Hn & Hs & _).
  fold after in Hf, He, Hn, Hs. rewrite Hf, He, Hn, Hs. repeat split.
Defined.

(** X22.  The request flags gate the collectors: with [include_earnings]
    false the run does not depend on the earnings collector at all (it may
    even raise) and the response has no earnings; with [include_news]
    false it does not depend on the news collector and the response has no
    news. *)
Theorem request_flags_gate_collectors (svc : Services.t) (request : AnalyzeRequest.t) :
  (AnalyzeRequest.include_earnings request = false →
   (∀ g, Agent.analyze_try (ServicesWith.earnings svc g) request
         = Agent.analyze_try svc request)
   ∧ ∀ r, Agent.analyze_try svc request = Returned r →
          AnalyzeResponse.upcoming_earnings r = [])
  ∧ (AnalyzeRequest.include_news request = false →
     (∀ g, Agent.analyze_try (ServicesWith.news svc g) request
           = Agent.analyze_try svc request)
     ∧ ∀ r, Agent.analyze_try svc request = Returned r →
            AnalyzeResponse.news_items r = []).
Proof.
  split.
  - intros Hoff. split.
    + intros g. unfold Agent.analyze_try, Agent.collect. by rewrite Hoff.
    + intros r. unfold Agent.analyze_try, Agent.collect. rewrite Hoff. intros H.
      apply bind_Returned in H as (c & Hc & H).
      apply bind_Returned in Hc as (hr & _ & Hc).
      apply bind_Returned in Hc as (p & _ & Hc).
      apply bind_Returned in Hc as (es & [= <-] & Hc).
      apply bind_Returned in Hc as (ns & _ & Hc). injection Hc as <-.
      unfold Agent.summarize in H.
      apply bind_Returned in H as (sm & _ & H). by injection H as <-.
  - intros Hoff. split.
    + intros g. unfold Agent.analyze_try, Agent.collect. by rewrite Hoff.
    + intros r. unfold Agent.analyze_try, Agent.collect. rewrite Hoff. intros H.
      apply bind_Returned in H as (c & Hc & H).
      apply bind_Returned in Hc as (hr & _ & Hc).
      apply bind_Returned in Hc as (p & _ & Hc).
      apply bind_Returned in Hc as (es & _ & Hc).
      apply bind_Returned in Hc as (ns & [= <-] & Hc). injection Hc as <-.
      unfold Agent.summarize in H.
      apply bind_Returned in H as (sm & _ & H). by injection H as <-.
Qed.

(** ** The scheduler and its endpoints *)




(** X24.  PUT /cron never changes what GET /status reports as
    [cron_expression] (the configured one) nor [enabled]; and on a
    scheduler that is not running it changes nothing at all, so a later
    [start] installs the configured schedule, whatever the reply was. *)
Theorem cron_update_not_reflected {Trigger : Type}
    (CronTrigger : option string → option string → option string →
                   option string → option string → outcome Trigger)
    (next_run_time : Trigger → option Z)
    (cron_expression : string) (s : Scheduler.t Trigger) :
  let s' := (Scheduler.update_cron CronTrigger cron_expression s).1 in
  SchedulerEndpoints.cron_expression (SchedulerEndpoints.get_status next_run_time s')
  = Settings.scheduler_cron (Scheduler.settings s)
  ∧ SchedulerEndpoints.enabled (SchedulerEndpoints.get_status next_run_time s')
    = Settings.scheduler_enabled (Scheduler.settings s)
  ∧ (Scheduler.running s = false →
     s' = s ∧ Scheduler.start CronTrigger s' = Scheduler.start CronTrigger s).
Proof.
  intros s'. subst s'.
  assert (Scheduler.settings (Scheduler.update_cron CronTrigger cron_expression s).1
          = Scheduler.settings s) as Hset.
  { unfold Scheduler.update_cron, Scheduler.update_schedule.
    case_bool_decide; [done|].
    destruct (Scheduler.trigger_of_parts _ _) as [t|e].
    - destruct (Scheduler.running s); [|done]. by destruct (Scheduler.job s).
    - destruct (is_Exception e); [done|]. by destruct (is_ValueError e). }
  unfold SchedulerEndpoints.get_status. cbn [SchedulerEndpoints.cron_expression
    SchedulerEndpoints.enabled]. rewrite Hset. split; [done|]. split; [done|].
  intros Hstop.
  assert ((Scheduler.update_cron CronTrigger cron_expression s).1 = s) as ->; [|done].
  unfold Scheduler.update_cron, Scheduler.update_schedule.
  case_bool_decide; [done|].
  destruct (Scheduler.trigger_of_parts _ _) as [t|e].
  - by rewrite Hstop.
  - destruct (is_Exception e); [done|]. by destruct (is_ValueError e).
Qed.

(** X25.  POST /trigger never answers 500: [_run_analysis] catches every
    [Exception] itself.  A run whose [try] block raised an [Exception] is
    answered [triggered] like a successful one; it sets [_last_run] and
    leaves the stored analysis and the in-progress flag as they were. *)
Theorem trigger_never_answers_500
    (now : Z) (agent_module : bool) (o : outcome AnalyzeResponse.t)
    (last_run : option Z) (g : Agent.globals) :
  (∀ status_code detail,
     (SchedulerEndpoints.trigger_analysis now agent_module o last_run g).2
     ≠ SchedulerEndpoints.TriggerHTTPException status_code detail)
  ∧ (∀ e, o = Raised e → is_Exception e = true →
       SchedulerEndpoints.trigger_analysis now agent_module o last_run g
       = ((Some now, g), SchedulerEndpoints.Triggered now))
  ∧ (∀ r, o = Returned r →
       (SchedulerEndpoints.trigger_analysis now agent_module o last_run g).2
       = SchedulerEndpoints.Triggered now
       ∧ Agent._analysis_in_progress
           (SchedulerEndpoints.trigger_analysis now agent_module o last_run g).1.2
         = Agent._analysis_in_progress g).
Proof.
  unfold SchedulerEndpoints.trigger_analysis, SchedulerEndpoints._run_analysis.
  split; [|split].
  - intros code detail. destruct o as [r|e]; [done|].
    destruct (is_Exception e) eqn:He; [done|]. simpl. by rewrite He.
  - intros e -> He. rewrite He. simpl. by rewrite He.
  - intros r ->. simpl. split; [done|]. by destruct agent_module.
Qed.

Lemma start_job_present {Trigger : Type}
    (CronTrigger : option string → option string → option string →
                   option string → option string → outcome Trigger)
    (s s' : Scheduler.t Trigger) :
  SchedulerEndpoints.job_present s →
  Scheduler.start CronTrigger s = Returned s' →
  SchedulerEndpoints.job_present s' ∧ Scheduler.running s' = true.
Proof.
  intros Hinv. unfold Scheduler.start.
  destruct (Scheduler.running s) eqn:Hrun.
  - intros [= <-]. split; [done|]. done.
  - intros H. apply bind_Returned in H as (t & _ & [= <-]).
    split; [|done]. intros _. by eexists.
Qed.

(** X26.  A running scheduler holds its job: the property is true of a
    new scheduler and kept by [start], POST /start and PUT /cron.  Where
    it holds and the trigger constructor raises nothing but [Exception]s,
    PUT /cron answers [updated] or 400, never an unhandled error, and
    POST /start on a scheduler that [start] has started answers
    [already_running] and changes nothing. *)
Theorem running_scheduler_has_job {Trigger : Type}
    (CronTrigger : option string → option string → option string →
                   option string → option string → outcome Trigger)
    (next_run_time : Trigger → option Z) (s : Scheduler.t Trigger) :
  SchedulerEndpoints.job_present s →
  (∀ settings, SchedulerEndpoints.job_present (Scheduler.create (Trigger:=Trigger) settings))
  ∧ (∀ s', Scheduler.start CronTrigger s = Returned s' →
       SchedulerEndpoints.job_present s'
       ∧ SchedulerEndpoints.start_scheduler CronTrigger next_run_time s'
         = (s', SchedulerEndpoints.AlreadyRunning))
  ∧ SchedulerEndpoints.job_present
      (SchedulerEndpoints.start_scheduler CronTrigger next_run_time s).1
  ∧ (∀ cron_expression,
       SchedulerEndpoints.job_present
         (Scheduler.update_cron CronTrigger cron_expression s).1
       ∧ ((∀ a b c d e x, CronTrigger a b c d e = Raised x → is_Exception x = true) →
          (∃ message, (Scheduler.update_cron CronTrigger cron_expression s).2
                      = Scheduler.Updated message)
          ∨ (∃ detail, (Scheduler.update_cron CronTrigger cron_expression s).2
                       = Scheduler.CronHTTPException 400 detail))).
Proof.
  intros Hinv. split; [|split; [|split]].
  - intros settings. by intros [=].
  - intros s' Hs'. destruct (start_job_present _ _ _ Hinv Hs') as [Hj Hr].
    split; [done|]. unfold SchedulerEndpoints.start_scheduler. by rewrite Hr.
  - unfold SchedulerEndpoints.start_scheduler.
    destruct (Scheduler.running s) eqn:Hrun; [done|].
    destruct (Scheduler.start CronTrigger s) as [s'|e] eqn:Hs; [|done].
    by destruct (start_job_present _ _ _ Hinv Hs).
  - intros cron_expression.
    unfold Scheduler.update_cron, Scheduler.update_schedule.
    case_bool_decide as Hlen.
    { split; [done|]. intros _. right. by eexists. }
    destruct (Scheduler.trigger_of_parts _ _) as [t|x] eqn:Ht.
    + destruct (Scheduler.running s) eqn:Hrun.
      * destruct (Hinv Hrun) as [j Hj]. rewrite Hj. simpl.
        split; [by intros _; eexists|]. intros _. left. by eexists.
      * split; [done|]. intros _. left. by eexists.
    + split.
      * destruct (is_Exception x); [done|]. by destruct (is_ValueError x).
      * intros Hexc. unfold Scheduler.trigger_of_parts in Ht.
        rewrite (Hexc _ _ _ _ _ _ Ht). right. by eexists.
Qed.

Lemma running_scheduler_has_job_witness :
  ∃ s,
    Scheduler.start ExampleRuns.CronTrigger (Scheduler.create Settings.default)
      = Returned s
    ∧ SchedulerEndpoints.job_present s
    ∧ SchedulerEndpoints.job_present
        (Scheduler.update_cron ExampleRuns.CronTrigger "61 8 * * 1-5" s).1.
Proof.
  eexists. split; [reflexivity|].
  assert (SchedulerEndpoints.job_present
            (Scheduler.create (Trigger:=list (option string)) Settings.default)) as H0.
  { intros H. discriminate H. }
  destruct (running_scheduler_has_job ExampleRuns.CronTrigger (λ _, None) _ H0)
    as (_ & Hstart & _).
  destruct (Hstart _ eq_refl) as [Hs _].
  split; [exact Hs|].
  destruct (running_scheduler_has_job ExampleRuns.CronTrigger (λ _, None) _ Hs)
    as (_ & _ & _ & Hcron).
  exact (proj1 (Hcron "61 8 * * 1-5")).
Defined.

(** ** The holdings endpoints *)

(** X27.  When the holdings endpoint fails with an [httpx.HTTPError], GET
    /holdings/performance and GET /holdings/fluctuations answer exactly as
    with [use_mock=true], whatever the error; GET /holdings does so only
    when the lower-cased message mentions "connect" or "timeout", and
    answers 502 with the message otherwise. *)
Theorem http_error_falls_back_to_mock
    (settings : Settings.t) (ticker_info : string → outcome PerformanceAnalyzer.info)
    (now : Z) (e : exn) (fetch : outcome HoldingsResponse.t) :
  is_HTTPError e = true →
  HoldingsRouter.get_holdings_performance settings ticker_info false now (Raised e)
  = HoldingsRouter.get_holdings_performance settings ticker_info true now fetch
  ∧ HoldingsRouter.get_fluctuations settings ticker_info false now (Raised e)
    = HoldingsRouter.get_fluctuations settings ticker_info true now fetch
  ∧ (HoldingsRouter.str_contains "connect" (lower (exn_msg e))
     || HoldingsRouter.str_contains "timeout" (lower (exn_msg e)) = true →
     HoldingsRouter.get_holdings false now (Raised e)
     = HoldingsRouter.get_holdings true now fetch)
  ∧ (HoldingsRouter.str_contains "connect" (lower (exn_msg e))
     || HoldingsRouter.str_contains "timeout" (lower (exn_msg e)) = false →
     HoldingsRouter.get_holdings false now (Raised e)
     = HoldingsRouter.HTTPException 502 ("Failed to fetch holdings: " +:+ exn_msg e)).
Proof.
  intros He.
  unfold HoldingsRouter.get_holdings_performance, HoldingsRouter.get_fluctuations,
    HoldingsRouter.holdings_for_analysis, HoldingsRouter.get_holdings.
  rewrite He. cbn [negb]. repeat split; by intros ->.
Qed.

(** A 503 of the endpoint: 502 on GET /holdings, the mock portfolio on
    GET /holdings/performance; a timeout gives the mock portfolio on
    both. *)
Lemma http_error_falls_back_to_mock_witness :
  HoldingsRouter.get_holdings false Examples.now
    (Raised (Exn HTTPError "Server error '503 Service Unavailable'"))
  = HoldingsRouter.HTTPException 502
      "Failed to fetch holdings: Server error '503 Service Unavailable'"
  ∧ HoldingsRouter.get_holdings false Examples.now
      (Raised (Exn HTTPError "Read Timeout"))
    = HoldingsRouter.Ok (HoldingsFetcher.get_mock_holdings Examples.now)
  ∧ HoldingsRouter.get_holdings_performance Settings.default
      (Depends.quote_info ExampleRuns.world) false Examples.now
      (Raised (Exn HTTPError "Server error '503 Service Unavailable'"))
    = HoldingsRouter.get_holdings_performance Settings.default
        (Depends.quote_info ExampleRuns.world) true Examples.now
        (Raised (Exn HTTPError "Server error '503 Service Unavailable'")).
Proof.
  pose proof (http_error_falls_back_to_mock Settings.default
                (Depends.quote_info ExampleRuns.world) Examples.now
                (Exn HTTPError "Server error '503 Service Unavailable'")
                (Raised (Exn HTTPError "Server error '503 Service Unavailable'"))
                eq_refl) as (Hp & _ & _ & H502).
  pose proof (http_error_falls_back_to_mock Settings.default
                (Depends.quote_info ExampleRuns.world) Examples.now
                (Exn HTTPError "Read Timeout")
                (Raised (Exn HTTPError "Read Timeout"))
                eq_refl) as (_ & _ & Hmock & _).
  split; [exact (H502 eq_refl)|]. split; [|exact Hp].
  rewrite (Hmock eq_refl). reflexivity.
Defined.
